(** * ClaudeLocal8: the task execution and retry engine of the shell

    A shallow embedding of [ClaudeLocal8.py]: the conversation store
    ([ConversationManager]), the file mutation guard
    ([FileOperationManager]), the command runner ([execute_command]), the
    action plan interpreter ([process_actions]) and the retry engine
    ([_process_input], [default]).

    Conventions of the embedding.
    - A Python [str] is the list of its code points.
    - A Python object that comes out of [json.loads], or goes into
      [json.dumps], is a value of [json].
    - The shell object, the files it touches, the clock and the console are
      one state record [Shell]; every method is a computation in the state
      and exception monad [M].
    - What the interpreter, the operating system and the remote model do is
      read from an environment [Env]: the JSON text codec, the formatting
      of dates, the outcome of a spawned process, the answer of the model.
    - [logger] calls write to a log file that nothing reads back; they are
      left out. *)

From Stdlib Require Import ZArith String Ascii List Lia DecimalString.
From stdpp Require Import base option list gmap strings.

Open Scope Z_scope.
Set Warnings "-register-all".

(** ** Python strings *)

Abbreviation str := (list N).

(** Decoding of a literal of this file (UTF-8 bytes) into code points. *)
Fixpoint utf8_decode (bs : list N) : str :=
  match bs with
  | [] => []
  | b0 :: r0 =>
      if (b0 <? 128)%N then b0 :: utf8_decode r0
      else if (b0 <? 224)%N then
        match r0 with
        | b1 :: r1 => ((b0 mod 32) * 64 + b1 mod 64)%N :: utf8_decode r1
        | _ => []
        end
      else if (b0 <? 240)%N then
        match r0 with
        | b1 :: b2 :: r2 =>
            ((b0 mod 16) * 4096 + (b1 mod 64) * 64 + b2 mod 64)%N
              :: utf8_decode r2
        | _ => []
        end
      else
        match r0 with
        | b1 :: b2 :: b3 :: r3 =>
            ((b0 mod 8) * 262144 + (b1 mod 64) * 4096
             + (b2 mod 64) * 64 + b3 mod 64)%N :: utf8_decode r3
        | _ => []
        end
  end.

Definition py (s : string) : str :=
  utf8_decode (map N_of_ascii (list_ascii_of_string s)).

Definition nl : str := [10%N].
Definition quote : str := [39%N].

(** [str(n)] for an [int]. *)
Definition str_of_Z (n : Z) : str := py (NilZero.string_of_int (Z.to_int n)).

(** [c.isspace()] for one character: the code points Python's [str]
    treats as whitespace. *)
Definition isspace (c : N) : bool :=
  ((9 <=? c) && (c <=? 13) || (28 <=? c) && (c <=? 32)
   || (c =? 133) || (c =? 160) || (c =? 5760)
   || (8192 <=? c) && (c <=? 8202) || (c =? 8232) || (c =? 8233)
   || (c =? 8239) || (c =? 8287) || (c =? 12288))%N.

(** [s.split()]: the maximal runs of characters that are not whitespace,
    in order. [cur] is the run being read. *)
Fixpoint split_from (cur : str) (s : str) : list str :=
  match s with
  | [] => match cur with [] => [] | _ => [cur] end
  | c :: s' =>
      if isspace c then
        match cur with
        | [] => split_from [] s'
        | _ => cur :: split_from [] s'
        end
      else split_from (cur ++ [c]) s'
  end.

Definition split (s : str) : list str := split_from [] s.

(** [s.split(sep)] for a separator of one character. *)
Fixpoint split_on_from (sep : N) (cur : str) (s : str) : list str :=
  match s with
  | [] => [cur]
  | c :: s' =>
      if (c =? sep)%N then cur :: split_on_from sep [] s'
      else split_on_from sep (cur ++ [c]) s'
  end.

Definition split_on (sep : N) (s : str) : list str := split_on_from sep [] s.

(** [s.strip()] *)
Fixpoint lstrip (s : str) : str :=
  match s with
  | [] => []
  | c :: s' => if isspace c then lstrip s' else s
  end.

Fixpoint rstrip (s : str) : str :=
  match s with
  | [] => []
  | c :: s' =>
      match rstrip s' with
      | [] => if isspace c then [] else [c]
      | r => c :: r
      end
  end.

Definition strip (s : str) : str := rstrip (lstrip s).

(** [s.startswith(sub)] *)
Fixpoint startswith (sub s : str) : bool :=
  match sub, s with
  | [], _ => true
  | a :: sub', b :: s' => (a =? b)%N && startswith sub' s'
  | _ :: _, [] => false
  end.

(** [s.count(sub)]: the occurrences found scanning from the left, each
    search resuming after the end of the previous match; [skip] is the
    number of characters of the last match still to step over. An empty
    [sub] is found between all characters and at both ends. *)
Fixpoint count_from (skip : nat) (sub s : str) : nat :=
  match s with
  | [] => 0%nat
  | _ :: s' =>
      match skip with
      | S k => count_from k sub s'
      | O =>
          if startswith sub s then S (count_from (length sub - 1) sub s')
          else count_from 0 sub s'
      end
  end.

Definition count (s sub : str) : nat :=
  match sub with
  | [] => S (length s)
  | _ => count_from 0 sub s
  end.

(** [s.replace(old, new)]: every occurrence that [count] counts is
    replaced. *)
Fixpoint replace_from (skip : nat) (old new s : str) : str :=
  match s with
  | [] => []
  | c :: s' =>
      match skip with
      | S k => replace_from k old new s'
      | O =>
          if startswith old s
          then new ++ replace_from (length old - 1) old new s'
          else c :: replace_from 0 old new s'
      end
  end.

Definition replace (s old new : str) : str :=
  match old with
  | [] => new ++ flat_map (fun c => c :: new) s
  | _ => replace_from 0 old new s
  end.

(** [s.capitalize()] on the ASCII letters. *)
Definition upper (c : N) : N :=
  if ((97 <=? c) && (c <=? 122))%N then (c - 32)%N else c.

Definition lower (c : N) : N :=
  if ((65 <=? c) && (c <=? 90))%N then (c + 32)%N else c.

Definition capitalize (s : str) : str :=
  match s with
  | [] => []
  | c :: s' => upper c :: map lower s'
  end.

(** The number of positions of [s] at which [sub] occurs, overlapping
    occurrences included: the count of matches of a text in a text. *)
Fixpoint occurrences (sub s : str) : nat :=
  ((if startswith sub s then 1 else 0)
   + match s with
     | [] => 0
     | _ :: s' => occurrences sub s'
     end)%nat.

(** ** Python values exchanged with [json] *)

Inductive json : Type :=
| JNull
| JBool (b : bool)
| JInt (n : Z)
| JFloat (bits : Z)        (* a float, carried as its IEEE 754 bit pattern *)
| JStr (s : str)
| JArr (items : list json)
| JObj (fields : list (str * json)). (* the items of a dict, keys distinct *)

(** [d.get(key)] on the items of a dict. *)
Fixpoint lookup_field (key : str) (fields : list (str * json)) : option json :=
  match fields with
  | [] => None
  | (k, v) :: rest => if bool_decide (k = key) then Some v else lookup_field key rest
  end.

Definition or_else {A} (o : option A) (fallback : A) : A :=
  match o with Some x => x | None => fallback end.

(** [isinstance(v, dict)] *)
Definition is_dict (v : json) : bool :=
  match v with JObj _ => true | _ => false end.

(** [isinstance(v, dict) and key in v] *)
Definition dict_has (v : json) (key : str) : bool :=
  match v with
  | JObj fields => bool_decide (is_Some (lookup_field key fields))
  | _ => false
  end.

(** [bool(v)] *)
Definition truthy (v : json) : bool :=
  match v with
  | JNull => false
  | JBool b => b
  | JInt n => negb (n =? 0)
  | JFloat bits => negb ((bits =? 0) || (bits =? 2 ^ 63))
  | JStr s => negb (bool_decide (s = []))
  | JArr items => match items with [] => false | _ => true end
  | JObj fields => match fields with [] => false | _ => true end
  end.

(** [type(v).__name__] *)
Definition type_name (v : json) : str :=
  match v with
  | JNull => py "NoneType"
  | JBool _ => py "bool"
  | JInt _ => py "int"
  | JFloat _ => py "float"
  | JStr _ => py "str"
  | JArr _ => py "list"
  | JObj _ => py "dict"
  end.

(** [iter(v)]: the elements a [for] loop visits, or [None] when the value
    is not iterable. *)
Definition py_iter (v : json) : option (list json) :=
  match v with
  | JArr items => Some items
  | JObj fields => Some (map (fun kv => JStr (fst kv)) fields)
  | JStr s => Some (map (fun c => JStr [c]) s)
  | _ => None
  end.

(** [l[i:]] *)
Definition slice_from {A} (i : Z) (l : list A) : list A :=
  if i <? 0 then drop (Z.to_nat (Z.of_nat (length l) + i)) l
  else drop (Z.to_nat i) l.

(** ** Paths

    A [Path] is kept as its normalised text: the components between
    slashes, without the empty ones and the dots. Links and [..] are not
    resolved. *)

Definition slash : N := 47%N.

Definition is_part (p : str) : bool :=
  negb (bool_decide (p = [])) && negb (bool_decide (p = py ".")).

Definition parts (s : str) : list str := filter is_part (split_on slash s).

Fixpoint join (sep : str) (l : list str) : str :=
  match l with
  | [] => []
  | [x] => x
  | x :: rest => x ++ sep ++ join sep rest
  end.

(** [str(Path(s))] *)
Definition Path (s : str) : str :=
  match startswith [slash] s, parts s with
  | true, ps => slash :: join [slash] ps
  | false, [] => py "."
  | false, ps => join [slash] ps
  end.

(** [Path(s).name] *)
Definition path_name (s : str) : str := List.last (parts s) [].

(** ** Data model *)

Record datetime := {
  micros : Z;                (* microseconds on the proleptic calendar *)
  utcoffset : option Z       (* [None] for a naive datetime *)
}.

#[global] Instance datetime_eq_dec : EqDecision datetime.
Proof. solve_decision. Defined.

Module MessageType.
Inductive t := USER | ASSISTANT | COMMAND | SYSTEM.

Definition value (m : t) : str :=
  match m with
  | USER => py "user"
  | ASSISTANT => py "assistant"
  | COMMAND => py "command"
  | SYSTEM => py "system"
  end.

(** [MessageType(v)] *)
Definition of_value (v : json) : option t :=
  match v with
  | JStr s =>
      if bool_decide (s = py "user") then Some USER
      else if bool_decide (s = py "assistant") then Some ASSISTANT
      else if bool_decide (s = py "command") then Some COMMAND
      else if bool_decide (s = py "system") then Some SYSTEM
      else None
  | _ => None
  end.
End MessageType.

Module TaskState.
Record t := {
  in_progress : bool;
  completed : bool;
  attempts : Z;
  max_attempts : Z;
  last_error : option str;
  start_time : datetime
}.

(** [TaskState()] at time [now]. *)
Definition new (now : datetime) : t :=
  {| in_progress := false; completed := false; attempts := 0;
     max_attempts := 3; last_error := None; start_time := now |}.

Definition should_retry (task : t) : bool :=
  in_progress task && negb (completed task)
  && (attempts task <? max_attempts task).

Definition set_in_progress (b : bool) (task : t) : t :=
  {| in_progress := b; completed := completed task;
     attempts := attempts task; max_attempts := max_attempts task;
     last_error := last_error task; start_time := start_time task |}.

Definition set_completed (b : bool) (task : t) : t :=
  {| in_progress := in_progress task; completed := b;
     attempts := attempts task; max_attempts := max_attempts task;
     last_error := last_error task; start_time := start_time task |}.

Definition set_attempts (n : Z) (task : t) : t :=
  {| in_progress := in_progress task; completed := completed task;
     attempts := n; max_attempts := max_attempts task;
     last_error := last_error task; start_time := start_time task |}.

Definition set_last_error (e : option str) (task : t) : t :=
  {| in_progress := in_progress task; completed := completed task;
     attempts := attempts task; max_attempts := max_attempts task;
     last_error := e; start_time := start_time task |}.

(** [check_in] at time [now]. *)
Definition check_in (now : datetime) (task : t) : str :=
  let seconds := ((micros now - micros (start_time task)) / 1000000) mod 86400 in
  let status :=
    py "Attempt " ++ str_of_Z (attempts task) ++ py "/"
      ++ str_of_Z (max_attempts task) ++ nl
      ++ py "Duration: " ++ str_of_Z seconds ++ py " seconds" ++ nl
      ++ py "Status: "
      ++ (if completed task then py "Completed" else py "In Progress") ++ nl in
  match last_error task with
  | Some (c :: e) => status ++ py "Last Error: " ++ (c :: e)
  | _ => status
  end.
End TaskState.

Record CommandOutput := {
  stdout : str;
  stderr : str;
  returncode : Z;
  execution_time : json
}.

Module ConversationEntry.
Record t := {
  type : MessageType.t;
  content : json;
  timestamp : datetime;
  metadata : json
}.
End ConversationEntry.

Module FileAction.
Record t := {
  file_path : str;
  command : str;
  content : option str;
  old_str : option str;
  new_str : option str
}.
End FileAction.

(** ** Exceptions *)

Inductive exn :=
| ValueError (msg : str)
| TypeError (msg : str)
| KeyError (key : str)
| AttributeError (msg : str)
| TimeoutError (msg : str)
| FileExistsError (msg : str)
| FileNotFoundError (msg : str)
| ValidationError (msg : str)
| Exception_ (msg : str)
| LibraryError (msg : str).   (* raised by the interpreter's libraries *)

(** [str(e)] *)
Definition str_exn (e : exn) : str :=
  match e with
  | KeyError key => quote ++ key ++ quote
  | ValueError msg | TypeError msg | AttributeError msg | TimeoutError msg
  | FileExistsError msg | FileNotFoundError msg | ValidationError msg
  | Exception_ msg | LibraryError msg => msg
  end.

Inductive Result (A : Type) :=
| Ok (a : A)
| Raise (e : exn).
Arguments Ok {A} a.
Arguments Raise {A} e.

(** ** The environment *)

(** What a spawned process does once [communicate] is awaited under the
    timeout. *)
Inductive ProcOutcome :=
| ProcDone (out err : str) (rc : Z)   (* it ends in time *)
| ProcTimeout                         (* [asyncio.TimeoutError] *)
| ProcFail (e : exn).                 (* spawning or waiting raises *)

(** What [client.messages.create] followed by [response.content[0].text]
    gives. *)
Inductive ApiOutcome :=
| ApiRaise (e : exn)       (* the request, or reading its text, raises *)
| ApiInvalid               (* a falsy response, or one without content *)
| ApiText (text : str).

Record Env := {
  (* json *)
  json_dumps : json -> str;
  json_loads : str -> option json;        (* [None]: JSONDecodeError *)
  (* datetime *)
  isoformat : datetime -> str;
  fromisoformat : str -> option datetime;
  strftime : datetime -> str;             (* format %Y%m%d_%H%M%S *)
  total_seconds : Z -> Z;                 (* microseconds to a float *)
  clock : nat -> Z;                       (* the n-th reading of the clock *)
  (* repr of a float, a list or a dict, as an f-string renders it *)
  py_repr : json -> str;
  (* pydantic: the text of the validation error for a rejected action *)
  validation_message : json -> str;
  (* the n-th spawned process, given its command, timeout and the files *)
  run_process : nat -> str -> json -> gmap str str -> ProcOutcome * gmap str str;
  (* the n-th request to the model *)
  client_create : nat -> ApiOutcome
}.

(** ** The shell state *)

Inductive Event :=
| EvPrint (text : str)
| EvSleep (seconds : Z)
| EvRequest (context task_status message : str)
| EvSpawn (command : str) (timeout : json)
| EvKill.

Record Shell := {
  history : list ConversationEntry.t;   (* conversation_manager.history *)
  history_size : Z;                     (* conversation_manager.history_size *)
  command_timeout : Z;                  (* config.command_timeout *)
  current_task : option TaskState.t;
  fs : gmap str str;                    (* the files, by path *)
  ticks : nat;                          (* readings of the clock so far *)
  spawned : nat;                        (* processes spawned so far *)
  requested : nat;                      (* model requests sent so far *)
  trace : list Event                    (* what the outside has seen *)
}.

Definition set_history (h : list ConversationEntry.t) (s : Shell) : Shell :=
  {| history := h; history_size := history_size s;
     command_timeout := command_timeout s; current_task := current_task s;
     fs := fs s; ticks := ticks s; spawned := spawned s;
     requested := requested s; trace := trace s |}.

Definition set_current_task (t : option TaskState.t) (s : Shell) : Shell :=
  {| history := history s; history_size := history_size s;
     command_timeout := command_timeout s; current_task := t;
     fs := fs s; ticks := ticks s; spawned := spawned s;
     requested := requested s; trace := trace s |}.

Definition set_fs (f : gmap str str) (s : Shell) : Shell :=
  {| history := history s; history_size := history_size s;
     command_timeout := command_timeout s; current_task := current_task s;
     fs := f; ticks := ticks s; spawned := spawned s;
     requested := requested s; trace := trace s |}.

Definition set_ticks (n : nat) (s : Shell) : Shell :=
  {| history := history s; history_size := history_size s;
     command_timeout := command_timeout s; current_task := current_task s;
     fs := fs s; ticks := n; spawned := spawned s;
     requested := requested s; trace := trace s |}.

Definition set_spawned (n : nat) (s : Shell) : Shell :=
  {| history := history s; history_size := history_size s;
     command_timeout := command_timeout s; current_task := current_task s;
     fs := fs s; ticks := ticks s; spawned := n;
     requested := requested s; trace := trace s |}.

Definition set_requested (n : nat) (s : Shell) : Shell :=
  {| history := history s; history_size := history_size s;
     command_timeout := command_timeout s; current_task := current_task s;
     fs := fs s; ticks := ticks s; spawned := spawned s;
     requested := n; trace := trace s |}.

Definition set_trace (tr : list Event) (s : Shell) : Shell :=
  {| history := history s; history_size := history_size s;
     command_timeout := command_timeout s; current_task := current_task s;
     fs := fs s; ticks := ticks s; spawned := spawned s;
     requested := requested s; trace := tr |}.

(** ** The state and exception monad *)

Definition M (A : Type) : Type := Shell -> Result A * Shell.

Definition ret {A} (a : A) : M A := fun s => (Ok a, s).

Definition bind {A B} (m : M A) (k : A -> M B) : M B :=
  fun s =>
    match m s with
    | (Ok a, s') => k a s'
    | (Raise e, s') => (Raise e, s')
    end.

Definition raise {A} (e : exn) : M A := fun s => (Raise e, s).

(** [try: m  except Exception as e: handler e] *)
Definition try_except {A} (m : M A) (handler : exn -> M A) : M A :=
  fun s =>
    match m s with
    | (Ok a, s') => (Ok a, s')
    | (Raise e, s') => handler e s'
    end.

Definition get : M Shell := fun s => (Ok s, s).
Definition modify (f : Shell -> Shell) : M unit := fun s => (Ok tt, f s).

Declare Scope py_scope.
Delimit Scope py_scope with py_m.
Bind Scope py_scope with M.
Notation "x <- m ;; k" := (bind m (fun x => k))
  (at level 100, m at next level, right associativity) : py_scope.
Notation "m ;; k" := (bind m (fun _ => k))
  (at level 100, right associativity) : py_scope.
Open Scope py_scope.

Fixpoint for_each {A} (body : A -> M unit) (l : list A) : M unit :=
  match l with
  | [] => ret tt
  | x :: rest => body x ;; for_each body rest
  end.

Definition emit (ev : Event) : M unit :=
  modify (fun s => set_trace (trace s ++ [ev]) s).

Definition print (text : str) : M unit := emit (EvPrint text).

(** [await asyncio.sleep(seconds)] *)
Definition sleep (seconds : Z) : M unit := emit (EvSleep seconds).

Section Program.
Variable env : Env.

(** [datetime.now()] *)
Definition now : M datetime :=
  fun s =>
    (Ok {| micros := clock env (ticks s); utcoffset := None |},
     set_ticks (S (ticks s)) s).

(** [f"{v}"] *)
Definition py_str (v : json) : str :=
  match v with
  | JStr s => s
  | JInt n => str_of_Z n
  | JBool true => py "True"
  | JBool false => py "False"
  | JNull => py "None"
  | _ => py_repr env v
  end.

(** [v[key]] *)
Definition getitem (v : json) (key : str) : M json :=
  match v with
  | JObj fields =>
      match lookup_field key fields with
      | Some x => ret x
      | None => raise (KeyError key)
      end
  | JStr _ => raise (TypeError (py "string indices must be integers"))
  | JArr _ => raise (TypeError (py "list indices must be integers or slices, not str"))
  | _ => raise (TypeError (quote ++ type_name v ++ quote ++ py " object is not subscriptable"))
  end.

(** [v.get(key, fallback)] for a dict [v]. *)
Definition get_default (v : json) (key : str) (fallback : json) : json :=
  match v with
  | JObj fields => or_else (lookup_field key fields) fallback
  | _ => fallback
  end.

(** *** Files *)

Definition exists_ (path : str) : M bool :=
  s <- get ;; ret (bool_decide (is_Some (fs s !! path))).

Definition read_text (path : str) : M str :=
  s <- get ;;
  match fs s !! path with
  | Some data => ret data
  | None =>
      raise (FileNotFoundError
               (py "[Errno 2] No such file or directory: " ++ quote ++ path ++ quote))
  end.

Definition write_text (path : str) (data : option str) : M unit :=
  match data with
  | Some text => modify (fun s => set_fs (<[path := text]> (fs s)) s)
  | None => raise (TypeError (py "data must be str, not NoneType"))
  end.

(** *** ConversationManager *)

Definition history_file : str := Path (py "conversation_history.json").

Definition entry_data (entry : ConversationEntry.t) : json :=
  JObj [ (py "type", JStr (MessageType.value (ConversationEntry.type entry)));
         (py "content", ConversationEntry.content entry);
         (py "timestamp", JStr (isoformat env (ConversationEntry.timestamp entry)));
         (py "metadata", ConversationEntry.metadata entry) ].

Definition history_data (h : list ConversationEntry.t) : json :=
  JArr (map entry_data h).

Definition _save_history : M unit :=
  s <- get ;;
  write_text history_file (Some (json_dumps env (history_data (history s)))).

(** One element of the list comprehension of [_load_history]; [None] when
    building the entry raises. *)
Definition load_entry (entry : json) : option ConversationEntry.t :=
  match entry with
  | JObj fields =>
      ty ← lookup_field (py "type") fields ≫= MessageType.of_value ;
      c ← lookup_field (py "content") fields ;
      ts ← lookup_field (py "timestamp") fields ;
      t ← match ts with JStr text => fromisoformat env text | _ => None end ;
      md ← lookup_field (py "metadata") fields ;
      Some {| ConversationEntry.type := ty; ConversationEntry.content := c;
              ConversationEntry.timestamp := t; ConversationEntry.metadata := md |}
  | _ => None
  end.

Definition load_entries (data : json) : option (list ConversationEntry.t) :=
  py_iter data ≫= mapM load_entry.

Definition _load_history : M unit :=
  s <- get ;;
  match fs s !! history_file with
  | Some text =>
      match json_loads env text ≫= load_entries with
      | Some h => modify (set_history h)
      | None => ret tt
      end
  | None => ret tt
  end.

(** [ConversationManager(history_size)] *)
Definition ConversationManager_init (size : Z) : M unit :=
  modify (fun s =>
    {| history := []; history_size := size;
       command_timeout := command_timeout s; current_task := current_task s;
       fs := fs s; ticks := ticks s; spawned := spawned s;
       requested := requested s; trace := trace s |}) ;;
  _load_history.

Definition add_entry (entry : ConversationEntry.t) : M unit :=
  modify (fun s => set_history (history s ++ [entry]) s) ;;
  s <- get ;;
  (if Z.of_nat (length (history s)) >? history_size s
   then modify (set_history (drop 1 (history s)))
   else ret tt) ;;
  _save_history.

(** [ConversationEntry(type=ty, content=c, metadata=md)] *)
Definition new_entry (ty : MessageType.t) (c : json) (md : json)
  : M ConversationEntry.t :=
  t <- now ;;
  ret {| ConversationEntry.type := ty; ConversationEntry.content := c;
         ConversationEntry.timestamp := t; ConversationEntry.metadata := md |}.

(** One entry of [get_recent_context]. *)
Definition format_entry (entry : ConversationEntry.t) : Result str :=
  match ConversationEntry.type entry with
  | MessageType.COMMAND =>
      match ConversationEntry.metadata entry with
      | JObj fields =>
          let cmd_text :=
            py "Command executed: " ++ py_str (ConversationEntry.content entry) ++ nl in
          let out := or_else (lookup_field (py "stdout") fields) JNull in
          let cmd_text :=
            if truthy out
            then cmd_text ++ py "└─ Output: " ++ py_str out ++ nl else cmd_text in
          let err := or_else (lookup_field (py "stderr") fields) JNull in
          let cmd_text :=
            if truthy err
            then cmd_text ++ py "└─ Errors: " ++ py_str err ++ nl else cmd_text in
          Ok cmd_text
      | md =>
          Raise (AttributeError
                   (quote ++ type_name md ++ quote ++ py " object has no attribute 'get'"))
      end
  | ty =>
      Ok (capitalize (MessageType.value ty) ++ py ": "
            ++ py_str (ConversationEntry.content entry))
  end.

Fixpoint format_entries (l : list ConversationEntry.t) : Result (list str) :=
  match l with
  | [] => Ok []
  | entry :: rest =>
      match format_entry entry with
      | Ok text =>
          match format_entries rest with
          | Ok texts => Ok (text :: texts)
          | Raise e => Raise e
          end
      | Raise e => Raise e
      end
  end.

Definition get_recent_context : M str :=
  s <- get ;;
  match format_entries (slice_from (- history_size s) (history s)) with
  | Ok texts => ret (join nl texts)
  | Raise e => raise e
  end.

(** *** FileOperationManager *)

Definition backup_dir : str := Path (py "backups").

(** [self.backup_dir / f"{file_path.name}.{timestamp}.bak"] *)
Definition backup_path (file_path : str) (t : datetime) : str :=
  Path (backup_dir ++ [slash]
          ++ path_name file_path ++ py "." ++ strftime env t ++ py ".bak").

Definition create_backup (file_path : str) : M unit :=
  s <- get ;;
  match fs s !! file_path with
  | Some data =>
      t <- now ;;
      write_text (backup_path file_path t) (Some data)
  | None => ret tt
  end.

Definition update_file (file_path : str) (old_str new_str : option str) : M bool :=
  try_except
    (let path := Path file_path in
     create_backup path ;;
     content <- read_text path ;;
     match old_str with
     | None => raise (TypeError (py "must be str, not NoneType"))
     | Some old =>
         if negb (count content old =? 1)%nat
         then raise (ValueError
                       (py "Found " ++ str_of_Z (Z.of_nat (count content old))
                          ++ py " occurrences of the target string. Must be exactly 1 for safety."))
         else
           match new_str with
           | None => raise (TypeError (py "replace() argument 2 must be str, not None"))
           | Some new =>
               write_text path (Some (replace content old new)) ;;
               ret true
           end
     end)
    (fun _ => ret false).

Definition rewrite_file (file_path : str) (content : option str) : M bool :=
  try_except
    (let path := Path file_path in
     create_backup path ;;
     write_text path content ;;
     ret true)
    (fun _ => ret false).

Definition create_file (file_path : str) (content : option str) : M bool :=
  try_except
    (let path := Path file_path in
     found <- exists_ path ;;
     (if found
      then raise (FileExistsError (py "File " ++ file_path ++ py " already exists"))
      else ret tt) ;;
     write_text path content ;;
     ret true)
    (fun _ => ret false).

(** *** The command runner *)

Definition blocked_commands : list str :=
  [py "rm"; py "sudo"; py "su"; py "dd"].

(** [any(cmd in command.split() for cmd in blocked_commands)] *)
Definition is_blocked (command : str) : bool :=
  existsb (fun cmd => bool_decide (cmd ∈ split command)) blocked_commands.

Definition execute_command (command : json) (timeout : json) : M CommandOutput :=
  start_time <- now ;;
  match command with
  | JStr c =>
      if is_blocked c
      then raise (ValueError (py "Command contains blocked terms: " ++ c))
      else
        s <- get ;;
        emit (EvSpawn c timeout) ;;
        let (outcome, files) := run_process env (spawned s) c timeout (fs s) in
        modify (fun s => set_fs files (set_spawned (S (spawned s)) s)) ;;
        match outcome with
        | ProcDone out err rc =>
            end_time <- now ;;
            ret {| stdout := strip out; stderr := strip err; returncode := rc;
                   execution_time :=
                     JFloat (total_seconds env (micros end_time - micros start_time)) |}
        | ProcTimeout =>
            emit EvKill ;;
            raise (TimeoutError
                     (py "Command timed out after " ++ py_str timeout
                        ++ py " seconds: " ++ c))
        | ProcFail e => raise e
        end
  | _ =>
      raise (AttributeError
               (quote ++ type_name command ++ quote ++ py " object has no attribute 'split'"))
  end.

(** *** The action plan interpreter *)

(** [v == text] for a string literal. *)
Definition is_str (v : json) (text : str) : bool :=
  match v with
  | JStr s => bool_decide (s = text)
  | _ => false
  end.

(** A field of [FileAction] declared [str]. *)
Definition required_str (action : json) (key : str) : option str :=
  match action with
  | JObj fields =>
      match lookup_field key fields with
      | Some (JStr s) => Some s
      | _ => None
      end
  | _ => None
  end.

(** A field of [FileAction] declared [Optional[str] = None]; the outer
    [None] is a value the model rejects. *)
Definition optional_str (action : json) (key : str) : option (option str) :=
  match action with
  | JObj fields =>
      match lookup_field key fields with
      | None | Some JNull => Some None
      | Some (JStr s) => Some (Some s)
      | Some _ => None
      end
  | _ => None
  end.

(** The [FileAction] built from the keys of [action], as pydantic
    validates it. *)
Definition FileAction_of (action : json) : M FileAction.t :=
  match
    (fp ← required_str action (py "file_path") ;
     cmd ← required_str action (py "command") ;
     c ← optional_str action (py "content") ;
     o ← optional_str action (py "old_str") ;
     n ← optional_str action (py "new_str") ;
     Some {| FileAction.file_path := fp; FileAction.command := cmd;
             FileAction.content := c; FileAction.old_str := o;
             FileAction.new_str := n |})
  with
  | Some file_action => ret file_action
  | None => raise (ValidationError (validation_message env action))
  end.

(** [if self.current_task: self.current_task.last_error = text] *)
Definition record_error (text : str) : M unit :=
  modify (fun s =>
    match current_task s with
    | Some task => set_current_task (Some (TaskState.set_last_error (Some text) task)) s
    | None => s
    end).

Definition print_block (title : str) (text : str) : M unit :=
  match text with
  | [] => ret tt
  | _ =>
      print (py "│" ++ nl ++ py "│ " ++ title) ;;
      for_each (fun line => print (py "│ " ++ line)) (split_on 10%N text)
  end.

(** The body of the [try] around one action. *)
Definition run_action (action : json) : M unit :=
  ty <- getitem action (py "type") ;;
  if is_str ty (py "command") then
    print (nl ++ py "┌─ Executing Command") ;;
    cmd <- getitem action (py "command") ;;
    print (py "│ " ++ py_str cmd) ;;
    s <- get ;;
    result <- execute_command cmd
                (get_default action (py "timeout") (JInt (command_timeout s))) ;;
    print_block (py "Output:") (stdout result) ;;
    print_block (py "Errors:") (stderr result) ;;
    print (py "└────────────────────") ;;
    entry <- new_entry MessageType.COMMAND cmd
               (JObj [ (py "stdout", JStr (stdout result));
                       (py "stderr", JStr (stderr result));
                       (py "returncode", JInt (returncode result));
                       (py "execution_time", execution_time result) ]) ;;
    add_entry entry ;;
    if negb (returncode result =? 0)
    then raise (Exception_ (py "Command failed: " ++ stderr result))
    else ret tt
  else if is_str ty (py "say") then
    msg <- getitem action (py "message") ;;
    print (nl ++ py "Assistant: " ++ py_str msg) ;;
    entry <- new_entry MessageType.ASSISTANT msg (JObj []) ;;
    add_entry entry
  else if is_str ty (py "file") then
    file_action <- FileAction_of action ;;
    print (nl ++ py "┌─ File Operation") ;;
    print (py "│ " ++ FileAction.command file_action ++ py " on "
             ++ FileAction.file_path file_action) ;;
    success <-
      (if bool_decide (FileAction.command file_action = py "update") then
         update_file (FileAction.file_path file_action)
           (FileAction.old_str file_action) (FileAction.new_str file_action)
       else if bool_decide (FileAction.command file_action = py "rewrite") then
         rewrite_file (FileAction.file_path file_action)
           (FileAction.content file_action)
       else if bool_decide (FileAction.command file_action = py "create") then
         create_file (FileAction.file_path file_action)
           (FileAction.content file_action)
       else ret false) ;;
    print (py "└─ Operation "
             ++ (if success then py "completed successfully" else py "failed")) ;;
    if success then ret tt
    else raise (Exception_ (py "File operation "
                              ++ FileAction.command file_action ++ py " failed"))
  else ret tt.

(** One turn of the loop over the actions. *)
Definition process_action (action : json) : M unit :=
  if negb (dict_has action (py "type")) then ret tt
  else
    try_except (run_action action)
      (fun action_error =>
         print (nl ++ py "Error processing action: " ++ str_exn action_error) ;;
         record_error (str_exn action_error)).

Definition rule : str := py "═══════════════════".

Definition process_actions (actions_data : json) : M unit :=
  if negb (dict_has actions_data (py "actions"))
  then raise (ValueError (py "Invalid actions data format"))
  else
    try_except
      (print (nl ++ rule ++ py " Executing Actions " ++ rule) ;;
       actions <- getitem actions_data (py "actions") ;;
       match py_iter actions with
       | Some items => for_each process_action items
       | None =>
           raise (TypeError
                    (quote ++ type_name actions ++ quote ++ py " object is not iterable"))
       end ;;
       print (nl ++ rule ++ rule ++ py "═════════════════"))
      (fun e =>
         print (nl ++ py "Error executing actions: " ++ str_exn e) ;;
         record_error (str_exn e) ;;
         raise e).

(** *** The retry engine *)

(** [self.current_task], whose attribute [attr] is about to be used. *)
Definition the_task (attr : str) : M TaskState.t :=
  s <- get ;;
  match current_task s with
  | Some task => ret task
  | None =>
      raise (AttributeError
               (py "'NoneType' object has no attribute " ++ quote ++ attr ++ quote))
  end.

(** An assignment to an attribute of [self.current_task]. *)
Definition update_task (attr : str) (f : TaskState.t -> TaskState.t) : M unit :=
  task <- the_task attr ;;
  modify (set_current_task (Some (f task))).

(** [self.current_task.check_in()] *)
Definition check_in : M str :=
  task <- the_task (py "check_in") ;;
  t <- now ;;
  ret (TaskState.check_in t task).

Definition send_to_anthropic (message : str) : M (option str) :=
  context <- get_recent_context ;;
  s <- get ;;
  task_status <-
    match current_task s with
    | Some _ =>
        status <- check_in ;;
        ret (nl ++ py "Current Task Status:" ++ nl ++ status ++ nl)
    | None => ret []
    end ;;
  try_except
    (s <- get ;;
     emit (EvRequest context task_status message) ;;
     modify (fun s => set_requested (S (requested s)) s) ;;
     match client_create env (requested s) with
     | ApiRaise e => raise e
     | ApiInvalid => raise (ValueError (py "Invalid response from Anthropic API"))
     | ApiText text => ret (Some (strip text))
     end)
    (fun e => record_error (str_exn e) ;; ret None).

(** The plain conversational reply of [_process_input]. *)
Definition reply (response : str) : M unit :=
  print (nl ++ py "Assistant: " ++ response) ;;
  entry <- new_entry MessageType.ASSISTANT (JStr response) (JObj []) ;;
  add_entry entry ;;
  update_task (py "completed") (TaskState.set_completed true).

(** One iteration of the [while] of [_process_input]; the result is [true]
    when the iteration leaves the loop by [break]. *)
Definition attempt (line : str) : M bool :=
  try_except
    (update_task (py "attempts")
       (fun task => TaskState.set_attempts (TaskState.attempts task + 1) task) ;;
     task <- the_task (py "attempts") ;;
     (if TaskState.attempts task >? 1
      then print (nl ++ py "Retrying task...") ;;
           status <- check_in ;;
           print status
      else ret tt) ;;
     response <- send_to_anthropic line ;;
     match response with
     | Some (c :: rest) =>
         let response := c :: rest in
         match json_loads env response with
         | Some actions_data =>
             if dict_has actions_data (py "actions") then
               process_actions actions_data ;;
               if negb (truthy (get_default actions_data (py "needs_followup") JNull))
               then update_task (py "completed") (TaskState.set_completed true) ;;
                    ret true
               else ret false
             else reply response ;; ret true
         | None => reply response ;; ret true
         end
     | _ =>
         print (nl ++ py "No response received from Claude.") ;;
         update_task (py "last_error")
           (TaskState.set_last_error (Some (py "No response received"))) ;;
         ret false
     end)
    (fun e =>
       print (nl ++ py "Error: " ++ str_exn e) ;;
       update_task (py "last_error") (TaskState.set_last_error (Some (str_exn e))) ;;
       task <- the_task (py "should_retry") ;;
       (if TaskState.should_retry task
        then let retry_delay := 2 ^ (TaskState.attempts task - 1) in
             print (nl ++ py "Waiting " ++ str_of_Z retry_delay
                      ++ py " seconds before retrying...") ;;
             sleep retry_delay
        else ret tt) ;;
       ret false).

(** The [while] loop, unrolled at most [fuel] times; the result is [false]
    when [fuel] iterations were not enough to leave it. *)
Fixpoint retry_loop (fuel : nat) (line : str) : M bool :=
  task <- the_task (py "should_retry") ;;
  if TaskState.should_retry task then
    match fuel with
    | O => ret false
    | S fuel' =>
        left <- attempt line ;;
        if left then ret true else retry_loop fuel' line
    end
  else ret true.

(** Every iteration adds one to [attempts] and the loop stops when it
    reaches [max_attempts]: the loop is unrolled that many times. *)
Definition _process_input (line : str) : M unit :=
  task <- the_task (py "should_retry") ;;
  retry_loop (Z.to_nat (TaskState.max_attempts task - TaskState.attempts task)) line ;;
  task <- the_task (py "completed") ;;
  if TaskState.completed task then ret tt
  else
    print (nl ++ py "Failed to complete task after maximum attempts.") ;;
    status <- check_in ;;
    print status.

Definition default (line : str) : M unit :=
  match strip line with
  | [] => ret tt
  | _ =>
      entry <- new_entry MessageType.USER (JStr line) (JObj []) ;;
      add_entry entry ;;
      t <- now ;;
      modify (set_current_task (Some (TaskState.new t))) ;;
      update_task (py "in_progress") (TaskState.set_in_progress true) ;;
      _process_input line
  end.

End Program.

(** ** The API key

    [get_api_key] reads the key from [API_KEY.txt] with [re.search] and a
    pattern made of: the text [API_KEY], any whitespace, an equals sign,
    any whitespace, a quote (single or double), a group of one or more
    characters that are not quotes, a quote. Each repetition of the
    pattern is followed by a character outside its class, so a match from
    a given position is found without backtracking: all the whitespace is
    skipped, and the group is the longest run without a quote. *)

Definition is_quote (c : N) : bool := ((c =? 39) || (c =? 34))%N.

(** The longest prefix of [s] without a quote, and the rest. *)
Fixpoint key_chars (s : str) : str * str :=
  match s with
  | [] => ([], [])
  | c :: rest =>
      if is_quote c then ([], s)
      else let (key, after) := key_chars rest in (c :: key, after)
  end.

(** The group of a match of the pattern at the start of [s]. *)
Definition match_api_key (s : str) : option str :=
  if startswith (py "API_KEY") s then
    match lstrip (drop (length (py "API_KEY")) s) with
    | 61%N :: s1 =>
        match lstrip s1 with
        | q :: s2 =>
            if is_quote q then
              match key_chars s2 with
              | (c :: key, _ :: _) => Some (c :: key)
              | _ => None
              end
            else None
        | [] => None
        end
    | _ => None
    end
  else None.

(** [re.search]: the match at the leftmost position that has one. *)
Fixpoint search_api_key (s : str) : option str :=
  match match_api_key s with
  | Some key => Some key
  | None =>
      match s with
      | [] => None
      | _ :: rest => search_api_key rest
      end
  end.

(** What a call gives that may end the process with [sys.exit]. *)
Inductive OrExit (A : Type) :=
| Returned (a : A)
| Exited (code : Z).
Arguments Returned {A} a.
Arguments Exited {A} code.

Definition api_key_path : str := Path (py "./API_KEY.txt").

Definition get_api_key : M (OrExit str) :=
  try_except
    (found <- exists_ api_key_path ;;
     (if negb found
      then raise (FileNotFoundError (py "API_KEY.txt file not found"))
      else ret tt) ;;
     text <- read_text api_key_path ;;
     let key_content := strip text in
     match search_api_key key_content with
     | None =>
         raise (ValueError
                  (py "Could not parse API key from file. Expected format: API_KEY='your-key-here'"))
     | Some api_key =>
         if bool_decide (api_key = []) || (length api_key <? 10)%nat
         then raise (ValueError (py "Invalid API key format"))
         else ret (Returned api_key)
     end)
    (fun key_error =>
       print (py "Error reading API key: " ++ str_exn key_error) ;;
       print (py "Please ensure API_KEY.txt exists with format: API_KEY='your-key-here'") ;;
       ret (Exited 1)).

(** ** Statistics *)

#[global] Instance message_type_eq_dec : EqDecision MessageType.t.
Proof. solve_decision. Defined.

(** [sum(1 for entry in history if entry.type == ty)] *)
Definition count_type (ty : MessageType.t) (h : list ConversationEntry.t) : nat :=
  length (List.filter (fun entry => bool_decide (ConversationEntry.type entry = ty)) h).

(** The result is [False]: the command loop goes on. *)
Definition do_stats (arg : str) : M bool :=
  s <- get ;;
  let total_entries := length (history s) in
  let user_messages := count_type MessageType.USER (history s) in
  let assistant_messages := count_type MessageType.ASSISTANT (history s) in
  let commands := count_type MessageType.COMMAND (history s) in
  print (nl ++ py "═══════════════ Conversation Statistics ═══════════════") ;;
  print (py "Total Entries: " ++ str_of_Z (Z.of_nat total_entries)) ;;
  print (py "User Messages: " ++ str_of_Z (Z.of_nat user_messages)) ;;
  print (py "Assistant Messages: " ++ str_of_Z (Z.of_nat assistant_messages)) ;;
  print (py "Commands Executed: " ++ str_of_Z (Z.of_nat commands)) ;;
  print (py "═══════════════════════════════════════════════════════") ;;
  ret false.

(** ** An environment to run the program on

    A JSON text codec, the ISO rendering of dates, the conversion of a
    duration to a float, a clock that advances one second per reading, a
    handful of commands and a scripted model. The examples and the
    witnesses of the theorems evaluate the program in it. *)

Module Sample.

Definition dq : N := 34%N.
Definition backslash : N := 92%N.

Fixpoint escape (s : str) : str :=
  match s with
  | [] => []
  | c :: rest =>
      if ((c =? dq) || (c =? backslash))%N then backslash :: c :: escape rest
      else c :: escape rest
  end.

Definition dumps_str (s : str) : str := dq :: escape s ++ [dq].

Fixpoint dumps (v : json) : str :=
  match v with
  | JNull => py "null"
  | JBool true => py "true"
  | JBool false => py "false"
  | JInt n => str_of_Z n
  | JFloat bits => str_of_Z bits ++ py "f"
  | JStr s => dumps_str s
  | JArr items => py "[" ++ join (py ",") (map dumps items) ++ py "]"
  | JObj fields =>
      py "{"
        ++ join (py ",")
             (map (fun kv => dumps_str (fst kv) ++ py ":" ++ dumps (snd kv)) fields)
        ++ py "}"
  end.

Definition is_digit (c : N) : bool := ((48 <=? c) && (c <=? 57))%N.

Fixpoint read_digits (acc : Z) (s : str) : Z * str :=
  match s with
  | c :: rest =>
      if is_digit c then read_digits (acc * 10 + Z.of_N (c - 48)) rest
      else (acc, s)
  | [] => (acc, [])
  end.

(** The text of a string, after its opening quote. *)
Fixpoint read_string (s : str) : option (str * str) :=
  match s with
  | [] => None
  | c :: rest =>
      if (c =? dq)%N then Some ([], rest)
      else if (c =? backslash)%N then
        match rest with
        | d :: rest' =>
            match read_string rest' with
            | Some (text, after) => Some (d :: text, after)
            | None => None
            end
        | [] => None
        end
      else
        match read_string rest with
        | Some (text, after) => Some (c :: text, after)
        | None => None
        end
  end.

Definition read_number (s : str) : option (json * str) :=
  let (negative, digits) :=
    match s with
    | 45%N :: rest => (true, rest)
    | _ => (false, s)
    end in
  match digits with
  | c :: _ =>
      if is_digit c then
        let (n, after) := read_digits 0 digits in
        let n := if negative then - n else n in
        match after with
        | 102%N :: after' => Some (JFloat n, after')
        | _ => Some (JInt n, after)
        end
      else None
  | [] => None
  end.

Fixpoint read_value (fuel : nat) (s : str) : option (json * str) :=
  match fuel with
  | O => None
  | S fuel' =>
      match lstrip s with
      | [] => None
      | c :: rest =>
          if startswith (py "null") (c :: rest) then Some (JNull, drop 3 rest)
          else if startswith (py "true") (c :: rest) then Some (JBool true, drop 3 rest)
          else if startswith (py "false") (c :: rest) then Some (JBool false, drop 4 rest)
          else if (c =? dq)%N then
            match read_string rest with
            | Some (text, after) => Some (JStr text, after)
            | None => None
            end
          else if (c =? 91)%N then
            match lstrip rest with
            | 93%N :: after => Some (JArr [], after)
            | _ =>
                match read_items fuel' rest with
                | Some (items, after) => Some (JArr items, after)
                | None => None
                end
            end
          else if (c =? 123)%N then
            match lstrip rest with
            | 125%N :: after => Some (JObj [], after)
            | _ =>
                match read_fields fuel' rest with
                | Some (fields, after) => Some (JObj fields, after)
                | None => None
                end
            end
          else read_number (c :: rest)
      end
  end
with read_items (fuel : nat) (s : str) : option (list json * str) :=
  match fuel with
  | O => None
  | S fuel' =>
      match read_value fuel' s with
      | Some (v, after) =>
          match lstrip after with
          | 44%N :: more =>
              match read_items fuel' more with
              | Some (items, after') => Some (v :: items, after')
              | None => None
              end
          | 93%N :: after' => Some ([v], after')
          | _ => None
          end
      | None => None
      end
  end
with read_fields (fuel : nat) (s : str) : option (list (str * json) * str) :=
  match fuel with
  | O => None
  | S fuel' =>
      match lstrip s with
      | 34%N :: rest =>
          match read_string rest with
          | Some (key, after_key) =>
              match lstrip after_key with
              | 58%N :: after_colon =>
                  match read_value fuel' after_colon with
                  | Some (v, after) =>
                      match lstrip after with
                      | 44%N :: more =>
                          match read_fields fuel' more with
                          | Some (fields, after') => Some ((key, v) :: fields, after')
                          | None => None
                          end
                      | 125%N :: after' => Some ([(key, v)], after')
                      | _ => None
                      end
                  | None => None
                  end
              | _ => None
              end
          | None => None
          end
      | _ => None
      end
  end.

Definition loads (text : str) : option json :=
  match read_value (S (length text)) text with
  | Some (v, after) =>
      match lstrip after with
      | [] => Some v
      | _ => None
      end
  | None => None
  end.
(** Dates: the civil calendar from a count of days, and back. *)
Definition civil_from_days (days : Z) : Z * Z * Z :=
  let z := days + 719468 in
  let era := z / 146097 in
  let doe := z - era * 146097 in
  let yoe := (doe - doe / 1460 + doe / 36524 - doe / 146096) / 365 in
  let doy := doe - (365 * yoe + yoe / 4 - yoe / 100) in
  let mp := (5 * doy + 2) / 153 in
  let d := doy - (153 * mp + 2) / 5 + 1 in
  let m := if mp <? 10 then mp + 3 else mp - 9 in
  (if m <=? 2 then yoe + era * 400 + 1 else yoe + era * 400, m, d).

Definition days_from_civil (y m d : Z) : Z :=
  let y := if m <=? 2 then y - 1 else y in
  let era := y / 400 in
  let yoe := y - era * 400 in
  let doy := (153 * (if 2 <? m then m - 3 else m + 9) + 2) / 5 + d - 1 in
  let doe := yoe * 365 + yoe / 4 - yoe / 100 + doy in
  era * 146097 + doe - 719468.

Definition pad (width : nat) (n : Z) : str :=
  let digits := str_of_Z n in
  replicate (width - length digits) 48%N ++ digits.

Definition day_micros : Z := 86400000000.

(** Days from 0001-01-01 to 1970-01-01. *)
Definition epoch_days : Z := 719162.

Definition render (date_sep mid time_sep : str) (t : datetime) : str :=
  let '(y, m, d) := civil_from_days (micros t / day_micros - epoch_days) in
  let secs := (micros t mod day_micros) / 1000000 in
  pad 4 y ++ date_sep ++ pad 2 m ++ date_sep ++ pad 2 d ++ mid
    ++ pad 2 (secs / 3600) ++ time_sep ++ pad 2 (secs / 60 mod 60)
    ++ time_sep ++ pad 2 (secs mod 60).

Definition isoformat (t : datetime) : str :=
  let us := micros t mod 1000000 in
  render (py "-") (py "T") (py ":") t
    ++ (if us =? 0 then [] else py "." ++ pad 6 us)
    ++ match utcoffset t with
       | None => []
       | Some off =>
           (if off <? 0 then py "-" else py "+")
             ++ pad 2 (Z.abs off / 3600) ++ py ":" ++ pad 2 (Z.abs off / 60 mod 60)
       end.

Definition strftime (t : datetime) : str := render [] (py "_") [] t.

(** The number written by [width] digits at the head of [s]. *)
Definition read_fixed (width : nat) (s : str) : option (Z * str) :=
  let digits := take width s in
  if bool_decide (length digits = width) && forallb is_digit digits
  then Some (fst (read_digits 0 digits), drop width s)
  else None.

Definition expect (c : N) (s : str) : option str :=
  match s with
  | c' :: rest => if (c' =? c)%N then Some rest else None
  | [] => None
  end.

Definition fromisoformat (text : str) : option datetime :=
  '(y, s) ← read_fixed 4 text ; s ← expect 45 s ;
  '(m, s) ← read_fixed 2 s ; s ← expect 45 s ;
  '(d, s) ← read_fixed 2 s ; s ← expect 84 s ;
  '(hh, s) ← read_fixed 2 s ; s ← expect 58 s ;
  '(mm, s) ← read_fixed 2 s ; s ← expect 58 s ;
  '(ss, s) ← read_fixed 2 s ;
  '(us, s) ← match s with
             | 46%N :: s' => read_fixed 6 s'
             | _ => Some (0, s)
             end ;
  off ← match s with
        | [] => Some None
        | sign :: s' =>
            '(oh, s') ← read_fixed 2 s' ; s' ← expect 58 s' ;
            '(om, s') ← read_fixed 2 s' ;
            match s' with
            | [] =>
                if (sign =? 43)%N then Some (Some (oh * 3600 + om * 60))
                else if (sign =? 45)%N then Some (Some (- (oh * 3600 + om * 60)))
                else None
            | _ => None
            end
        end ;
  Some {| micros := (days_from_civil y m d + epoch_days) * day_micros
                    + ((hh * 60 + mm) * 60 + ss) * 1000000 + us;
          utcoffset := off |}.

(** [x * 2 ^ k] for [k] positive, [x] otherwise. *)
Definition scale (x k : Z) : Z := x * 2 ^ Z.max 0 k.

(** The float nearest to [us] microseconds counted in seconds, as its bit
    pattern (round to nearest, ties to even). *)
Definition total_seconds (us : Z) : Z :=
  if us =? 0 then 0
  else
    let num := Z.abs us in
    let den := 1000000 in
    let e0 := Z.log2 num - Z.log2 den in
    let e := if scale num (- e0) <? scale den e0 then e0 - 1 else e0 in
    let n := scale num (52 - e) in
    let d := scale den (e - 52) in
    let q := n / d in
    let r := n mod d in
    let q := if (d <? 2 * r) || ((d =? 2 * r) && Z.odd q) then q + 1 else q in
    let '(q, e) := if q =? 2 ^ 53 then (2 ^ 52, e + 1) else (q, e) in
    (if us <? 0 then 2 ^ 63 else 0) + (e + 1023) * 2 ^ 52 + (q - 2 ^ 52).

(** Midnight of 2024-01-01, then one second per reading. *)
Definition clock (n : nat) : Z :=
  (days_from_civil 2024 1 1 + epoch_days) * day_micros + Z.of_nat n * 1000000.

(** A few commands. [touch] and [cat] work on the file named by their
    argument; anything else prints nothing and ends with status 0. *)
Definition run_process (n : nat) (command : str) (timeout : json)
    (files : gmap str str) : ProcOutcome * gmap str str :=
  match split command with
  | [prog] =>
      if bool_decide (prog = py "false") then (ProcDone [] [] 1, files)
      else if bool_decide (prog = py "ls")
      then (ProcDone (join nl (map fst (map_to_list files)) ++ nl) [] 0, files)
      else (ProcDone [] [] 0, files)
  | [prog; arg] =>
      if bool_decide (prog = py "sleep") then (ProcTimeout, files)
      else if bool_decide (prog = py "touch") then
        (ProcDone [] [] 0,
         match files !! Path arg with
         | Some _ => files
         | None => <[Path arg := []]> files
         end)
      else if bool_decide (prog = py "cat") then
        match files !! Path arg with
        | Some data => (ProcDone data [] 0, files)
        | None =>
            (ProcDone [] (py "cat: " ++ arg ++ py ": No such file or directory") 1,
             files)
        end
      else (ProcDone [] [] 0, files)
  | _ => (ProcDone [] [] 0, files)
  end.

(** The model answers by a script, and raises once the script is over. *)
Definition client_create (script : list ApiOutcome) (n : nat) : ApiOutcome :=
  match script !! n with
  | Some outcome => outcome
  | None => ApiRaise (LibraryError (py "Connection error."))
  end.

Definition env (script : list ApiOutcome) : Env :=
  Build_Env dumps loads isoformat fromisoformat strftime total_seconds clock
    dumps (fun _ => py "1 validation error for FileAction")
    run_process (client_create script).
End Sample.

(** A shell that has just started on the files [files], with the default
    configuration. *)
Definition fresh_shell (files : gmap str str) : Shell :=
  {| history := []; history_size := 10; command_timeout := 30;
     current_task := None; fs := files; ticks := 0; spawned := 0;
     requested := 0; trace := [] |}.

(** The seconds slept, the commands spawned and the number of model
    requests in a trace. *)
Definition sleeps (tr : list Event) : list Z :=
  omap (fun ev => match ev with EvSleep n => Some n | _ => None end) tr.

Definition spawns (tr : list Event) : list str :=
  omap (fun ev => match ev with EvSpawn c _ => Some c | _ => None end) tr.

Definition requests (tr : list Event) : nat :=
  length (omap (fun ev => match ev with EvRequest _ _ _ => Some tt | _ => None end) tr).

(** The history once [entry] is appended to [h] under capacity [size]. *)
Definition appended (size : Z) (h : list ConversationEntry.t)
    (entry : ConversationEntry.t) : list ConversationEntry.t :=
  if Z.of_nat (length (h ++ [entry])) >? size
  then drop 1 (h ++ [entry])
  else h ++ [entry].

(** *** Scenarios in the sample environment *)

(** The model's answer to "list files": a plan of one command. *)
Definition plan_ls : str :=
  Sample.dumps
    (JObj [ (py "actions",
             JArr [ JObj [ (py "type", JStr (py "command"));
                           (py "command", JStr (py "ls")) ] ]) ]).

(** The shell after the line "list files" was handled with that answer:
    its history holds the user entry and the command entry. *)
Definition shell_after_ls : Shell :=
  snd (default (Sample.env [ApiText plan_ls]) (py "list files")
         (fresh_shell {[ Path (py "notes.txt") := py "aaa" ]})).

(** A history file of three entries. *)
Definition three_entries : json :=
  JArr (map (fun text =>
               JObj [ (py "type", JStr (py "user"));
                      (py "content", JStr text);
                      (py "timestamp", JStr (py "2024-01-01T00:00:00"));
                      (py "metadata", JObj []) ])
          [py "one"; py "two"; py "three"]).

(** [tok] is a whitespace-separated token of [s]: a run of characters that
    are not whitespace, not empty, with whitespace or an end of [s] on
    either side. *)
Definition is_token (tok s : str) : Prop :=
  tok <> []
  /\ Forall (fun c => isspace c = false) tok
  /\ exists pre post,
       s = pre ++ tok ++ post
       /\ (pre = [] \/ exists p c, pre = p ++ [c] /\ isspace c = true)
       /\ (post = [] \/ exists c p, post = c :: p /\ isspace c = true).

(** The state after the loop of [process_actions] went through [items],
    one action after the other. *)
Definition after_actions (env : Env) (items : list json) (s : Shell) : Shell :=
  fold_left (fun st action => snd (process_action env action st)) items s.

(** [self.current_task] with [text] as last error, when there is a task. *)
Definition with_last_error (text : str) (task : option TaskState.t)
  : option TaskState.t :=
  option_map (TaskState.set_last_error (Some text)) task.

(** A plan of three actions: a message, the creation of a file that is
    already there, a message. *)
Definition plan_three : json :=
  JObj [ (py "actions",
          JArr [ JObj [ (py "type", JStr (py "say"));
                        (py "message", JStr (py "creating the notes")) ];
                 JObj [ (py "type", JStr (py "file"));
                        (py "command", JStr (py "create"));
                        (py "file_path", JStr (py "notes.txt"));
                        (py "content", JStr (py "new")) ];
                 JObj [ (py "type", JStr (py "say"));
                        (py "message", JStr (py "done")) ] ]) ].

(** A shell with a task under way, on one file. *)
Definition shell_with_task : Shell :=
  set_current_task
    (Some (TaskState.set_in_progress true
             (TaskState.new {| micros := Sample.clock 0; utcoffset := None |})))
    (fresh_shell {[ Path (py "notes.txt") := py "aaa" ]}).

(** The delays of an exponential backoff: [n] delays from [2 ^ k] on. *)
Fixpoint backoff_delays (k : Z) (n : nat) : list Z :=
  match n with
  | O => []
  | S n' => 2 ^ k :: backoff_delays (k + 1) n'
  end.

(** [get_recent_context] does not raise in state [s]. *)
Definition context_ok (env : Env) (s : Shell) : Prop :=
  exists texts,
    format_entries env (slice_from (- history_size s) (history s)) = Ok texts.

(** A model answer that is a plan whose [actions] is a number. *)
Definition plan_bad : str := Sample.dumps (JObj [ (py "actions", JInt 5) ]).

(** The notice of failure that ends [_process_input]. *)
Definition failure_notice : Event :=
  EvPrint (nl ++ py "Failed to complete task after maximum attempts.").

(** *** What the plan interpreter leaves alone *)

(** A task without its last error. *)
Definition task_core (task : TaskState.t) : TaskState.t :=
  TaskState.set_last_error None task.

(** An entry that [get_recent_context] can render: a command entry
    carries a dict as metadata. *)
Definition wf_entry (entry : ConversationEntry.t) : Prop :=
  ConversationEntry.type entry = MessageType.COMMAND ->
  is_dict (ConversationEntry.metadata entry) = true.

Definition wf_history (h : list ConversationEntry.t) : Prop := Forall wf_entry h.

(** From [s] to [s'] the task changed by its last error at most, no model
    request was sent, nothing was slept, the configuration is the same and
    the history stayed renderable. *)
Record interp_frame (s s' : Shell) : Prop := {
  frame_task :
    option_map task_core (current_task s') = option_map task_core (current_task s);
  frame_requested : requested s' = requested s;
  frame_size : history_size s' = history_size s;
  frame_timeout : command_timeout s' = command_timeout s;
  frame_trace :
    exists tr, trace s' = trace s ++ tr /\ sleeps tr = [] /\ requests tr = 0%nat;
  frame_wf : wf_history (history s) -> wf_history (history s')
}.

(** A computation that keeps [interp_frame], whatever its result. *)
Definition frames {A} (m : M A) : Prop := forall s, interp_frame s (snd (m s)).

(** *** What a step of the engine does to the outside *)

(** From [s] to [s'] the seconds slept are [slept] and [sent] requests
    went to the model, in a trace that extends the one of [s]; the
    configuration is the same and the history stayed renderable. *)
Record effects (s s' : Shell) (slept : list Z) (sent : nat) : Prop := {
  eff_size : history_size s' = history_size s;
  eff_timeout : command_timeout s' = command_timeout s;
  eff_requested : requested s' = (requested s + sent)%nat;
  eff_trace :
    exists tr, trace s' = trace s ++ tr /\ sleeps tr = slept /\ requests tr = sent;
  eff_wf : wf_history (history s) -> wf_history (history s')
}.

(** [task'] is [task] up to its last error. *)
Definition same_task (task task' : TaskState.t) : Prop :=
  task_core task' = task_core task.

(** The parts of [attempt]: what is done with the response, and the
    handler of the exceptions. *)
Definition handle_response (env : Env) (response : option str) : M bool :=
  match response with
  | Some (c :: rest) =>
      let response := c :: rest in
      match json_loads env response with
      | Some actions_data =>
          if dict_has actions_data (py "actions") then
            process_actions env actions_data ;;
            if negb (truthy (get_default actions_data (py "needs_followup") JNull))
            then update_task (py "completed") (TaskState.set_completed true) ;;
                 ret true
            else ret false
          else reply env response ;; ret true
      | None => reply env response ;; ret true
      end
  | _ =>
      print (nl ++ py "No response received from Claude.") ;;
      update_task (py "last_error")
        (TaskState.set_last_error (Some (py "No response received"))) ;;
      ret false
  end.

Definition attempt_handler (e : exn) : M bool :=
  print (nl ++ py "Error: " ++ str_exn e) ;;
  update_task (py "last_error") (TaskState.set_last_error (Some (str_exn e))) ;;
  task <- the_task (py "should_retry") ;;
  (if TaskState.should_retry task
   then let retry_delay := 2 ^ (TaskState.attempts task - 1) in
        print (nl ++ py "Waiting " ++ str_of_Z retry_delay
                 ++ py " seconds before retrying...") ;;
        sleep retry_delay
   else ret tt) ;;
  ret false.

(** The counters of a task, which only the engine moves. *)
Definition same_counters (task task' : TaskState.t) : Prop :=
  TaskState.in_progress task' = TaskState.in_progress task
  /\ TaskState.attempts task' = TaskState.attempts task
  /\ TaskState.max_attempts task' = TaskState.max_attempts task
  /\ TaskState.start_time task' = TaskState.start_time task.

(** The plan of three actions as the model writes it, and a plan of one
    message that asks for a follow-up. *)
Definition plan_three_text : str := Sample.dumps plan_three.



(** A history file whose second entry has a type that is not a message
    type. *)
Definition entries_one_bad : json :=
  JArr [ JObj [ (py "type", JStr (py "user"));
                (py "content", JStr (py "one"));
                (py "timestamp", JStr (py "2024-01-01T00:00:00"));
                (py "metadata", JObj []) ];
         JObj [ (py "type", JStr (py "tool"));
                (py "content", JStr (py "two"));
                (py "timestamp", JStr (py "2024-01-01T00:00:01"));
                (py "metadata", JObj []) ] ].

(** [s] with another capacity. *)
Definition with_history_size (size : Z) (s : Shell) : Shell :=
  {| history := history s; history_size := size;
     command_timeout := command_timeout s; current_task := current_task s;
     fs := fs s; ticks := ticks s; spawned := spawned s;
     requested := requested s; trace := trace s |}.

(** From [s] to [s'] only the console changed: [prints] were printed. *)
Record console_only (s s' : Shell) (prints : list str) : Prop := {
  co_history : history s' = history s;
  co_size : history_size s' = history_size s;
  co_timeout : command_timeout s' = command_timeout s;
  co_task : current_task s' = current_task s;
  co_fs : fs s' = fs s;
  co_ticks : ticks s' = ticks s;
  co_spawned : spawned s' = spawned s;
  co_requested : requested s' = requested s;
  co_trace : trace s' = trace s ++ map EvPrint prints
}.

(** From [s] to [s'] only the files and the clock changed. *)
Record files_only (s s' : Shell) : Prop := {
  fo_history : history s' = history s;
  fo_size : history_size s' = history_size s;
  fo_timeout : command_timeout s' = command_timeout s;
  fo_task : current_task s' = current_task s;
  fo_spawned : spawned s' = spawned s;
  fo_requested : requested s' = requested s;
  fo_trace : trace s' = trace s
}.

(** A command entry whose metadata are [null], as a history file written
    by hand can hold it. *)
Definition entry_without_metadata : ConversationEntry.t :=
  {| ConversationEntry.type := MessageType.COMMAND;
     ConversationEntry.content := JStr (py "ls");
     ConversationEntry.timestamp := {| micros := Sample.clock 0; utcoffset := None |};
     ConversationEntry.metadata := JNull |}.

(** What [do_stats] prints on a history [h]. *)
Definition stats_lines (h : list ConversationEntry.t) : list str :=
  [ nl ++ py "═══════════════ Conversation Statistics ═══════════════";
    py "Total Entries: " ++ str_of_Z (Z.of_nat (length h));
    py "User Messages: " ++ str_of_Z (Z.of_nat (count_type MessageType.USER h));
    py "Assistant Messages: "
      ++ str_of_Z (Z.of_nat (count_type MessageType.ASSISTANT h));
    py "Commands Executed: " ++ str_of_Z (Z.of_nat (count_type MessageType.COMMAND h));
    py "═══════════════════════════════════════════════════════" ].

(** * Properties *)

Arguments py : simpl never.
Arguments str_of_Z : simpl never.
Arguments Path : simpl never.

(** ** Whitespace: [strip] and [split] *)

Lemma lstrip_blank (s : str) : Forall (fun c => isspace c = true) s -> lstrip s = [].
Proof.
  induction 1 as [|c s Hc _ IH]; simpl; [reflexivity|].
  rewrite Hc. exact IH.
Qed.

Lemma rstrip_nil_blank (s : str) : rstrip s = [] -> Forall (fun c => isspace c = true) s.
Proof.
  induction s as [|c s IH]; simpl; intros H; [constructor|].
  destruct (rstrip s) eqn:E; [|discriminate].
  destruct (isspace c) eqn:Hc; [|discriminate].
  constructor; auto.
Qed.

Lemma lstrip_suffix (s : str) : exists pre, s = pre ++ lstrip s /\ Forall (fun c => isspace c = true) pre.
Proof.
  induction s as [|c s [pre [E F]]]; simpl.
  - exists []. split; [reflexivity|constructor].
  - destruct (isspace c) eqn:Hc.
    + exists (c :: pre). split; [simpl; congruence|constructor; assumption].
    + exists []. split; [reflexivity|constructor].
Qed.

Lemma strip_blank_iff (s : str) :
  strip s = [] <-> Forall (fun c => isspace c = true) s.
Proof.
  unfold strip. split.
  - intros H. apply rstrip_nil_blank in H.
    destruct (lstrip_suffix s) as [pre [E F]]. rewrite E.
    apply Forall_app. split; assumption.
  - intros H. rewrite lstrip_blank; [reflexivity|assumption].
Qed.

(** ** The file mutation guard: [create_file] *)

(** C8. [create_file] on a path that exists returns [False] and changes
    nothing: the file keeps its content, no backup is written, and no
    other part of the state moves. *)
Theorem create_file_existing (file_path : str) (content : option str)
    (s : Shell) :
  is_Some (fs s !! Path file_path) ->
  create_file file_path content s = (Ok false, s).
Proof.
  intros Hex. unfold create_file, try_except, bind, exists_, get, ret, raise.
  simpl. rewrite bool_decide_eq_true_2 by assumption. reflexivity.
Qed.

Lemma create_file_existing_witness :
  let s := fresh_shell {[ Path (py "notes.txt") := py "old" ]} in
  is_Some (fs s !! Path (py "notes.txt"))
  /\ create_file (py "notes.txt") (Some (py "new")) s = (Ok false, s).
Proof.
  assert (H : is_Some (fs (fresh_shell {[ Path (py "notes.txt") := py "old" ]})
                         !! Path (py "notes.txt"))).
  { simpl. rewrite lookup_singleton_eq. eexists. reflexivity. }
  split; [exact H|].
  exact (create_file_existing (py "notes.txt") (Some (py "new")) _ H).
Defined.

(** [create_file] on a free path writes the content. *)
Lemma create_file_fresh (file_path : str) (text : str) (s : Shell) :
  fs s !! Path file_path = None ->
  create_file file_path (Some text) s
  = (Ok true, set_fs (<[Path file_path := text]> (fs s)) s).
Proof.
  intros Hno. unfold create_file, try_except, bind, exists_, get, ret, raise, write_text, modify.
  simpl. rewrite Hno. rewrite bool_decide_eq_false_2; [reflexivity|].
  intros [x Hx]. discriminate.
Qed.

(** ** The shell's default handler on a blank line *)

(** C10. On a line made of whitespace only (or empty) [default] returns at
    once and the whole state is as before: no task, no conversation entry,
    no write of the history file, no request to the model. *)
Theorem default_blank_line (env : Env) (line : str) (s : Shell) :
  Forall (fun c => isspace c = true) line ->
  default env line s = (Ok tt, s).
Proof.
  intros Hblank. unfold default.
  apply strip_blank_iff in Hblank. rewrite Hblank. reflexivity.
Qed.

Lemma default_blank_line_witness :
  Forall (fun c => isspace c = true) [32%N; 9%N; 32%N]
  /\ default (Sample.env []) [32%N; 9%N; 32%N] (fresh_shell ∅)
     = (Ok tt, fresh_shell ∅).
Proof.
  assert (H : Forall (fun c => isspace c = true) [32%N; 9%N; 32%N]).
  { repeat constructor. }
  split; [exact H|].
  exact (default_blank_line (Sample.env []) _ (fresh_shell ∅) H).
Defined.

(** A line with a character that is not whitespace does reach the engine:
    the user entry is recorded and a task is created. *)
Lemma default_not_blank (env : Env) (line : str) (s : Shell) :
  ~ Forall (fun c => isspace c = true) line ->
  default env line s
  = (entry <- new_entry env MessageType.USER (JStr line) (JObj []) ;;
     add_entry env entry ;;
     t <- now env ;;
     modify (set_current_task (Some (TaskState.new t))) ;;
     update_task (py "in_progress") (TaskState.set_in_progress true) ;;
     _process_input env line) s.
Proof.
  intros Hnb. unfold default.
  destruct (strip line) eqn:E; [|reflexivity].
  exfalso. apply Hnb. apply strip_blank_iff. exact E.
Qed.

(** ** The conversation store *)

Lemma add_entry_run (env : Env) (entry : ConversationEntry.t) (s : Shell) :
  add_entry env entry s
  = (Ok tt,
     let h := appended (history_size s) (history s) entry in
     set_fs (<[history_file := json_dumps env (history_data env h)]> (fs s))
       (set_history h s)).
Proof.
  unfold add_entry, appended, bind, modify, get, _save_history, write_text, ret.
  simpl.
  destruct (Z.of_nat (length (history s ++ [entry])) >? history_size s);
    reflexivity.
Qed.

Lemma add_entry_history (env : Env) (entry : ConversationEntry.t) (s : Shell) :
  history (snd (add_entry env entry s)) = appended (history_size s) (history s) entry
  /\ history_size (snd (add_entry env entry s)) = history_size s.
Proof. rewrite add_entry_run. split; reflexivity. Qed.

Lemma appended_length (size : Z) (h : list ConversationEntry.t) (entry : ConversationEntry.t) :
  length (appended size h entry)
  = if Z.of_nat (length h) + 1 >? size then length h else S (length h).
Proof.
  unfold appended. rewrite length_app. simpl.
  replace (Z.of_nat (length h + 1)) with (Z.of_nat (length h) + 1) by lia.
  destruct (Z.of_nat (length h) + 1 >? size).
  - rewrite length_drop, length_app. simpl. lia.
  - rewrite length_app. simpl. lia.
Qed.

(** Appending a run of entries keeps the last [size] of all of them. *)
Lemma appended_fold (size : Z) (es h : list ConversationEntry.t) :
  Z.of_nat (length h) <= size ->
  fold_left (appended size) es h
  = drop (length h + length es - Z.to_nat size) (h ++ es).
Proof.
  revert h. induction es as [|e es IH]; intros h Hh; simpl.
  - rewrite app_nil_r. replace (length h + 0 - Z.to_nat size)%nat with 0%nat by lia.
    reflexivity.
  - pose proof (appended_length size h e) as Hlen.
    rewrite IH.
    2:{ rewrite Hlen. destruct (Z.of_nat (length h) + 1 >? size) eqn:E; lia. }
    rewrite Hlen. unfold appended.
    replace (Z.of_nat (length (h ++ [e]))) with (Z.of_nat (length h) + 1)
      by (rewrite length_app; simpl; lia).
    destruct (Z.of_nat (length h) + 1 >? size) eqn:E.
    + assert (length h = Z.to_nat size) by lia.
      replace (drop 1 (h ++ [e]) ++ es) with (drop 1 ((h ++ [e]) ++ es)).
      2:{ destruct h; reflexivity. }
      rewrite drop_drop, <- app_assoc. simpl. f_equal. lia.
    + rewrite <- app_assoc. simpl. f_equal. lia.
Qed.

Lemma for_each_add_entry (env : Env) (es : list ConversationEntry.t) (s : Shell) :
  exists s',
    for_each (add_entry env) es s = (Ok tt, s')
    /\ history s' = fold_left (appended (history_size s)) es (history s)
    /\ history_size s' = history_size s.
Proof.
  revert s. induction es as [|e es IH]; intros s; simpl.
  - exists s. repeat split.
  - unfold bind. rewrite add_entry_run.
    edestruct IH as [s' [Hrun [Hh Hsz]]]. exists s'.
    split; [exact Hrun|]. split; [rewrite Hh|rewrite Hsz]; reflexivity.
Qed.

(** C6. When the history holds at most [history_size] entries, [add_entry]
    puts the new entry at the end and, if that makes the history longer
    than the capacity, drops exactly the first (oldest) entry. Hence
    appending [N + 1] entries to an empty history of capacity [N] leaves
    the last [N] of them: the first one appended is gone. *)
Theorem add_entry_fifo (env : Env) :
  (forall (s : Shell) (entry : ConversationEntry.t),
     Z.of_nat (length (history s)) <= history_size s ->
     exists s',
       add_entry env entry s = (Ok tt, s')
       /\ history s' =
            (if Z.of_nat (length (history s)) + 1 >? history_size s
             then drop 1 (history s ++ [entry])
             else history s ++ [entry]))
  /\ (forall (s : Shell) (es : list ConversationEntry.t),
        history s = [] ->
        0 <= history_size s ->
        Z.of_nat (length es) = history_size s + 1 ->
        exists s',
          for_each (add_entry env) es s = (Ok tt, s')
          /\ history s' = drop 1 es
          /\ Z.of_nat (length (history s')) = history_size s).
Proof.
  split.
  - intros s entry _. eexists. split; [apply add_entry_run|].
    simpl. unfold appended. rewrite length_app. simpl.
    replace (Z.of_nat (length (history s) + 1)) with (Z.of_nat (length (history s)) + 1)
      by lia.
    reflexivity.
  - intros s es Hempty Hcap Hlen.
    destruct (for_each_add_entry env es s) as [s' [Hrun [Hh _]]].
    exists s'. split; [exact Hrun|].
    rewrite Hh, Hempty, appended_fold by (simpl; lia). simpl.
    replace (length es - Z.to_nat (history_size s))%nat with 1%nat by lia.
    split; [reflexivity|]. rewrite length_drop. lia.
Qed.

Lemma add_entry_fifo_witness :
  let env := Sample.env [] in
  let s := set_history [] (fresh_shell ∅) in
  let mk := fun n =>
    {| ConversationEntry.type := MessageType.USER;
       ConversationEntry.content := JInt n;
       ConversationEntry.timestamp := {| micros := Sample.clock 0; utcoffset := None |};
       ConversationEntry.metadata := JObj [] |} in
  let es := map mk [0; 1; 2; 3; 4; 5; 6; 7; 8; 9; 10] in
  (Z.of_nat (length (history s)) <= history_size s
   /\ exists s', add_entry env (mk 0) s = (Ok tt, s') /\ history s' = [mk 0])
  /\ (history s = [] /\ 0 <= history_size s
      /\ Z.of_nat (length es) = history_size s + 1
      /\ exists s',
           for_each (add_entry env) es s = (Ok tt, s')
           /\ history s' = map mk [1; 2; 3; 4; 5; 6; 7; 8; 9; 10]
           /\ Z.of_nat (length (history s')) = 10).
Proof.
  intros env s mk es.
  assert (H1 : Z.of_nat (length (history s)) <= history_size s) by (simpl; lia).
  assert (H2 : history s = []) by reflexivity.
  assert (H3 : 0 <= history_size s) by (simpl; lia).
  assert (H4 : Z.of_nat (length es) = history_size s + 1) by reflexivity.
  split.
  - split; [exact H1|].
    destruct (proj1 (add_entry_fifo env) s (mk 0) H1) as [s' [Hrun Hh]].
    exists s'. split; [exact Hrun|exact Hh].
  - split; [exact H2|]. split; [exact H3|]. split; [exact H4|].
    destruct (proj2 (add_entry_fifo env) s es H2 H3 H4) as [s' [Hrun [Hh Hl]]].
    exists s'. split; [exact Hrun|]. split; [exact Hh|exact Hl].
Defined.

(** *** Loading and saving *)

Lemma of_value_value (ty : MessageType.t) :
  MessageType.of_value (JStr (MessageType.value ty)) = Some ty.
Proof. destruct ty; vm_compute; reflexivity. Qed.

Lemma load_entry_data (env : Env) (entry : ConversationEntry.t) :
  fromisoformat env (isoformat env (ConversationEntry.timestamp entry))
  = Some (ConversationEntry.timestamp entry) ->
  load_entry env (entry_data env entry) = Some entry.
Proof.
  intros Hts. destruct entry as [ty c ts md]. simpl in *.
  unfold load_entry, entry_data. simpl.
  change (lookup_field (py "type") _) with (Some (JStr (MessageType.value ty))).
  change (lookup_field (py "content") _) with (Some c).
  change (lookup_field (py "timestamp") _) with (Some (JStr (isoformat env ts))).
  change (lookup_field (py "metadata") _) with (Some md).
  rewrite Hts. destruct ty; reflexivity.
Qed.

Lemma load_entries_data (env : Env) (h : list ConversationEntry.t) :
  Forall (fun entry =>
            fromisoformat env (isoformat env (ConversationEntry.timestamp entry))
            = Some (ConversationEntry.timestamp entry)) h ->
  load_entries env (history_data env h) = Some h.
Proof.
  unfold load_entries, history_data. cbn [py_iter mbind option_bind].
  induction 1 as [|e h He _ IH]; [reflexivity|].
  cbn [map mapM]. rewrite load_entry_data by exact He.
  cbn [mbind option_bind]. rewrite IH. reflexivity.
Qed.

Lemma mapM_load_length (env : Env) (items : list json) (h : list ConversationEntry.t) :
  mapM (load_entry env) items = Some h -> length h = length items.
Proof.
  revert h. induction items as [|x items IH]; simpl; intros h H.
  - injection H as <-. reflexivity.
  - destruct (load_entry env x); simpl in H; [|discriminate].
    destruct (mapM (load_entry env) items); simpl in H; [|discriminate].
    injection H as <-. simpl. f_equal. apply IH. reflexivity.
Qed.

Lemma load_history_run (env : Env) (s : Shell) (text : str) (data : json)
    (h : list ConversationEntry.t) :
  fs s !! history_file = Some text ->
  json_loads env text = Some data ->
  load_entries env data = Some h ->
  _load_history env s = (Ok tt, set_history h s).
Proof.
  intros Hf Hl Hd. unfold _load_history, bind, get. simpl.
  rewrite Hf, Hl. simpl. rewrite Hd. reflexivity.
Qed.

(** When the file is missing or cannot be read back, the history stays as
    it is. *)
Lemma load_history_fallback (env : Env) (s : Shell) :
  (forall text, fs s !! history_file = Some text ->
                json_loads env text ≫= load_entries env = None) ->
  _load_history env s = (Ok tt, s).
Proof.
  intros H. unfold _load_history, bind, get. simpl.
  destruct (fs s !! history_file) as [text|] eqn:E; [|reflexivity].
  rewrite (H text eq_refl). reflexivity.
Qed.

(** C7. What [_save_history] writes, [_load_history] reads back as the
    same history: the same entries in the same order, each with its type,
    content, timestamp and metadata. This holds in the running shell and
    for a shell that starts again on the written files. The two
    hypotheses are the contracts of [json] and [datetime] on the data at
    hand: the text printed for the history parses back to it, and the ISO
    text of each timestamp parses back to the timestamp. *)
Theorem save_load_roundtrip (env : Env) (s : Shell) :
  json_loads env (json_dumps env (history_data env (history s)))
  = Some (history_data env (history s)) ->
  Forall (fun entry =>
            fromisoformat env (isoformat env (ConversationEntry.timestamp entry))
            = Some (ConversationEntry.timestamp entry)) (history s) ->
  exists saved,
    _save_history env s = (Ok tt, saved)
    /\ (exists s', _load_history env saved = (Ok tt, s') /\ history s' = history s)
    /\ (forall (restarted : Shell) (size : Z),
          fs restarted = fs saved ->
          exists s', ConversationManager_init env size restarted = (Ok tt, s')
                     /\ history s' = history s).
Proof.
  intros Hjson Hiso.
  eexists. split; [reflexivity|].
  pose proof (load_entries_data env (history s) Hiso) as Hload.
  split.
  - eexists. split.
    + eapply load_history_run; [|exact Hjson|exact Hload].
      simpl. apply lookup_insert_eq.
    + reflexivity.
  - intros restarted size Hfs.
    eexists. split.
    + unfold ConversationManager_init, bind, modify. simpl.
      eapply load_history_run; [|exact Hjson|exact Hload].
      simpl. rewrite Hfs. simpl. apply lookup_insert_eq.
    + reflexivity.
Qed.

Lemma Forall_bool_decide {A} (P : A -> Prop) `{!forall x, Decision (P x)} (l : list A) :
  forallb (fun x => bool_decide (P x)) l = true -> Forall P l.
Proof.
  induction l as [|x l IH]; simpl; intros Hall; [constructor|].
  apply andb_prop in Hall as [Hx Hl].
  constructor; [eapply bool_decide_eq_true_1; exact Hx|auto].
Qed.

Lemma save_load_roundtrip_witness :
  let env := Sample.env [] in
  let s := shell_after_ls in
  length (history s) = 2%nat
  /\ json_loads env (json_dumps env (history_data env (history s)))
     = Some (history_data env (history s))
  /\ Forall (fun entry =>
               fromisoformat env (isoformat env (ConversationEntry.timestamp entry))
               = Some (ConversationEntry.timestamp entry)) (history s)
  /\ exists saved,
       _save_history env s = (Ok tt, saved)
       /\ (exists s', _load_history env saved = (Ok tt, s') /\ history s' = history s)
       /\ (forall (restarted : Shell) (size : Z),
             fs restarted = fs saved ->
             exists s', ConversationManager_init env size restarted = (Ok tt, s')
                        /\ history s' = history s).
Proof.
  intros env s.
  assert (H0 : length (history s) = 2%nat) by (vm_compute; reflexivity).
  assert (H1 : json_loads env (json_dumps env (history_data env (history s)))
               = Some (history_data env (history s))) by (vm_compute; reflexivity).
  assert (H2 : Forall (fun entry =>
               fromisoformat env (isoformat env (ConversationEntry.timestamp entry))
               = Some (ConversationEntry.timestamp entry)) (history s)).
  { eapply Forall_bool_decide. vm_compute. reflexivity. }
  split; [exact H0|]. split; [exact H1|]. split; [exact H2|].
  exact (save_load_roundtrip env s H1 H2).
Defined.

(** C9. [_load_history] takes every entry of the file, whatever the
    capacity: a file of more than [history_size] entries gives a history
    longer than the capacity at startup. [add_entry] removes at most one
    entry per call: on a history longer than the capacity it leaves the
    length as it was, so one append does not bring the history back
    within the capacity. The bound [length <= history_size] is kept by
    [add_entry] when it held before. *)
Theorem load_history_not_truncated (env : Env) :
  (forall (s : Shell) (size : Z) (text : str) (items : list json)
          (h : list ConversationEntry.t),
      fs s !! history_file = Some text ->
      json_loads env text = Some (JArr items) ->
      mapM (load_entry env) items = Some h ->
      exists s',
        ConversationManager_init env size s = (Ok tt, s')
        /\ history s' = h /\ history_size s' = size
        /\ length (history s') = length items)
  /\ (forall (s : Shell) (entry : ConversationEntry.t),
        Z.of_nat (length (history s)) > history_size s ->
        exists s',
          add_entry env entry s = (Ok tt, s')
          /\ history_size s' = history_size s
          /\ length (history s') = length (history s))
  /\ (forall (s : Shell) (entry : ConversationEntry.t),
        Z.of_nat (length (history s)) <= history_size s ->
        exists s',
          add_entry env entry s = (Ok tt, s')
          /\ history_size s' = history_size s
          /\ Z.of_nat (length (history s')) <= history_size s').
Proof.
  split; [|split].
  - intros s size text items h Hf Hl Hm.
    eexists. split.
    + unfold ConversationManager_init, bind, modify. simpl.
      eapply load_history_run; [exact Hf|exact Hl|exact Hm].
    + simpl. repeat split. eapply mapM_load_length. exact Hm.
  - intros s entry Hlong. eexists. split; [apply add_entry_run|].
    simpl. split; [reflexivity|]. rewrite appended_length.
    destruct (Z.of_nat (length (history s)) + 1 >? history_size s) eqn:E; lia.
  - intros s entry Hok. eexists. split; [apply add_entry_run|].
    simpl. split; [reflexivity|]. rewrite appended_length.
    destruct (Z.of_nat (length (history s)) + 1 >? history_size s) eqn:E; lia.
Qed.

Lemma load_history_not_truncated_witness :
  let env := Sample.env [] in
  let text := Sample.dumps three_entries in
  let s := fresh_shell {[ history_file := text ]} in
  (exists items h,
     fs s !! history_file = Some text
     /\ json_loads env text = Some (JArr items)
     /\ mapM (load_entry env) items = Some h
     /\ exists s',
          ConversationManager_init env 2 s = (Ok tt, s')
          /\ history_size s' = 2 /\ length (history s') = 3%nat)
  /\ (forall s0 : Shell,
        ConversationManager_init env 2 s = (Ok tt, s0) ->
        Z.of_nat (length (history s0)) > history_size s0
        /\ exists entry s',
             add_entry env entry s0 = (Ok tt, s')
             /\ length (history s') = 3%nat /\ history_size s' = 2)
  /\ (Z.of_nat (length (history s)) <= history_size s
      /\ exists entry s',
           add_entry env entry s = (Ok tt, s')
           /\ Z.of_nat (length (history s')) <= history_size s').
Proof.
  intros env text s.
  assert (Hf : fs s !! history_file = Some text) by apply lookup_singleton_eq.
  destruct (json_loads env text) as [[| | | | |items|]|] eqn:Hl;
    try (exfalso; vm_compute in Hl; discriminate).
  destruct (mapM (load_entry env) items) as [h|] eqn:Hm.
  2:{ exfalso. vm_compute in Hl. injection Hl as <-. vm_compute in Hm. discriminate. }
  assert (Hlen : length items = 3%nat).
  { vm_compute in Hl. injection Hl as <-. reflexivity. }
  destruct (proj1 (load_history_not_truncated env) s 2 text items h Hf Hl Hm)
    as [s1 [Hrun [Hh [Hsz Hn]]]].
  split; [|split].
  - exists items, h. repeat split; try assumption.
    exists s1. repeat split; try assumption. congruence.
  - intros s0 Hrun0. assert (s0 = s1) by congruence. subst s0.
    assert (Hlong : Z.of_nat (length (history s1)) > history_size s1) by lia.
    split; [exact Hlong|].
    pose (entry := {| ConversationEntry.type := MessageType.USER;
                      ConversationEntry.content := JNull;
                      ConversationEntry.timestamp := {| micros := 0; utcoffset := None |};
                      ConversationEntry.metadata := JObj [] |}).
    destruct (proj1 (proj2 (load_history_not_truncated env)) s1 entry Hlong)
      as [s' [Hadd [Hsz' Hlen']]].
    exists entry, s'. repeat split; [exact Hadd|lia|lia].
  - assert (Hok : Z.of_nat (length (history s)) <= history_size s) by (simpl; lia).
    split; [exact Hok|].
    pose (entry := {| ConversationEntry.type := MessageType.USER;
                      ConversationEntry.content := JNull;
                      ConversationEntry.timestamp := {| micros := 0; utcoffset := None |};
                      ConversationEntry.metadata := JObj [] |}).
    destruct (proj2 (proj2 (load_history_not_truncated env)) s entry Hok)
      as [s' [Hadd [_ Hle]]].
    exists entry, s'. split; [exact Hadd|exact Hle].
Defined.

(** ** The command runner: the denylist *)

Opaque py str_of_Z Path.

Lemma split_from_run (run s acc : str) :
  Forall (fun c => isspace c = false) run ->
  split_from acc (run ++ s) = split_from (acc ++ run) s.
Proof.
  intros Hrun. revert acc. induction Hrun as [|c run Hc _ IH]; intros acc; simpl.
  - rewrite app_nil_r. reflexivity.
  - rewrite Hc, IH, <- app_assoc. reflexivity.
Qed.

Lemma split_token (tok rest : str) :
  tok <> [] ->
  Forall (fun c => isspace c = false) tok ->
  (rest = [] \/ exists c p, rest = c :: p /\ isspace c = true) ->
  split (tok ++ rest) = tok :: split rest.
Proof.
  intros Hne Hrun Hrest. unfold split. rewrite split_from_run by assumption. simpl.
  destruct Hrest as [->|[c [p [-> Hc]]]]; simpl.
  - destruct tok; [contradiction|reflexivity].
  - rewrite Hc. destruct tok; [contradiction|reflexivity].
Qed.

Lemma split_from_after_space (tok x p : str) (c : N) (cur : str) :
  isspace c = true ->
  tok ∈ split_from [] x ->
  tok ∈ split_from cur (p ++ c :: x).
Proof.
  intros Hc Hin. revert cur. induction p as [|d p IH]; intros cur; simpl.
  - rewrite Hc. destruct cur; [exact Hin|]. right. exact Hin.
  - destruct (isspace d); [|apply IH].
    destruct cur; [apply IH|]. right. apply IH.
Qed.

Lemma split_from_tokens (s cur tok : str) :
  Forall (fun c => isspace c = false) cur ->
  tok ∈ split_from cur s ->
  is_token tok (cur ++ s).
Proof.
  revert cur. induction s as [|c s IH]; intros cur Hcur Hin; simpl in Hin.
  - destruct cur as [|a cur]; [inversion Hin|].
    apply list_elem_of_singleton in Hin. subst tok.
    split; [discriminate|]. split; [exact Hcur|].
    exists [], []. rewrite !app_nil_r. simpl. auto.
  - destruct (isspace c) eqn:Hc.
    + assert (Hrest : tok ∈ split_from [] s ->
                      is_token tok (cur ++ c :: s)).
      { intros H.
        destruct (IH [] (Forall_nil_2 _) H)
          as [Hne [Hrun [pre [post [E [Hpre Hpost]]]]]].
        simpl in E. split; [exact Hne|]. split; [exact Hrun|].
        exists (cur ++ c :: pre), post. split.
        - rewrite E, <- !app_assoc. reflexivity.
        - split; [|exact Hpost]. right.
          destruct Hpre as [->|[p [c' [-> Hc']]]].
          + exists cur, c. auto.
          + exists (cur ++ c :: p), c'.
            split; [rewrite <- app_assoc; reflexivity|exact Hc']. }
      destruct cur as [|a cur]; [exact (Hrest Hin)|].
      apply elem_of_cons in Hin as [->|Hin]; [|exact (Hrest Hin)].
      split; [discriminate|]. split; [exact Hcur|].
      exists [], (c :: s). simpl. split; [reflexivity|]. split; [auto|].
      right. exists c, s. auto.
    + specialize (IH (cur ++ [c])). rewrite <- app_assoc in IH. apply IH; [|exact Hin].
      apply Forall_app. split; [exact Hcur|]. constructor; [exact Hc|constructor].
Qed.

Lemma split_spec (tok s : str) : tok ∈ split s <-> is_token tok s.
Proof.
  split.
  - intros Hin. apply (split_from_tokens s [] tok); [constructor|exact Hin].
  - intros [Hne [Hrun [pre [post [-> [Hpre Hpost]]]]]].
    assert (Hhere : tok ∈ split (tok ++ post)).
    { rewrite split_token by assumption. left. }
    destruct Hpre as [->|[p [c [-> Hc]]]]; [exact Hhere|].
    unfold split. rewrite <- app_assoc. simpl.
    apply split_from_after_space; assumption.
Qed.

Lemma is_blocked_spec (command : str) :
  is_blocked command = true
  <-> exists tok, is_token tok command /\ tok ∈ blocked_commands.
Proof.
  unfold is_blocked. rewrite existsb_exists. split.
  - intros [cmd [Hin Hdec]]. apply bool_decide_eq_true_1 in Hdec.
    exists cmd. split; [apply split_spec; exact Hdec|].
    apply list_elem_of_In. exact Hin.
  - intros [tok [Htok Hin]]. exists tok.
    split; [apply list_elem_of_In; exact Hin|].
    apply bool_decide_eq_true_2. apply split_spec. exact Htok.
Qed.

(** C2. [execute_command] on the command text [c] fails with the
    validation error, with nothing spawned and nothing shown to the
    outside, exactly when a whitespace-separated token of [c] is one of
    [rm], [sudo], [su], [dd]. *)
Theorem execute_command_denylist (env : Env) (c : str) (timeout : json) (s : Shell) :
  (exists tok, is_token tok c /\ tok ∈ blocked_commands)
  <-> (exists s',
         execute_command env (JStr c) timeout s
         = (Raise (ValueError (py "Command contains blocked terms: " ++ c)), s')
         /\ spawned s' = spawned s
         /\ trace s' = trace s).
Proof.
  rewrite <- is_blocked_spec.
  unfold execute_command, bind, now, raise, get, emit, modify.
  destruct (is_blocked c) eqn:Hb.
  - split; [|reflexivity]. intros _. eexists. split; [reflexivity|]. split; reflexivity.
  - split; [discriminate|]. intros [s' [Hrun [Hsp _]]]. exfalso.
    cbn beta iota in Hrun.
    destruct (run_process env _ c timeout _) as [outcome files].
    destruct outcome as [out err rc| |e]; simpl in Hrun;
      try discriminate; inversion Hrun; subst; simpl in Hsp; lia.
Qed.

(** The match is on whole tokens: a denied word inside a longer word does
    not block the command, a denied word as an argument does. *)
Lemma denylist_examples :
  is_blocked (py "rmdir build") = false
  /\ is_blocked (py "address --format=dd-mm") = false
  /\ is_blocked (py "echo rm") = true
  /\ is_blocked [115; 117; 100; 111; 9; 108; 115]%N = true.
Proof. vm_compute. repeat split. Qed.

(** ** The file mutation guard: [update_file] *)

(** Unfolding of the monad's operations, one layer after the other. *)
Ltac run_monad :=
  repeat (progress (unfold try_except, bind, ret, raise, get, modify, emit,
                      print, sleep, now, write_text, read_text, exists_;
                    cbn beta iota zeta)).

Lemma occurrences_empty (s : str) : occurrences [] s = S (length s).
Proof. induction s as [|c s IH]; simpl; [reflexivity|]. rewrite IH. reflexivity. Qed.

Lemma count_from_le_occurrences (sub s : str) (skip : nat) :
  (count_from skip sub s <= occurrences sub s)%nat.
Proof.
  revert skip. induction s as [|c s IH]; intros skip; [simpl; lia|].
  cbn [count_from occurrences].
  destruct skip as [|k].
  - destruct (startswith sub (c :: s)).
    + specialize (IH (length sub - 1)%nat). lia.
    + specialize (IH 0%nat). lia.
  - specialize (IH k). lia.
Qed.

Lemma count_from_positive (sub s : str) :
  sub <> [] ->
  (1 <= occurrences sub s)%nat -> (1 <= count_from 0 sub s)%nat.
Proof.
  intros Hsub. induction s as [|c s IH]; cbn [count_from occurrences].
  - destruct sub; [contradiction|]. simpl. lia.
  - destruct (startswith sub (c :: s)); [lia|]. intros H. apply IH. lia.
Qed.

(** [count] never finds more than the positions at which [sub] occurs,
    and finds one when there is one. *)
Lemma count_le_occurrences (s sub : str) : (count s sub <= occurrences sub s)%nat.
Proof.
  destruct sub as [|a sub]; unfold count.
  - rewrite occurrences_empty. lia.
  - apply count_from_le_occurrences.
Qed.

Lemma count_positive (s sub : str) :
  (1 <= occurrences sub s)%nat -> (1 <= count s sub)%nat.
Proof.
  destruct sub as [|a sub]; unfold count; [lia|].
  apply count_from_positive. discriminate.
Qed.

Lemma count_unique (s sub : str) : occurrences sub s = 1%nat -> count s sub = 1%nat.
Proof.
  intros H. pose proof (count_le_occurrences s sub).
  pose proof (count_positive s sub). lia.
Qed.

Lemma count_absent (s sub : str) : occurrences sub s = 0%nat <-> count s sub = 0%nat.
Proof.
  pose proof (count_le_occurrences s sub). pose proof (count_positive s sub).
  split; lia.
Qed.

(** What [update_file] does to a file that exists: the backup is written,
    then the content is read and counted; the file is written only when
    the count is 1. *)
Lemma update_file_run (env : Env) (file_path old new content : str) (s : Shell) :
  fs s !! Path file_path = Some content ->
  let t := {| micros := clock env (ticks s); utcoffset := None |} in
  let backed_up := <[backup_path env (Path file_path) t := content]> (fs s) in
  update_file env file_path (Some old) (Some new) s
  = (Ok (count content old =? 1)%nat,
     set_fs (if (count content old =? 1)%nat
             then <[Path file_path := replace content old new]> backed_up
             else backed_up)
       (set_ticks (S (ticks s)) s)).
Proof.
  intros Hf t backed_up.
  assert (Hread : backed_up !! Path file_path = Some content).
  { unfold backed_up. destruct (decide (backup_path env (Path file_path) t = Path file_path)) as [E|E].
    - rewrite E. apply lookup_insert_eq.
    - rewrite lookup_insert_ne by exact E. exact Hf. }
  unfold update_file, create_backup. run_monad. rewrite Hf. run_monad.
  cbn [fs set_fs set_ticks ticks].
  fold t. fold backed_up. rewrite Hread.
  destruct (count content old =? 1)%nat; reflexivity.
Qed.

(** On a file that exists: the result is [True] exactly when [count]
    gives 1; a failed update leaves the content of the file as it was; and
    in both cases the backup has been written first, from the content the
    check is then made on. *)
Lemma update_file_spec (env : Env) (file_path old new content : str) (s : Shell) :
  fs s !! Path file_path = Some content ->
  exists (ok : bool) (s' : Shell),
    update_file env file_path (Some old) (Some new) s = (Ok ok, s')
    /\ (ok = true <-> count content old = 1%nat)
    /\ (ok = false -> fs s' !! Path file_path = Some content)
    /\ (ok = true -> fs s' !! Path file_path = Some (replace content old new))
    /\ (ok = false ->
        let t := {| micros := clock env (ticks s); utcoffset := None |} in
        fs s' !! backup_path env (Path file_path) t = Some content).
Proof.
  intros Hf. rewrite (update_file_run env file_path old new content s Hf).
  eexists. eexists. split; [reflexivity|].
  destruct (count content old =? 1)%nat eqn:E.
  - apply Nat.eqb_eq in E. repeat split; try discriminate; auto.
    intros _. simpl. apply lookup_insert_eq.
  - apply Nat.eqb_neq in E. repeat split; try discriminate; try congruence.
    + intros _. simpl.
      destruct (decide (backup_path env (Path file_path)
                          {| micros := clock env (ticks s); utcoffset := None |}
                        = Path file_path)) as [E'|E'].
      * rewrite E'. apply lookup_insert_eq.
      * rewrite lookup_insert_ne by exact E'. exact Hf.
    + intros _. simpl. apply lookup_insert_eq.
Qed.

(** A file that does not exist: nothing is backed up, nothing is written,
    the update fails. *)
Lemma update_file_missing (env : Env) (file_path : str) (old new : option str)
    (s : Shell) :
  fs s !! Path file_path = None ->
  update_file env file_path old new s = (Ok false, s).
Proof.
  intros Hf.
  unfold update_file, create_backup. run_monad. rewrite Hf. run_monad.
  rewrite Hf. reflexivity.
Qed.

(** C3 (the code departs from the claim). The text [aa] occurs at two
    positions of [aaa], yet [count] finds one occurrence, so [update_file]
    accepts the update and rewrites the file to [ba]. *)
Theorem update_file_overlapping_match :
  let s := fresh_shell {[ Path (py "notes.txt") := py "aaa" ]} in
  let r := update_file (Sample.env []) (py "notes.txt") (Some (py "aa")) (Some (py "b")) s in
  occurrences (py "aa") (py "aaa") = 2%nat
  /\ count (py "aaa") (py "aa") = 1%nat
  /\ fst r = Ok true
  /\ fs (snd r) !! Path (py "notes.txt") = Some (py "ba").
Proof. vm_compute. repeat split. Qed.

(** ** The action plan interpreter *)

(** Reading a field of a state that a setter has built. *)
Ltac state_simpl :=
  cbn [history history_size command_timeout current_task fs ticks spawned
       requested trace set_history set_current_task set_fs set_ticks
       set_spawned set_requested set_trace fst snd] in *.

Lemma record_error_run (text : str) (s : Shell) :
  record_error text s
  = (Ok tt, match current_task s with
            | Some task =>
                set_current_task (Some (TaskState.set_last_error (Some text) task)) s
            | None => s
            end).
Proof. reflexivity. Qed.

Lemma record_error_task (text : str) (s : Shell) :
  current_task (snd (record_error text s)) = with_last_error text (current_task s).
Proof.
  rewrite record_error_run. simpl.
  destruct (current_task s) eqn:E; simpl; rewrite ?E; reflexivity.
Qed.

(** One action never raises out of the loop; when its body raises, the
    text of the exception is shown and becomes the task's last error. *)
Lemma process_action_caught (env : Env) (action : json) (s : Shell) :
  exists s',
    process_action env action s = (Ok tt, s')
    /\ (forall e s1,
          dict_has action (py "type") = true ->
          run_action env action s = (Raise e, s1) ->
          current_task s' = with_last_error (str_exn e) (current_task s1)
          /\ trace s' = trace s1 ++ [EvPrint (nl ++ py "Error processing action: "
                                                 ++ str_exn e)]
          /\ history s' = history s1 /\ fs s' = fs s1).
Proof.
  unfold process_action.
  destruct (dict_has action (py "type")) eqn:Hty; simpl.
  - unfold try_except.
    destruct (run_action env action s) as [[[]|e] s1] eqn:Hrun.
    + eexists. split; [reflexivity|]. intros e s2 _ H. discriminate.
    + run_monad. rewrite record_error_run.
      eexists. split; [reflexivity|].
      intros e' s2 _ H. injection H as <- <-.
      state_simpl. destruct (current_task s1) eqn:E; simpl; rewrite ?E; auto.
  - eexists. split; [reflexivity|]. intros e s1 H. discriminate.
Qed.

Lemma for_each_process_action (env : Env) (items : list json) (s : Shell) :
  for_each (process_action env) items s = (Ok tt, after_actions env items s).
Proof.
  revert s. induction items as [|action items IH]; intros s; [reflexivity|].
  cbn [for_each after_actions fold_left]. unfold bind.
  destruct (process_action_caught env action s) as [s' [Hrun _]].
  rewrite Hrun. cbn [snd]. apply IH.
Qed.

(** C4, as the code has it. For a plan that is a dict with an [actions]
    key: when the value of [actions] can be iterated (a list, a string, a
    dict), [process_actions] goes through all of it and returns without
    raising; each action that raises is caught, its error is recorded as
    the last error of the task in progress, and the next action runs.
    When the value cannot be iterated (a number, a boolean, [null]) the
    loop itself raises a [TypeError]: the outer handler records it and
    raises it again. A plan that is not a dict, or has no [actions] key,
    is refused with a [ValueError] before anything is done. *)
Theorem process_actions_isolates_failures (env : Env) (plan : json) (s : Shell) :
  (dict_has plan (py "actions") = true ->
   exists actions,
     getitem plan (py "actions") s = (Ok actions, s)
     /\ (forall items,
           py_iter actions = Some items ->
           exists s',
             process_actions env plan s = (Ok tt, s')
             /\ s' = snd (print (nl ++ rule ++ rule ++ py "═════════════════")
                            (after_actions env items
                               (snd (print (nl ++ rule ++ py " Executing Actions " ++ rule) s)))))
     /\ (py_iter actions = None ->
         exists s',
           process_actions env plan s
           = (Raise (TypeError (quote ++ type_name actions ++ quote
                                  ++ py " object is not iterable")), s')
           /\ current_task s'
              = with_last_error (quote ++ type_name actions ++ quote
                                   ++ py " object is not iterable") (current_task s)))
  /\ (forall (action : json) (st : Shell),
        exists st',
          process_action env action st = (Ok tt, st')
          /\ (forall e s1,
                dict_has action (py "type") = true ->
                run_action env action st = (Raise e, s1) ->
                current_task st' = with_last_error (str_exn e) (current_task s1)))
  /\ (dict_has plan (py "actions") = false ->
      process_actions env plan s
      = (Raise (ValueError (py "Invalid actions data format")), s)).
Proof.
  split; [|split].
  - intros Hhas. unfold process_actions. rewrite Hhas. cbn [negb].
    destruct plan as [| | | | | |fields]; try discriminate.
    simpl in Hhas. apply bool_decide_eq_true_1 in Hhas as [actions Hget].
    exists actions. unfold getitem. rewrite Hget.
    split; [reflexivity|]. split.
    + intros items Hit. eexists. split; [|reflexivity].
      run_monad. rewrite Hit. run_monad.
      rewrite for_each_process_action. reflexivity.
    + intros Hit. eexists. split.
      * run_monad. rewrite Hit. run_monad. rewrite record_error_run.
        reflexivity.
      * state_simpl. destruct (current_task s) eqn:E; simpl; rewrite ?E; reflexivity.
  - intros action st.
    destruct (process_action_caught env action st) as [st' [Hrun Hrec]].
    exists st'. split; [exact Hrun|]. intros e s1 Hty Hraise.
    apply (Hrec e s1 Hty Hraise).
  - intros Hno. unfold process_actions. rewrite Hno. reflexivity.
Qed.

Lemma process_actions_isolates_failures_witness :
  let env := Sample.env [] in
  dict_has plan_three (py "actions") = true
  /\ (exists actions items s',
        getitem plan_three (py "actions") shell_with_task = (Ok actions, shell_with_task)
        /\ py_iter actions = Some items
        /\ length items = 3%nat
        /\ process_actions env plan_three shell_with_task = (Ok tt, s'))
  /\ dict_has (JArr []) (py "actions") = false
  /\ process_actions env (JArr []) shell_with_task
     = (Raise (ValueError (py "Invalid actions data format")), shell_with_task).
Proof.
  intros env.
  assert (Hhas : dict_has plan_three (py "actions") = true) by (vm_compute; reflexivity).
  assert (Hno : dict_has (JArr []) (py "actions") = false) by reflexivity.
  destruct (process_actions_isolates_failures env plan_three shell_with_task)
    as [Hplan [_ _]].
  destruct (process_actions_isolates_failures env (JArr []) shell_with_task)
    as [_ [_ Hbad]].
  destruct (Hplan Hhas) as [actions [Hget [Hiter _]]].
  destruct (py_iter actions) as [items|] eqn:Hit.
  2:{ exfalso. vm_compute in Hget. injection Hget as <-. vm_compute in Hit. discriminate. }
  destruct (Hiter items eq_refl) as [s' [Hrun _]].
  split; [exact Hhas|]. split.
  - exists actions, items, s'. repeat split; try assumption.
    vm_compute in Hget. injection Hget as <-. vm_compute in Hit.
    injection Hit as <-. reflexivity.
  - split; [exact Hno|]. exact (Hbad Hno).
Defined.

(** The plan of three actions, run: the second action fails (the file is
    there), the third still runs; the failure is the task's last error
    and the file is untouched. *)
Lemma process_actions_three_actions :
  let r := process_actions (Sample.env []) plan_three shell_with_task in
  fst r = Ok tt
  /\ map ConversationEntry.content (history (snd r))
     = [JStr (py "creating the notes"); JStr (py "done")]
  /\ option_map TaskState.last_error (current_task (snd r))
     = Some (Some (py "File operation create failed"))
  /\ fs (snd r) !! Path (py "notes.txt") = Some (py "aaa").
Proof. vm_compute. repeat split. Qed.

(** C4 as stated fails: a dict whose [actions] is a number passes the
    format check, and [process_actions] raises. *)
Lemma process_actions_not_iterable :
  let plan := JObj [ (py "actions", JInt 5) ] in
  let r := process_actions (Sample.env []) plan shell_with_task in
  dict_has plan (py "actions") = true
  /\ fst r = Raise (TypeError (py "'int' object is not iterable"))
  /\ option_map TaskState.last_error (current_task (snd r))
     = Some (Some (py "'int' object is not iterable")).
Proof. vm_compute. repeat split. Qed.

(** ** The retry engine *)

Ltac task_simpl :=
  cbn [TaskState.in_progress TaskState.completed TaskState.attempts
       TaskState.max_attempts TaskState.last_error TaskState.start_time
       TaskState.set_in_progress TaskState.set_completed TaskState.set_attempts
       TaskState.set_last_error] in *.

Lemma sleeps_app (tr1 tr2 : list Event) : sleeps (tr1 ++ tr2) = sleeps tr1 ++ sleeps tr2.
Proof. unfold sleeps. apply omap_app. Qed.

Lemma requests_app (tr1 tr2 : list Event) : requests (tr1 ++ tr2) = (requests tr1 + requests tr2)%nat.
Proof. unfold requests. rewrite omap_app, length_app. reflexivity. Qed.

Lemma bind_ok {A B} (m : M A) (k : A -> M B) (s s' : Shell) (a : A) :
  m s = (Ok a, s') -> bind m k s = k a s'.
Proof. intros H. unfold bind. rewrite H. reflexivity. Qed.

Lemma bind_raise {A B} (m : M A) (k : A -> M B) (s s' : Shell) (e : exn) :
  m s = (Raise e, s') -> bind m k s = (Raise e, s').
Proof. intros H. unfold bind. rewrite H. reflexivity. Qed.

Lemma try_except_ok {A} (m : M A) (h : exn -> M A) (s s' : Shell) (a : A) :
  m s = (Ok a, s') -> try_except m h s = (Ok a, s').
Proof. intros H. unfold try_except. rewrite H. reflexivity. Qed.

Lemma try_except_raise {A} (m : M A) (h : exn -> M A) (s s' : Shell) (e : exn) :
  m s = (Raise e, s') -> try_except m h s = h e s'.
Proof. intros H. unfold try_except. rewrite H. reflexivity. Qed.

Lemma the_task_run (attr : str) (s : Shell) (task : TaskState.t) :
  current_task s = Some task -> the_task attr s = (Ok task, s).
Proof. intros H. unfold the_task. run_monad. rewrite H. reflexivity. Qed.

Lemma update_task_run (attr : str) (f : TaskState.t -> TaskState.t) (s : Shell)
    (task : TaskState.t) :
  current_task s = Some task ->
  update_task attr f s = (Ok tt, set_current_task (Some (f task)) s).
Proof.
  intros H. unfold update_task.
  rewrite (bind_ok _ _ _ _ _ (the_task_run attr s task H)). reflexivity.
Qed.

Lemma check_in_run (env : Env) (s : Shell) (task : TaskState.t) :
  current_task s = Some task ->
  check_in env s
  = (Ok (TaskState.check_in {| micros := clock env (ticks s); utcoffset := None |} task),
     set_ticks (S (ticks s)) s).
Proof.
  intros H. unfold check_in.
  rewrite (bind_ok _ _ _ _ _ (the_task_run _ s task H)). reflexivity.
Qed.

Lemma get_recent_context_run (env : Env) (s : Shell) (texts : list str) :
  format_entries env (slice_from (- history_size s) (history s)) = Ok texts ->
  get_recent_context env s = (Ok (join nl texts), s).
Proof. intros H. unfold get_recent_context. run_monad. rewrite H. reflexivity. Qed.

(** A request that raises, or gives no usable response: the exception is
    caught inside [send_to_anthropic], which records it and returns
    [None]. *)
Lemma send_to_anthropic_fails (env : Env) (message : str) (s : Shell)
    (task : TaskState.t) (texts : list str) :
  current_task s = Some task ->
  format_entries env (slice_from (- history_size s) (history s)) = Ok texts ->
  (forall text, client_create env (requested s) <> ApiText text) ->
  exists e status,
    send_to_anthropic env message s
    = (Ok None,
       set_current_task (Some (TaskState.set_last_error (Some (str_exn e)) task))
         (set_requested (S (requested s))
            (set_trace (trace s ++ [EvRequest (join nl texts) status message])
               (set_ticks (S (ticks s)) s)))).
Proof.
  intros Htask Hctx Hfail. unfold send_to_anthropic.
  rewrite (bind_ok _ _ _ _ _ (get_recent_context_run env s texts Hctx)).
  rewrite (bind_ok _ _ _ _ _ (eq_refl : get s = (Ok s, s))).
  rewrite Htask.
  rewrite (bind_ok _ _ _ _ _
             (bind_ok _ _ _ _ _ (check_in_run env s task Htask))).
  run_monad. state_simpl.
  destruct (client_create env (requested s)) as [e| |text] eqn:Hc.
  - exists e. eexists. rewrite record_error_run. state_simpl. rewrite Htask. reflexivity.
  - eexists. eexists. rewrite record_error_run. state_simpl. rewrite Htask. reflexivity.
  - exfalso. exact (Hfail text eq_refl).
Qed.

(** A state built by setters, written as a record. *)
Ltac state_record :=
  cbv beta iota delta
    [history history_size command_timeout current_task fs ticks spawned
     requested trace set_history set_current_task set_fs set_ticks
     set_spawned set_requested set_trace].

(** The notice printed at the start of a retry changes the console and
    the clock only. *)
Lemma retry_notice_run (env : Env) (s : Shell) (task : TaskState.t) :
  current_task s = Some task ->
  exists n tr,
    (if TaskState.attempts task >? 1
     then print (nl ++ py "Retrying task...") ;;
          status <- check_in env ;;
          print status
     else ret tt) s
    = (Ok tt, set_trace (trace s ++ tr) (set_ticks n s))
    /\ sleeps tr = [] /\ requests tr = 0%nat.
Proof.
  intros Htask. destruct (TaskState.attempts task >? 1).
  - unfold print at 1, emit at 1, modify at 1, bind at 1.
    erewrite bind_ok; [|apply check_in_run; state_simpl; exact Htask].
    unfold print, emit, modify. state_simpl.
    eexists. eexists. split.
    + rewrite <- app_assoc. reflexivity.
    + split; reflexivity.
  - exists (ticks s), []. split; [|split; reflexivity].
    rewrite app_nil_r. destruct s; reflexivity.
Qed.

(** One attempt when the model gives no response: no sleep, and the loop
    goes on. *)
Lemma attempt_no_response (env : Env) (line : str) (s : Shell)
    (task : TaskState.t) :
  current_task s = Some task ->
  context_ok env s ->
  (forall text, client_create env (requested s) <> ApiText text) ->
  exists n tr,
    attempt env line s
    = (Ok false,
       {| history := history s; history_size := history_size s;
          command_timeout := command_timeout s;
          current_task :=
            Some (TaskState.set_last_error (Some (py "No response received"))
                    (TaskState.set_attempts (TaskState.attempts task + 1) task));
          fs := fs s; ticks := n; spawned := spawned s;
          requested := S (requested s); trace := trace s ++ tr |})
    /\ sleeps tr = [] /\ requests tr = 1%nat.
Proof.
  intros Htask [texts Hctx] Hfail. unfold attempt.
  set (task1 := TaskState.set_attempts (TaskState.attempts task + 1) task).
  pose (s1 := set_current_task (Some task1) s).
  destruct (retry_notice_run env s1 task1 eq_refl) as [n0 [tr0 [Hnotice [Hs0 Hr0]]]].
  pose (s2 := set_trace (trace s1 ++ tr0) (set_ticks n0 s1)).
  destruct (send_to_anthropic_fails env line s2 task1 texts eq_refl Hctx Hfail)
    as [e [status Hsend]].
  eexists. eexists. split.
  - erewrite try_except_ok; [reflexivity|].
    erewrite bind_ok; [|apply update_task_run; exact Htask].
    erewrite bind_ok; [|apply the_task_run; reflexivity].
    erewrite bind_ok; [|exact Hnotice].
    erewrite bind_ok; [|exact Hsend].
    unfold print, emit. erewrite bind_ok; [|reflexivity].
    erewrite bind_ok; [|apply update_task_run; reflexivity].
    unfold ret. subst s2 s1. state_record. task_simpl.
    rewrite <- !app_assoc. reflexivity.
  - split; [rewrite !sleeps_app, Hs0; reflexivity|].
    rewrite !requests_app, Hr0. reflexivity.
Qed.

(** The loop when the model never gives a response: as many attempts as
    are left, no sleep. *)
Lemma retry_loop_no_response (env : Env) (line : str) (n : nat) :
  forall (s : Shell) (task : TaskState.t),
    current_task s = Some task ->
    TaskState.in_progress task = true ->
    TaskState.completed task = false ->
    n = Z.to_nat (TaskState.max_attempts task - TaskState.attempts task) ->
    context_ok env s ->
    (forall k text, (requested s <= k < requested s + n)%nat ->
                    client_create env k <> ApiText text) ->
    exists m tr task',
      retry_loop env n line s
      = (Ok true,
         {| history := history s; history_size := history_size s;
            command_timeout := command_timeout s;
            current_task := Some task';
            fs := fs s; ticks := m; spawned := spawned s;
            requested := (requested s + n)%nat; trace := trace s ++ tr |})
      /\ sleeps tr = [] /\ requests tr = n
      /\ TaskState.in_progress task' = true
      /\ TaskState.completed task' = false
      /\ TaskState.attempts task' = TaskState.attempts task + Z.of_nat n
      /\ TaskState.max_attempts task' = TaskState.max_attempts task
      /\ TaskState.start_time task' = TaskState.start_time task
      /\ (n <> 0%nat ->
          TaskState.last_error task' = Some (py "No response received")).
Proof.
  induction n as [|n IH]; intros s task Htask Hin Hdone Hfuel Hctx Hfail.
  - exists (ticks s), [], task.
    split.
    + cbn [retry_loop]. erewrite bind_ok; [|apply the_task_run; exact Htask].
      assert (Hstop : TaskState.should_retry task = false).
      { unfold TaskState.should_retry. rewrite Hin, Hdone. simpl.
        apply Z.ltb_ge. lia. }
      rewrite Hstop. unfold ret. rewrite app_nil_r, Nat.add_0_r, <- Htask.
      destruct s; reflexivity.
    + repeat split; try assumption; try lia.
  - assert (Hgo : TaskState.should_retry task = true).
    { unfold TaskState.should_retry. rewrite Hin, Hdone. simpl.
      apply Z.ltb_lt. lia. }
    assert (Hfail0 : forall text, client_create env (requested s) <> ApiText text).
    { intros text. apply Hfail. lia. }
    destruct (attempt_no_response env line s task Htask Hctx Hfail0)
      as [m1 [tr1 [Hattempt [Hs1 Hr1]]]].
    match type of Hattempt with _ = (_, ?st) => set (s1 := st) in * end.
    set (task1 := TaskState.set_last_error (Some (py "No response received"))
                    (TaskState.set_attempts (TaskState.attempts task + 1) task)) in *.
    destruct (IH s1 task1) as [m [tr [task' [Hloop Hrest]]]];
      try reflexivity; try assumption.
    { subst task1. task_simpl. lia. }
    { intros k text Hk. apply Hfail. subst s1. state_simpl. lia. }
    destruct Hrest as [Hs [Hr [Hin' [Hdone' [Hatt [Hmax [Hstart Herr]]]]]]].
    exists m, (tr1 ++ tr), task'. split.
    + cbn [retry_loop]. erewrite bind_ok; [|apply the_task_run; exact Htask].
      rewrite Hgo. erewrite bind_ok; [|exact Hattempt].
      cbn beta iota. rewrite Hloop. subst s1. state_simpl. rewrite <- app_assoc.
      replace (S (requested s) + n)%nat with (requested s + S n)%nat by lia.
      reflexivity.
    + rewrite sleeps_app, requests_app, Hs1, Hr1, Hs, Hr.
      subst task1. task_simpl.
      repeat split; try assumption; try lia.
      intros _. destruct n as [|n'].
      * assert (Hloop0 := Hloop). cbn [retry_loop] in Hloop0.
        erewrite bind_ok in Hloop0; [|apply the_task_run; reflexivity].
        assert (Hstop : TaskState.should_retry
                          (TaskState.set_last_error (Some (py "No response received"))
                             (TaskState.set_attempts (TaskState.attempts task + 1) task))
                        = false).
        { unfold TaskState.should_retry. task_simpl. rewrite Hin, Hdone. simpl.
          apply Z.ltb_ge. lia. }
        rewrite Hstop in Hloop0. unfold ret in Hloop0.
        injection Hloop0 as Hst. rewrite <- Hst. reflexivity.
      * apply Herr. discriminate.
Qed.

Lemma send_to_anthropic_text (env : Env) (message : str) (s : Shell)
    (task : TaskState.t) (texts : list str) (text : str) :
  current_task s = Some task ->
  format_entries env (slice_from (- history_size s) (history s)) = Ok texts ->
  client_create env (requested s) = ApiText text ->
  exists status,
    send_to_anthropic env message s
    = (Ok (Some (strip text)),
       set_requested (S (requested s))
         (set_trace (trace s ++ [EvRequest (join nl texts) status message])
            (set_ticks (S (ticks s)) s))).
Proof.
  intros Htask Hctx Htext. unfold send_to_anthropic.
  rewrite (bind_ok _ _ _ _ _ (get_recent_context_run env s texts Hctx)).
  rewrite (bind_ok _ _ _ _ _ (eq_refl : get s = (Ok s, s))).
  rewrite Htask.
  rewrite (bind_ok _ _ _ _ _
             (bind_ok _ _ _ _ _ (check_in_run env s task Htask))).
  run_monad. state_simpl. rewrite Htext. eexists. reflexivity.
Qed.

(** A plan whose [actions] cannot be iterated: the loop raises, the outer
    handler shows and records the error and raises it again. *)
Lemma process_actions_not_iterable_run (env : Env) (fields : list (str * json))
    (actions : json) (s : Shell) :
  lookup_field (py "actions") fields = Some actions ->
  py_iter actions = None ->
  let msg := quote ++ type_name actions ++ quote ++ py " object is not iterable" in
  process_actions env (JObj fields) s
  = (Raise (TypeError msg),
     set_current_task (with_last_error msg (current_task s))
       (set_trace
          (trace s ++ [EvPrint (nl ++ rule ++ py " Executing Actions " ++ rule);
                       EvPrint (nl ++ py "Error executing actions: " ++ msg)]) s)).
Proof.
  intros Hget Hit msg. unfold process_actions, dict_has. rewrite Hget.
  rewrite bool_decide_eq_true_2 by (eexists; reflexivity). cbn [negb].
  unfold getitem. rewrite Hget. run_monad. rewrite Hit. run_monad.
  rewrite record_error_run. state_simpl. rewrite <- app_assoc.
  destruct s as [h hs ct [task|] files tk sp rq tr]; reflexivity.
Qed.

(** One attempt whose plan makes [process_actions] raise: the exception
    reaches the handler of the engine, which sleeps [2 ^ (attempts - 1)]
    seconds when the task can still be retried. *)
Lemma attempt_plan_raises (env : Env) (line : str) (s : Shell)
    (task : TaskState.t) (text rest : str) (c : N)
    (fields : list (str * json)) (actions : json) :
  current_task s = Some task ->
  context_ok env s ->
  client_create env (requested s) = ApiText text ->
  strip text = c :: rest ->
  json_loads env (c :: rest) = Some (JObj fields) ->
  lookup_field (py "actions") fields = Some actions ->
  py_iter actions = None ->
  let msg := quote ++ type_name actions ++ quote ++ py " object is not iterable" in
  let task1 := TaskState.set_last_error (Some msg)
                 (TaskState.set_attempts (TaskState.attempts task + 1) task) in
  exists n tr,
    attempt env line s
    = (Ok false,
       {| history := history s; history_size := history_size s;
          command_timeout := command_timeout s;
          current_task := Some task1;
          fs := fs s; ticks := n; spawned := spawned s;
          requested := S (requested s); trace := trace s ++ tr |})
    /\ sleeps tr = (if TaskState.should_retry task1
                    then [2 ^ TaskState.attempts task] else [])
    /\ requests tr = 1%nat.
Proof.
  intros Htask [texts Hctx] Htext Hstrip Hjson Hget Hit msg task1. unfold attempt.
  set (task0 := TaskState.set_attempts (TaskState.attempts task + 1) task).
  pose (s1 := set_current_task (Some task0) s).
  destruct (retry_notice_run env s1 task0 eq_refl) as [n0 [tr0 [Hnotice [Hs0 Hr0]]]].
  pose (s2 := set_trace (trace s1 ++ tr0) (set_ticks n0 s1)).
  destruct (send_to_anthropic_text env line s2 task0 texts text eq_refl Hctx Htext)
    as [status Hsend].
  assert (Hhas : dict_has (JObj fields) (py "actions") = true).
  { unfold dict_has. rewrite Hget. apply bool_decide_eq_true_2. eexists. reflexivity. }
  erewrite try_except_raise.
  2:{ erewrite bind_ok; [|apply update_task_run; exact Htask].
      erewrite bind_ok; [|apply the_task_run; reflexivity].
      erewrite bind_ok; [|exact Hnotice].
      erewrite bind_ok; [|exact Hsend].
      rewrite Hstrip, Hjson, Hhas.
      erewrite bind_raise; [reflexivity|].
      exact (process_actions_not_iterable_run env fields actions _ Hget Hit). }
  unfold print at 1, emit at 1. erewrite bind_ok; [|reflexivity].
  erewrite bind_ok; [|apply update_task_run; reflexivity].
  erewrite bind_ok; [|apply the_task_run; reflexivity].
  fold msg. unfold with_last_error, option_map. state_simpl.
  change (TaskState.set_last_error (Some (str_exn (TypeError msg)))
            (TaskState.set_last_error (Some msg) task0)) with task1.
  destruct (TaskState.should_retry task1) eqn:Hretry.
  - eexists. eexists. split.
    + run_monad. subst s2 s1. state_record. rewrite <- !app_assoc. reflexivity.
    + split; [rewrite !sleeps_app, Hs0|rewrite !requests_app, Hr0]; simpl.
      * subst task1 task0. task_simpl.
        replace (TaskState.attempts task + 1 - 1) with (TaskState.attempts task) by lia.
        reflexivity.
      * reflexivity.
  - eexists. eexists. split.
    + run_monad. subst s2 s1. state_record. rewrite <- !app_assoc. reflexivity.
    + split; [rewrite !sleeps_app, Hs0|rewrite !requests_app, Hr0]; reflexivity.
Qed.

(** The loop when every answer is a plan that makes [process_actions]
    raise: as many attempts as are left, with the backoff between them. *)
Lemma retry_loop_plan_raises (env : Env) (line : str) (text rest : str) (c : N)
    (fields : list (str * json)) (actions : json) (n : nat) :
  strip text = c :: rest ->
  json_loads env (c :: rest) = Some (JObj fields) ->
  lookup_field (py "actions") fields = Some actions ->
  py_iter actions = None ->
  forall (s : Shell) (task : TaskState.t),
    current_task s = Some task ->
    TaskState.in_progress task = true ->
    TaskState.completed task = false ->
    n = Z.to_nat (TaskState.max_attempts task - TaskState.attempts task) ->
    context_ok env s ->
    (forall k, (requested s <= k < requested s + n)%nat ->
               client_create env k = ApiText text) ->
    exists m tr task',
      retry_loop env n line s
      = (Ok true,
         {| history := history s; history_size := history_size s;
            command_timeout := command_timeout s;
            current_task := Some task';
            fs := fs s; ticks := m; spawned := spawned s;
            requested := (requested s + n)%nat; trace := trace s ++ tr |})
      /\ sleeps tr = backoff_delays (TaskState.attempts task) (n - 1)
      /\ requests tr = n
      /\ TaskState.in_progress task' = true
      /\ TaskState.completed task' = false
      /\ TaskState.attempts task' = TaskState.attempts task + Z.of_nat n
      /\ TaskState.max_attempts task' = TaskState.max_attempts task.
Proof.
  intros Hstrip Hjson Hget Hit.
  induction n as [|n IH]; intros s task Htask Hin Hdone Hfuel Hctx Htext.
  - exists (ticks s), [], task.
    split.
    + cbn [retry_loop]. erewrite bind_ok; [|apply the_task_run; exact Htask].
      assert (Hstop : TaskState.should_retry task = false).
      { unfold TaskState.should_retry. rewrite Hin, Hdone. simpl.
        apply Z.ltb_ge. lia. }
      rewrite Hstop. unfold ret. rewrite app_nil_r, Nat.add_0_r, <- Htask.
      destruct s; reflexivity.
    + repeat split; try assumption; try lia.
  - assert (Hgo : TaskState.should_retry task = true).
    { unfold TaskState.should_retry. rewrite Hin, Hdone. simpl.
      apply Z.ltb_lt. lia. }
    assert (Htext0 : client_create env (requested s) = ApiText text).
    { apply Htext. lia. }
    destruct (attempt_plan_raises env line s task text rest c fields actions
                Htask Hctx Htext0 Hstrip Hjson Hget Hit)
      as [m1 [tr1 [Hattempt [Hs1 Hr1]]]].
    cbv zeta in Hattempt, Hs1.
    match type of Hattempt with _ = (_, ?st) => set (s1 := st) in * end.
    match type of Hs1 with context [TaskState.should_retry ?t] => set (task1 := t) in * end.
    destruct (IH s1 task1) as [m [tr [task' [Hloop Hrest]]]];
      try reflexivity; try assumption.
    { subst task1. task_simpl. lia. }
    { intros k Hk. apply Htext. subst s1. state_simpl. lia. }
    destruct Hrest as [Hs [Hr [Hin' [Hdone' [Hatt Hmax]]]]].
    exists m, (tr1 ++ tr), task'. split.
    + cbn [retry_loop]. erewrite bind_ok; [|apply the_task_run; exact Htask].
      rewrite Hgo. erewrite bind_ok; [|exact Hattempt].
      cbn beta iota. rewrite Hloop. subst s1. state_simpl. rewrite <- app_assoc.
      replace (S (requested s) + n)%nat with (requested s + S n)%nat by lia.
      reflexivity.
    + rewrite sleeps_app, requests_app, Hs1, Hr1, Hs, Hr.
      subst task1. task_simpl.
      repeat split; try assumption; try lia.
      unfold TaskState.should_retry. task_simpl. rewrite Hin, Hdone.
      cbn [andb negb].
      destruct n as [|n'].
      * replace (TaskState.attempts task + 1 <? TaskState.max_attempts task) with false
          by (symmetry; apply Z.ltb_ge; lia).
        reflexivity.
      * replace (TaskState.attempts task + 1 <? TaskState.max_attempts task) with true
          by (symmetry; apply Z.ltb_lt; lia).
        cbn [backoff_delays app Nat.sub]. rewrite Nat.sub_0_r. reflexivity.
Qed.

(** After a loop that leaves the task incomplete, [_process_input] reports
    the failure and returns. *)
Lemma process_input_reports (env : Env) (line : str) (s s1 : Shell)
    (task task' : TaskState.t) (left : bool) :
  current_task s = Some task ->
  retry_loop env (Z.to_nat (TaskState.max_attempts task - TaskState.attempts task))
    line s = (Ok left, s1) ->
  current_task s1 = Some task' ->
  TaskState.completed task' = false ->
  _process_input env line s
  = (Ok tt,
     set_trace
       (trace s1
          ++ [EvPrint (nl ++ py "Failed to complete task after maximum attempts.");
              EvPrint (TaskState.check_in
                         {| micros := clock env (ticks s1); utcoffset := None |} task')])
       (set_ticks (S (ticks s1)) s1)).
Proof.
  intros Htask Hloop Htask' Hdone. unfold _process_input.
  erewrite bind_ok; [|apply the_task_run; exact Htask].
  erewrite bind_ok; [|exact Hloop].
  erewrite bind_ok; [|apply the_task_run; exact Htask'].
  rewrite Hdone. unfold print at 1, emit at 1.
  erewrite bind_ok; [|reflexivity].
  erewrite bind_ok; [|apply check_in_run; state_simpl; exact Htask'].
  unfold print, emit, modify. state_simpl. rewrite <- app_assoc. reflexivity.
Qed.

(** C1, as the code has it. Take a task in progress, not completed, with
    [n] attempts left. When every request to the model raises, the
    exception is caught inside [send_to_anthropic]: the engine makes
    exactly [n] attempts, sleeps between none of them, reports the task
    incomplete and returns without raising. The backoff belongs to the
    exceptions that reach the engine's own handler: when every answer is a
    plan on which [process_actions] raises, the engine makes exactly [n]
    attempts with sleeps of [2 ^ (attempts - 1)] seconds between
    consecutive attempts (1, 2, 4, ... from a fresh task), reports the
    task incomplete and returns without raising. *)
Theorem retry_engine_exhausts_attempts (env : Env) (line : str) (s : Shell)
    (task : TaskState.t) :
  current_task s = Some task ->
  TaskState.in_progress task = true ->
  TaskState.completed task = false ->
  context_ok env s ->
  let n := Z.to_nat (TaskState.max_attempts task - TaskState.attempts task) in
  ((forall k, (requested s <= k < requested s + n)%nat ->
              exists e, client_create env k = ApiRaise e) ->
   exists s' tr task',
     _process_input env line s = (Ok tt, s')
     /\ trace s' = trace s ++ tr
     /\ requests tr = n
     /\ sleeps tr = []
     /\ In failure_notice tr
     /\ current_task s' = Some task'
     /\ TaskState.completed task' = false
     /\ TaskState.attempts task' = TaskState.attempts task + Z.of_nat n
     /\ history s' = history s /\ fs s' = fs s)
  /\ (forall (text rest : str) (c : N) (fields : list (str * json)) (actions : json),
        (forall k, (requested s <= k < requested s + n)%nat ->
                   client_create env k = ApiText text) ->
        strip text = c :: rest ->
        json_loads env (c :: rest) = Some (JObj fields) ->
        lookup_field (py "actions") fields = Some actions ->
        py_iter actions = None ->
        exists s' tr task',
          _process_input env line s = (Ok tt, s')
          /\ trace s' = trace s ++ tr
          /\ requests tr = n
          /\ sleeps tr = backoff_delays (TaskState.attempts task) (n - 1)
          /\ In failure_notice tr
          /\ current_task s' = Some task'
          /\ TaskState.completed task' = false
          /\ TaskState.attempts task' = TaskState.attempts task + Z.of_nat n
          /\ history s' = history s /\ fs s' = fs s).
Proof.
  intros Htask Hin Hdone Hctx n. split.
  - intros Hraise.
    destruct (retry_loop_no_response env line n s task Htask Hin Hdone eq_refl Hctx)
      as [m [tr [task' [Hloop [Hs [Hr [_ [Hdone' [Hatt _]]]]]]]]].
    { intros k text Hk E. destruct (Hraise k Hk) as [e He]. congruence. }
    eexists. eexists. exists task'. split.
    + eapply process_input_reports; [exact Htask|exact Hloop|reflexivity|exact Hdone'].
    + state_simpl. split; [rewrite <- app_assoc; reflexivity|].
      split; [rewrite requests_app, Hr; apply Nat.add_0_r|].
      split; [rewrite sleeps_app, Hs; reflexivity|].
      split; [apply in_or_app; right; left; reflexivity|].
      repeat split; assumption.
  - intros text rest c fields actions Htext Hstrip Hjson Hget Hit.
    destruct (retry_loop_plan_raises env line text rest c fields actions n
                Hstrip Hjson Hget Hit s task Htask Hin Hdone eq_refl Hctx Htext)
      as [m [tr [task' [Hloop [Hs [Hr [_ [Hdone' [Hatt _]]]]]]]]].
    eexists. eexists. exists task'. split.
    + eapply process_input_reports; [exact Htask|exact Hloop|reflexivity|exact Hdone'].
    + state_simpl. split; [rewrite <- app_assoc; reflexivity|].
      split; [rewrite requests_app, Hr; apply Nat.add_0_r|].
      split; [rewrite sleeps_app, Hs; apply app_nil_r|].
      split; [apply in_or_app; right; left; reflexivity|].
      repeat split; assumption.
Qed.

Lemma retry_engine_exhausts_attempts_witness :
  let s := shell_with_task in
  let task := TaskState.set_in_progress true
                (TaskState.new {| micros := Sample.clock 0; utcoffset := None |}) in
  (exists s' tr,
     _process_input (Sample.env []) (py "list files") s = (Ok tt, s')
     /\ trace s' = trace s ++ tr /\ requests tr = 3%nat /\ sleeps tr = [])
  /\ (exists s' tr,
        _process_input (Sample.env [ApiText plan_bad; ApiText plan_bad; ApiText plan_bad])
          (py "list files") s = (Ok tt, s')
        /\ trace s' = trace s ++ tr /\ requests tr = 3%nat /\ sleeps tr = [1; 2]).
Proof.
  intros s task.
  assert (Htask : current_task s = Some task) by reflexivity.
  assert (Hin : TaskState.in_progress task = true) by reflexivity.
  assert (Hdone : TaskState.completed task = false) by reflexivity.
  assert (Hctx : forall env, context_ok env s).
  { intros env. exists []. reflexivity. }
  split.
  - destruct (proj1 (retry_engine_exhausts_attempts (Sample.env []) (py "list files")
                       s task Htask Hin Hdone (Hctx _)))
      as [s' [tr [task' [Hrun [Htr [Hreq [Hsl _]]]]]]].
    { intros k _. eexists. unfold client_create, Sample.env, Sample.client_create.
      rewrite lookup_nil. reflexivity. }
    exists s', tr. repeat split; assumption.
  - set (env := Sample.env [ApiText plan_bad; ApiText plan_bad; ApiText plan_bad]).
    assert (Hstrip : strip plan_bad = 123%N :: drop 1 plan_bad)
      by (vm_compute; reflexivity).
    assert (Hjson : json_loads env (123%N :: drop 1 plan_bad)
                    = Some (JObj [ (py "actions", JInt 5) ]))
      by (vm_compute; reflexivity).
    assert (Hget : lookup_field (py "actions") [ (py "actions", JInt 5) ] = Some (JInt 5))
      by (vm_compute; reflexivity).
    destruct (proj2 (retry_engine_exhausts_attempts env (py "list files")
                       s task Htask Hin Hdone (Hctx _))
                plan_bad (drop 1 plan_bad) 123%N [ (py "actions", JInt 5) ] (JInt 5))
      as [s' [tr [task' [Hrun [Htr [Hreq [Hsl _]]]]]]];
      try assumption; try reflexivity.
    { intros k Hk. change (requested s) with 0%nat in Hk.
      change (Z.to_nat (TaskState.max_attempts task - TaskState.attempts task))
        with 3%nat in Hk.
      destruct k as [|[|[|k]]]; try reflexivity. lia. }
    exists s', tr. repeat split; assumption.
Defined.

(** C1 as stated fails: with a model whose every request raises, the
    engine makes its three attempts and sleeps between none of them,
    where the claim has sleeps of 1 and 2 seconds. *)
Lemma failing_model_no_backoff :
  let env := Sample.env [] in
  let r := default env (py "list files") (fresh_shell ∅) in
  (forall k, client_create env k = ApiRaise (LibraryError (py "Connection error.")))
  /\ fst r = Ok tt
  /\ requests (trace (snd r)) = 3%nat
  /\ sleeps (trace (snd r)) = []
  /\ sleeps (trace (snd r)) <> backoff_delays 0 2
  /\ option_map TaskState.completed (current_task (snd r)) = Some false
  /\ option_map TaskState.attempts (current_task (snd r)) = Some 3.
Proof.
  intros env r. split.
  - intros k. unfold env, client_create, Sample.env, Sample.client_create.
    rewrite lookup_nil. reflexivity.
  - vm_compute. repeat split. discriminate.
Qed.

(** ** What the plan interpreter leaves alone *)

Lemma interp_frame_refl (s : Shell) : interp_frame s s.
Proof.
  split; try reflexivity; [|auto].
  exists []. rewrite app_nil_r. auto.
Qed.

Lemma interp_frame_trans (s1 s2 s3 : Shell) :
  interp_frame s1 s2 -> interp_frame s2 s3 -> interp_frame s1 s3.
Proof.
  intros [T1 R1 Z1 C1 [tr1 [E1 [S1 Q1]]] W1] [T2 R2 Z2 C2 [tr2 [E2 [S2 Q2]]] W2].
  split; try congruence; [|auto].
  exists (tr1 ++ tr2). rewrite E2, E1, <- app_assoc, sleeps_app, requests_app, S1, S2, Q1, Q2.
  auto.
Qed.

Lemma frames_ret {A} (a : A) : frames (ret a).
Proof. intros s. apply interp_frame_refl. Qed.

Lemma frames_raise {A} (e : exn) : frames (@raise A e).
Proof. intros s. apply interp_frame_refl. Qed.

Lemma frames_get : frames get.
Proof. intros s. apply interp_frame_refl. Qed.

Lemma frames_bind {A B} (m : M A) (k : A -> M B) :
  frames m -> (forall a, frames (k a)) -> frames (bind m k).
Proof.
  intros Hm Hk s. unfold bind. specialize (Hm s).
  destruct (m s) as [[a|e] s1]; simpl in *; [|exact Hm].
  eapply interp_frame_trans; [exact Hm|apply Hk].
Qed.

Lemma frames_try_except {A} (m : M A) (h : exn -> M A) :
  frames m -> (forall e, frames (h e)) -> frames (try_except m h).
Proof.
  intros Hm Hh s. unfold try_except. specialize (Hm s).
  destruct (m s) as [[a|e] s1]; simpl in *; [exact Hm|].
  eapply interp_frame_trans; [exact Hm|apply Hh].
Qed.

Lemma frames_for_each {A} (body : A -> M unit) (l : list A) :
  (forall x, frames (body x)) -> frames (for_each body l).
Proof.
  intros Hbody. induction l as [|x l IH]; simpl.
  - apply frames_ret.
  - apply frames_bind; [apply Hbody|intros _; exact IH].
Qed.

Lemma frames_print (text : str) : frames (print text).
Proof.
  intros s. split; try reflexivity; [|auto].
  eexists. split; [reflexivity|]. split; reflexivity.
Qed.

Lemma frames_emit_spawn (c : str) (timeout : json) : frames (emit (EvSpawn c timeout)).
Proof.
  intros s. split; try reflexivity; [|auto].
  eexists. split; [reflexivity|]. split; reflexivity.
Qed.

Lemma frames_emit_kill : frames (emit EvKill).
Proof.
  intros s. split; try reflexivity; [|auto].
  eexists. split; [reflexivity|]. split; reflexivity.
Qed.

Lemma frames_now (env : Env) : frames (now env).
Proof.
  intros s. split; try reflexivity; [|auto].
  exists []. simpl. rewrite app_nil_r. auto.
Qed.

(** A change of the files, the clock or the spawn counter. *)
Lemma frames_modify_outside (f : Shell -> Shell) :
  (forall s, current_task (f s) = current_task s /\ requested (f s) = requested s
             /\ history_size (f s) = history_size s
             /\ command_timeout (f s) = command_timeout s
             /\ trace (f s) = trace s /\ history (f s) = history s) ->
  frames (modify f).
Proof.
  intros H s. destruct (H s) as [T [R [Z [C [E W]]]]]. simpl.
  split; try congruence.
  exists []. rewrite app_nil_r. auto.
Qed.

Lemma frames_write_text (path : str) (data : option str) : frames (write_text path data).
Proof.
  destruct data; simpl; [|apply frames_raise].
  apply frames_modify_outside. intros s. repeat split.
Qed.

Lemma frames_read_text (path : str) : frames (read_text path).
Proof.
  unfold read_text. apply frames_bind; [apply frames_get|]. intros s.
  destruct (fs s !! path); [apply frames_ret|apply frames_raise].
Qed.

Lemma frames_exists (path : str) : frames (exists_ path).
Proof.
  unfold exists_. apply frames_bind; [apply frames_get|]. intros s. apply frames_ret.
Qed.

Lemma frames_getitem (v : json) (key : str) : frames (getitem v key).
Proof.
  unfold getitem. destruct v; try apply frames_raise.
  destruct (lookup_field key fields); [apply frames_ret|apply frames_raise].
Qed.

Lemma frames_record_error (text : str) : frames (record_error text).
Proof.
  intros s. rewrite record_error_run. cbn [snd].
  destruct (current_task s) as [task|] eqn:E.
  - split; try reflexivity.
    + simpl. rewrite E. reflexivity.
    + exists []. simpl. rewrite app_nil_r. auto.
    + auto.
  - apply interp_frame_refl.
Qed.

Lemma wf_history_appended (size : Z) (h : list ConversationEntry.t)
    (entry : ConversationEntry.t) :
  wf_entry entry -> wf_history h -> wf_history (appended size h entry).
Proof.
  intros He Hh. unfold appended.
  assert (Hall : wf_history (h ++ [entry])).
  { apply Forall_app. split; [exact Hh|]. constructor; [exact He|constructor]. }
  destruct (_ >? _); [|exact Hall].
  apply Forall_drop. exact Hall.
Qed.

Lemma frames_add_entry (env : Env) (entry : ConversationEntry.t) :
  wf_entry entry -> frames (add_entry env entry).
Proof.
  intros He s. rewrite add_entry_run. simpl.
  split; try reflexivity.
  - exists []. simpl. rewrite app_nil_r. auto.
  - simpl. apply wf_history_appended. exact He.
Qed.

Ltac frames_step :=
  lazymatch goal with
  | |- frames (ret _) => apply frames_ret
  | |- frames (raise _) => apply frames_raise
  | |- frames get => apply frames_get
  | |- frames (print _) => apply frames_print
  | |- frames (now _) => apply frames_now
  | |- frames (write_text _ _) => apply frames_write_text
  | |- frames (read_text _) => apply frames_read_text
  | |- frames (exists_ _) => apply frames_exists
  | |- frames (getitem _ _) => apply frames_getitem
  | |- frames (record_error _) => apply frames_record_error
  | |- frames (emit (EvSpawn _ _)) => apply frames_emit_spawn
  | |- frames (emit EvKill) => apply frames_emit_kill
  | |- frames (bind _ _) => apply frames_bind; [|intros ?]
  | |- frames (try_except _ _) => apply frames_try_except; [|intros ?]
  | |- frames (for_each _ _) => apply frames_for_each; intros ?
  | |- frames (match ?x with _ => _ end) => destruct x
  | |- frames (let (_, _) := ?x in _) => destruct x
  end.

Ltac frames_auto := repeat frames_step.

Lemma frames_create_backup (env : Env) (file_path : str) : frames (create_backup env file_path).
Proof. unfold create_backup. frames_auto. Qed.

Lemma frames_update_file (env : Env) (file_path : str) (old new : option str) :
  frames (update_file env file_path old new).
Proof. unfold update_file. frames_auto; apply frames_create_backup. Qed.

Lemma frames_rewrite_file (env : Env) (file_path : str) (content : option str) :
  frames (rewrite_file env file_path content).
Proof. unfold rewrite_file. frames_auto; apply frames_create_backup. Qed.

Lemma frames_create_file (file_path : str) (content : option str) :
  frames (create_file file_path content).
Proof. unfold create_file. frames_auto. Qed.

Lemma frames_execute_command (env : Env) (command timeout : json) :
  frames (execute_command env command timeout).
Proof.
  unfold execute_command. frames_auto.
  apply frames_modify_outside. intros s'. repeat split.
Qed.

Lemma frames_FileAction_of (env : Env) (action : json) : frames (FileAction_of env action).
Proof. unfold FileAction_of. frames_auto. Qed.

Lemma frames_print_block (title text : str) : frames (print_block title text).
Proof. unfold print_block. frames_auto. Qed.

Lemma frames_new_entry (env : Env) (ty : MessageType.t) (c md : json) :
  frames (new_entry env ty c md).
Proof. unfold new_entry. frames_auto. Qed.

(** The entries the shell builds itself can be rendered. *)
Lemma new_entry_wf (env : Env) (ty : MessageType.t) (c : json)
    (fields : list (str * json)) (s : Shell) :
  exists entry s', new_entry env ty c (JObj fields) s = (Ok entry, s') /\ wf_entry entry.
Proof.
  unfold new_entry, now, bind, ret. eexists. eexists. split; [reflexivity|].
  intros _. reflexivity.
Qed.

Lemma frames_new_then_add (env : Env) (ty : MessageType.t) (c : json)
    (fields : list (str * json)) (k : M unit) :
  frames k ->
  frames (entry <- new_entry env ty c (JObj fields) ;; add_entry env entry ;; k).
Proof.
  intros Hk s. unfold bind at 1.
  destruct (new_entry_wf env ty c fields s) as [entry [s' [Hnew Hwf]]].
  pose proof (frames_new_entry env ty c (JObj fields) s) as H1.
  rewrite Hnew in *. simpl in H1.
  eapply interp_frame_trans; [exact H1|].
  apply frames_bind; [apply frames_add_entry; exact Hwf|intros _; exact Hk].
Qed.

Lemma frames_run_action (env : Env) (action : json) : frames (run_action env action).
Proof.
  unfold run_action.
  apply frames_bind; [apply frames_getitem|intros ty].
  destruct (is_str ty (py "command")).
  { apply frames_bind; [apply frames_print|intros _].
    apply frames_bind; [apply frames_getitem|intros cmd].
    apply frames_bind; [apply frames_print|intros _].
    apply frames_bind; [apply frames_get|intros s].
    apply frames_bind; [apply frames_execute_command|intros result].
    apply frames_bind; [apply frames_print_block|intros _].
    apply frames_bind; [apply frames_print_block|intros _].
    apply frames_bind; [apply frames_print|intros _].
    apply frames_new_then_add. frames_auto. }
  destruct (is_str ty (py "say")).
  { apply frames_bind; [apply frames_getitem|intros msg].
    apply frames_bind; [apply frames_print|intros _].
    pose proof (frames_new_then_add env MessageType.ASSISTANT msg [] (ret tt)
                  (frames_ret tt)) as H.
    intros s. specialize (H s). revert H. unfold bind.
    destruct (new_entry env MessageType.ASSISTANT msg (JObj []) s) as [[e|e] s1];
      [|auto].
    destruct (add_entry env e s1) as [[[]|e'] s2]; auto. }
  destruct (is_str ty (py "file")); [|apply frames_ret].
  apply frames_bind; [apply frames_FileAction_of|intros file_action].
  apply frames_bind; [apply frames_print|intros _].
  apply frames_bind; [apply frames_print|intros _].
  apply frames_bind.
  { repeat match goal with
           | |- frames (if ?b then _ else _) => destruct b
           end;
      [apply frames_update_file|apply frames_rewrite_file|apply frames_create_file
      |apply frames_ret]. }
  intros success. frames_auto.
Qed.

Lemma frames_process_action (env : Env) (action : json) : frames (process_action env action).
Proof.
  unfold process_action. destruct (negb _); [apply frames_ret|].
  apply frames_try_except; [apply frames_run_action|intros e]. frames_auto.
Qed.

(** [process_actions] sends no request, sleeps nothing, and changes the
    task by its last error at most. *)
Lemma frames_process_actions (env : Env) (actions_data : json) :
  frames (process_actions env actions_data).
Proof.
  unfold process_actions. destruct (negb _); [apply frames_raise|].
  apply frames_try_except; [|intros e; frames_auto].
  apply frames_bind; [apply frames_print|intros _].
  apply frames_bind; [apply frames_getitem|intros actions].
  apply frames_bind; [|intros _; apply frames_print].
  destruct (py_iter actions); [|apply frames_raise].
  apply frames_for_each. intros action. apply frames_process_action.
Qed.

(** ** The engine terminates and does not raise *)

Lemma effects_refl (s : Shell) : effects s s [] 0.
Proof.
  split; try reflexivity; [lia| |auto].
  exists []. rewrite app_nil_r. auto.
Qed.

Lemma effects_trans (s1 s2 s3 : Shell) (sl1 sl2 : list Z) (q1 q2 : nat) :
  effects s1 s2 sl1 q1 -> effects s2 s3 sl2 q2 -> effects s1 s3 (sl1 ++ sl2) (q1 + q2).
Proof.
  intros [Z1 C1 R1 [tr1 [E1 [S1 Q1]]] W1] [Z2 C2 R2 [tr2 [E2 [S2 Q2]]] W2].
  split; try congruence; [lia| |auto].
  exists (tr1 ++ tr2). rewrite E2, E1, <- app_assoc, sleeps_app, requests_app.
  subst. auto.
Qed.

Lemma effects_of_frame (s s' : Shell) : interp_frame s s' -> effects s s' [] 0.
Proof.
  intros [T R Z C [tr [E [S Q]]] W]. split; try assumption; [lia|].
  exists tr. auto.
Qed.

Lemma frame_same_task (s s' : Shell) (task : TaskState.t) :
  interp_frame s s' -> current_task s = Some task ->
  exists task', current_task s' = Some task' /\ same_task task task'.
Proof.
  intros [T _ _ _ _ _] Htask. rewrite Htask in T.
  destruct (current_task s') as [task'|]; [|discriminate].
  exists task'. split; [reflexivity|]. unfold same_task. simpl in T. congruence.
Qed.

Lemma same_task_fields (task task' : TaskState.t) :
  same_task task task' ->
  TaskState.in_progress task' = TaskState.in_progress task
  /\ TaskState.completed task' = TaskState.completed task
  /\ TaskState.attempts task' = TaskState.attempts task
  /\ TaskState.max_attempts task' = TaskState.max_attempts task
  /\ TaskState.start_time task' = TaskState.start_time task.
Proof.
  unfold same_task, task_core. destruct task, task'. simpl.
  intros H. injection H as -> -> -> -> ->. auto.
Qed.

Lemma same_task_refl (task : TaskState.t) : same_task task task.
Proof. reflexivity. Qed.

Lemma same_task_trans (t1 t2 t3 : TaskState.t) :
  same_task t1 t2 -> same_task t2 t3 -> same_task t1 t3.
Proof. unfold same_task. congruence. Qed.

Lemma same_task_last_error (task : TaskState.t) (e : option str) :
  same_task task (TaskState.set_last_error e task).
Proof. destruct task. reflexivity. Qed.

(** [send_to_anthropic] sends one request at most, sleeps nothing, and
    changes the task by its last error only. It raises only when
    [get_recent_context] does. *)
Lemma send_to_anthropic_spec (env : Env) (message : str) (s : Shell)
    (task : TaskState.t) :
  current_task s = Some task ->
  exists r s' task' sent,
    send_to_anthropic env message s = (r, s')
    /\ effects s s' [] sent /\ (sent <= 1)%nat
    /\ current_task s' = Some task' /\ same_task task task'
    /\ history s' = history s
    /\ (forall e, r = Raise e ->
          s' = s /\ format_entries env (slice_from (- history_size s) (history s)) = Raise e).
Proof.
  intros Htask.
  destruct (format_entries env (slice_from (- history_size s) (history s)))
    as [texts|e] eqn:Hctx.
  - destruct (client_create env (requested s)) as [e| |text] eqn:Hc.
    + destruct (send_to_anthropic_fails env message s task texts Htask Hctx)
        as [e' [status Hsend]]; [intros text; congruence|].
      eexists. eexists. eexists. exists 1%nat. split; [exact Hsend|].
      split; [|split; [lia|split; [reflexivity|split;
                [apply same_task_last_error|split; [reflexivity|discriminate]]]]].
      split; try reflexivity; [simpl; lia| |auto].
      eexists. split; [reflexivity|]. split; reflexivity.
    + destruct (send_to_anthropic_fails env message s task texts Htask Hctx)
        as [e' [status Hsend]]; [intros text; congruence|].
      eexists. eexists. eexists. exists 1%nat. split; [exact Hsend|].
      split; [|split; [lia|split; [reflexivity|split;
                [apply same_task_last_error|split; [reflexivity|discriminate]]]]].
      split; try reflexivity; [simpl; lia| |auto].
      eexists. split; [reflexivity|]. split; reflexivity.
    + destruct (send_to_anthropic_text env message s task texts text Htask Hctx Hc)
        as [status Hsend].
      eexists. eexists. exists task, 1%nat. split; [exact Hsend|].
      split; [|split; [lia|split; [exact Htask|split;
                [apply same_task_refl|split; [reflexivity|discriminate]]]]].
      split; try reflexivity; [simpl; lia| |auto].
      eexists. split; [reflexivity|]. split; reflexivity.
  - exists (Raise e), s, task, 0%nat. split.
    + unfold send_to_anthropic, get_recent_context. run_monad. rewrite Hctx. reflexivity.
    + split; [apply effects_refl|]. split; [lia|]. split; [exact Htask|].
      split; [apply same_task_refl|]. split; [reflexivity|].
      intros e' H. injection H as <-. auto.
Qed.

Lemma attempt_unfold (env : Env) (line : str) :
  attempt env line
  = try_except
      (update_task (py "attempts")
         (fun task => TaskState.set_attempts (TaskState.attempts task + 1) task) ;;
       task <- the_task (py "attempts") ;;
       (if TaskState.attempts task >? 1
        then print (nl ++ py "Retrying task...") ;;
             status <- check_in env ;;
             print status
        else ret tt) ;;
       response <- send_to_anthropic env line ;;
       handle_response env response)
      attempt_handler.
Proof. reflexivity. Qed.

Lemma same_task_counters (task task' : TaskState.t) :
  same_task task task' -> same_counters task task'.
Proof. intros H. apply same_task_fields in H. unfold same_counters. tauto. Qed.

(** The handler of [attempt] does not raise; it records the error and
    sleeps the backoff when the task can be retried. *)
Lemma attempt_handler_spec (e : exn) (s : Shell) (task : TaskState.t) :
  current_task s = Some task ->
  exists s',
    attempt_handler e s = (Ok false, s')
    /\ current_task s' = Some (TaskState.set_last_error (Some (str_exn e)) task)
    /\ effects s s'
         (if TaskState.should_retry task
          then [2 ^ (TaskState.attempts task - 1)] else []) 0.
Proof.
  intros Htask. unfold attempt_handler.
  unfold print at 1, emit at 1. erewrite bind_ok; [|reflexivity].
  erewrite bind_ok; [|apply update_task_run; state_simpl; exact Htask].
  erewrite bind_ok; [|apply the_task_run; reflexivity].
  change (TaskState.should_retry (TaskState.set_last_error (Some (str_exn e)) task))
    with (TaskState.should_retry task).
  task_simpl.
  destruct (TaskState.should_retry task).
  - run_monad. eexists. split; [reflexivity|]. state_simpl. split; [reflexivity|].
    split; try reflexivity; [simpl; lia| |auto].
    eexists. simpl. rewrite <- !app_assoc. split; [reflexivity|]. split; reflexivity.
  - run_monad. eexists. split; [reflexivity|]. state_simpl. split; [reflexivity|].
    split; try reflexivity; [simpl; lia| |auto].
    eexists. simpl. split; [reflexivity|]. split; reflexivity.
Qed.

(** The plain reply is shown, recorded as an assistant entry, and
    completes the task. *)
Lemma reply_spec (env : Env) (response : str) (s : Shell) (task : TaskState.t) :
  current_task s = Some task ->
  exists s' entry,
    reply env response s = (Ok tt, s')
    /\ current_task s' = Some (TaskState.set_completed true task)
    /\ effects s s' [] 0
    /\ history s' = appended (history_size s) (history s) entry
    /\ ConversationEntry.type entry = MessageType.ASSISTANT
    /\ ConversationEntry.content entry = JStr response.
Proof.
  intros Htask. unfold reply.
  unfold print at 1, emit at 1. erewrite bind_ok; [|reflexivity].
  unfold new_entry. erewrite bind_ok; [|erewrite bind_ok; reflexivity].
  erewrite bind_ok; [|apply add_entry_run].
  erewrite update_task_run; [|state_simpl; exact Htask].
  eexists. eexists. split; [reflexivity|]. state_simpl.
  split; [reflexivity|]. split; [|split; [reflexivity|split; reflexivity]].
  split; try reflexivity; [simpl; lia| |].
  - eexists. simpl. split; [reflexivity|]. split; reflexivity.
  - simpl. intros Hwf. apply wf_history_appended; [|exact Hwf].
    intros H. discriminate.
Qed.

(** What [_process_input] does with a response: nothing is sent or slept;
    the task is completed exactly when the loop is to be left. *)
Lemma handle_response_spec (env : Env) (response : option str) (s : Shell)
    (task : TaskState.t) :
  current_task s = Some task ->
  exists r s' task',
    handle_response env response s = (r, s')
    /\ effects s s' [] 0
    /\ current_task s' = Some task'
    /\ same_counters task task'
    /\ (r = Ok true -> TaskState.completed task' = true)
    /\ (r <> Ok true -> TaskState.completed task' = TaskState.completed task).
Proof.
  intros Htask.
  assert (Hnone :
    exists r s' task',
      (print (nl ++ py "No response received from Claude.") ;;
       update_task (py "last_error")
         (TaskState.set_last_error (Some (py "No response received"))) ;;
       ret false) s = (r, s')
      /\ effects s s' [] 0 /\ current_task s' = Some task'
      /\ same_counters task task'
      /\ (r = Ok true -> TaskState.completed task' = true)
      /\ (r <> Ok true -> TaskState.completed task' = TaskState.completed task)).
  { unfold print at 1, emit at 1. erewrite bind_ok; [|reflexivity].
    erewrite bind_ok; [|apply update_task_run; state_simpl; exact Htask].
    eexists. eexists. eexists. split; [reflexivity|]. state_simpl.
    split; [|split; [reflexivity|split; [|split; [discriminate|reflexivity]]]].
    - split; try reflexivity; [simpl; lia| |auto].
      eexists. simpl. split; [reflexivity|]. split; reflexivity.
    - apply same_task_counters. apply same_task_last_error. }
  assert (Hreply :
    forall text,
    exists r s' task',
      (reply env text ;; ret true) s = (r, s')
      /\ effects s s' [] 0 /\ current_task s' = Some task'
      /\ same_counters task task'
      /\ (r = Ok true -> TaskState.completed task' = true)
      /\ (r <> Ok true -> TaskState.completed task' = TaskState.completed task)).
  { intros text.
    destruct (reply_spec env text s task Htask) as [s' [entry [Hrun [Ht [Heff _]]]]].
    exists (Ok true), s'. eexists. split; [erewrite bind_ok; [reflexivity|exact Hrun]|].
    split; [exact Heff|]. split; [exact Ht|].
    split; [repeat split|]. split; [reflexivity|]. intros H. contradiction. }
  unfold handle_response.
  destruct response as [[|c rest]|]; [exact Hnone| |exact Hnone].
  cbv zeta.
  destruct (json_loads env (c :: rest)) as [actions_data|]; [|apply Hreply].
  destruct (dict_has actions_data (py "actions")); [|apply Hreply].
  pose proof (frames_process_actions env actions_data s) as Hframe.
  destruct (process_actions env actions_data s) as [[[]|e] s1] eqn:Hrun;
    cbn [snd] in Hframe;
    destruct (frame_same_task s s1 task Hframe Htask) as [task1 [Htask1 Hsame]];
    pose proof (same_task_fields _ _ Hsame) as [F1 [F2 [F3 [F4 F5]]]].
  - destruct (negb (truthy (get_default actions_data (py "needs_followup") JNull))).
    + eexists. eexists. eexists. split.
      { erewrite bind_ok; [|exact Hrun].
        erewrite bind_ok; [|apply update_task_run; exact Htask1]. reflexivity. }
      state_simpl. split; [|split; [reflexivity|split; [|split; [reflexivity|]]]].
      * destruct (effects_of_frame _ _ Hframe) as [Z C R [tr [E [S Q]]] W].
        split; try assumption. exists tr. auto.
      * repeat split; assumption.
      * intros H. contradiction.
    + exists (Ok false), s1, task1. split.
      { erewrite bind_ok; [|exact Hrun]. reflexivity. }
      split; [apply effects_of_frame; exact Hframe|]. split; [exact Htask1|].
      split; [repeat split; assumption|]. split; [discriminate|]. intros _. exact F2.
  - exists (Raise e), s1, task1. split.
    { erewrite bind_raise; [reflexivity|exact Hrun]. }
    split; [apply effects_of_frame; exact Hframe|]. split; [exact Htask1|].
    split; [repeat split; assumption|]. split; [discriminate|]. intros _. exact F2.
Qed.

(** One iteration of the loop never raises. It uses one attempt, sends
    one request at most, and sleeps only when an exception reached the
    handler and the task can be retried. *)
Lemma attempt_spec (env : Env) (line : str) (s : Shell) (task : TaskState.t) :
  current_task s = Some task ->
  exists left s' task' slept sent,
    attempt env line s = (Ok left, s')
    /\ effects s s' slept sent /\ (sent <= 1)%nat
    /\ current_task s' = Some task'
    /\ TaskState.in_progress task' = TaskState.in_progress task
    /\ TaskState.attempts task' = TaskState.attempts task + 1
    /\ TaskState.max_attempts task' = TaskState.max_attempts task
    /\ (left = true -> TaskState.completed task' = true /\ slept = [])
    /\ (left = false ->
        TaskState.completed task' = TaskState.completed task
        /\ (slept = []
            \/ (TaskState.should_retry task' = true
                /\ slept = [2 ^ TaskState.attempts task]))).
Proof.
  intros Htask. rewrite attempt_unfold.
  set (task0 := TaskState.set_attempts (TaskState.attempts task + 1) task).
  pose (s1 := set_current_task (Some task0) s).
  destruct (retry_notice_run env s1 task0 eq_refl) as [n0 [tr0 [Hnotice [Hs0 Hr0]]]].
  match type of Hnotice with _ = (_, ?st) => set (s2 := st) in * end.
  assert (Heff2 : effects s s2 [] 0).
  { split; try reflexivity; [simpl; lia| |auto].
    exists tr0. split; [reflexivity|]. split; assumption. }
  destruct (send_to_anthropic_spec env line s2 task0 eq_refl)
    as [r [s3 [task3 [sent [Hsend [Heff3 [Hsent [Htask3 [Hsame3 _]]]]]]]]].
  pose proof (same_task_fields _ _ Hsame3) as [F1 [F2 [F3 [F4 _]]]].
  subst task0. task_simpl.
  assert (Hhandler :
    forall e s4 task4 sent4,
      effects s s4 [] sent4 -> (sent4 <= 1)%nat ->
      current_task s4 = Some task4 ->
      TaskState.in_progress task4 = TaskState.in_progress task ->
      TaskState.attempts task4 = TaskState.attempts task + 1 ->
      TaskState.max_attempts task4 = TaskState.max_attempts task ->
      TaskState.completed task4 = TaskState.completed task ->
      exists left s' task' slept sent,
        attempt_handler e s4 = (Ok left, s')
        /\ effects s s' slept sent /\ (sent <= 1)%nat
        /\ current_task s' = Some task'
        /\ TaskState.in_progress task' = TaskState.in_progress task
        /\ TaskState.attempts task' = TaskState.attempts task + 1
        /\ TaskState.max_attempts task' = TaskState.max_attempts task
        /\ (left = true -> TaskState.completed task' = true /\ slept = [])
        /\ (left = false ->
            TaskState.completed task' = TaskState.completed task
            /\ (slept = []
                \/ (TaskState.should_retry task' = true
                    /\ slept = [2 ^ TaskState.attempts task])))).
  { intros e s4 task4 sent4 Heff4 Hsent4 Htask4 G1 G2 G3 G4.
    destruct (attempt_handler_spec e s4 task4 Htask4) as [s5 [Hrun [Htask5 Heff5]]].
    exists false, s5. eexists. eexists. exists (sent4 + 0)%nat.
    split; [exact Hrun|].
    split; [exact (effects_trans _ _ _ _ _ _ _ Heff4 Heff5)|].
    split; [lia|]. split; [exact Htask5|]. task_simpl.
    split; [exact G1|]. split; [exact G2|]. split; [exact G3|].
    split; [discriminate|]. intros _. split; [exact G4|].
    change (TaskState.should_retry (TaskState.set_last_error (Some (str_exn e)) task4))
      with (TaskState.should_retry task4).
    destruct (TaskState.should_retry task4); [|left; reflexivity].
    right. split; [reflexivity|]. simpl. rewrite G2. do 2 f_equal. lia. }
  assert (Hbody :
    forall r' s',
      (response <- send_to_anthropic env line ;; handle_response env response) s2
      = (r', s') ->
      try_except
        (update_task (py "attempts")
           (fun task => TaskState.set_attempts (TaskState.attempts task + 1) task) ;;
         task <- the_task (py "attempts") ;;
         (if TaskState.attempts task >? 1
          then print (nl ++ py "Retrying task...") ;;
               status <- check_in env ;;
               print status
          else ret tt) ;;
         response <- send_to_anthropic env line ;;
         handle_response env response)
        attempt_handler s
      = match r' with
        | Ok a => (Ok a, s')
        | Raise e => attempt_handler e s'
        end).
  { intros r' s' Hrest. unfold try_except.
    erewrite bind_ok; [|apply update_task_run; exact Htask].
    erewrite bind_ok; [|apply the_task_run; reflexivity].
    erewrite bind_ok; [|exact Hnotice].
    rewrite Hrest. destruct r'; reflexivity. }
  destruct r as [response|e].
  - destruct (handle_response_spec env response s3 task3 Htask3)
      as [r' [s4 [task4 [Hrun [Heff4 [Htask4 [[G1 [G2 [G3 _]]] [Hdone Hkeep]]]]]]]].
    pose proof (effects_trans _ _ _ _ _ _ _ Heff2
                  (effects_trans _ _ _ _ _ _ _ Heff3 Heff4)) as Heff.
    simpl in Heff.
    erewrite Hbody; [|erewrite bind_ok; [exact Hrun|exact Hsend]].
    destruct r' as [left|e].
    + exists left, s4, task4, [], (sent + 0)%nat. split; [reflexivity|].
      split; [exact Heff|]. split; [lia|]. split; [exact Htask4|].
      split; [congruence|]. split; [congruence|]. split; [congruence|].
      split.
      * intros ->. split; [apply Hdone; reflexivity|reflexivity].
      * intros ->. split; [|left; reflexivity].
        rewrite Hkeep by discriminate. exact F2.
    + apply (Hhandler e s4 task4 (sent + 0)%nat); try congruence; [lia|].
      rewrite Hkeep by discriminate. exact F2.
  - pose proof (effects_trans _ _ _ _ _ _ _ Heff2 Heff3) as Heff. simpl in Heff.
    erewrite Hbody; [|erewrite bind_raise; [reflexivity|exact Hsend]].
    apply (Hhandler e s3 task3 sent); assumption.
Qed.

Lemma backoff_delays_sublist (a : Z) (n : nat) (first rest : list Z) :
  (first = [] \/ ((1 <= n)%nat /\ first = [2 ^ a])) ->
  rest `sublist_of` backoff_delays (a + 1) (n - 1) ->
  (first ++ rest) `sublist_of` backoff_delays a n.
Proof.
  intros Hfirst Hrest. destruct n as [|n].
  - destruct Hfirst as [->|[Hn _]]; [|lia]. exact Hrest.
  - cbn [Nat.sub] in Hrest. rewrite Nat.sub_0_r in Hrest. cbn [backoff_delays].
    destruct Hfirst as [->|[_ ->]].
    + apply sublist_cons. exact Hrest.
    + apply sublist_skip. exact Hrest.
Qed.

(** The loop of [_process_input], unrolled as many times as attempts are
    left, always runs to its end: it does not raise and the unrolling is
    never too short. It sends one request per attempt at most; what it
    sleeps is taken, in order, from the backoff delays; it leaves the
    task incomplete only when every attempt was used. *)
Lemma retry_loop_spec (env : Env) (line : str) (n : nat) :
  forall (s : Shell) (task : TaskState.t),
    current_task s = Some task ->
    n = Z.to_nat (TaskState.max_attempts task - TaskState.attempts task) ->
    exists s' task' slept sent,
      retry_loop env n line s = (Ok true, s')
      /\ effects s s' slept sent /\ (sent <= n)%nat
      /\ slept `sublist_of` backoff_delays (TaskState.attempts task) (n - 1)
      /\ current_task s' = Some task'
      /\ TaskState.in_progress task' = TaskState.in_progress task
      /\ TaskState.max_attempts task' = TaskState.max_attempts task
      /\ TaskState.attempts task <= TaskState.attempts task'
         <= TaskState.attempts task + Z.of_nat n
      /\ (TaskState.completed task' = false ->
          TaskState.in_progress task = true ->
          TaskState.attempts task' = TaskState.attempts task + Z.of_nat n).
Proof.
  induction n as [|n IH]; intros s task Htask Hfuel.
  - exists s, task, [], 0%nat.
    assert (Hstop : TaskState.should_retry task = false).
    { unfold TaskState.should_retry.
      replace (TaskState.attempts task <? TaskState.max_attempts task) with false
        by (symmetry; apply Z.ltb_ge; lia).
      apply andb_false_r. }
    split.
    { cbn [retry_loop]. erewrite bind_ok; [|apply the_task_run; exact Htask].
      rewrite Hstop. reflexivity. }
    split; [apply effects_refl|]. split; [lia|]. split; [apply sublist_nil_l|].
    split; [exact Htask|]. repeat split; lia.
  - destruct (TaskState.should_retry task) eqn:Hgo.
    + destruct (attempt_spec env line s task Htask)
        as [left [s1 [task1 [sl1 [q1 [Hrun [Heff1 [Hq1 [Htask1
             [G1 [G2 [G3 [Hleft Hstay]]]]]]]]]]]]].
      destruct left.
      * destruct (Hleft eq_refl) as [Hdone ->].
        exists s1, task1, [], q1. split.
        { cbn [retry_loop]. erewrite bind_ok; [|apply the_task_run; exact Htask].
          rewrite Hgo. erewrite bind_ok; [|exact Hrun]. reflexivity. }
        split; [exact Heff1|]. split; [lia|]. split; [apply sublist_nil_l|].
        split; [exact Htask1|]. split; [exact G1|]. split; [exact G3|].
        split; [lia|]. intros H. congruence.
      * destruct (Hstay eq_refl) as [Hkeep Hslept].
        destruct (IH s1 task1 Htask1) as [s' [task' [sl2 [q2 [Hloop [Heff2 [Hq2
             [Hsub [Htask' [H1 [H2 [H3 H4]]]]]]]]]]]]; [lia|].
        exists s', task', (sl1 ++ sl2), (q1 + q2)%nat. split.
        { cbn [retry_loop]. erewrite bind_ok; [|apply the_task_run; exact Htask].
          rewrite Hgo. erewrite bind_ok; [|exact Hrun]. exact Hloop. }
        split; [exact (effects_trans _ _ _ _ _ _ _ Heff1 Heff2)|].
        split; [lia|]. split.
        { replace (S n - 1)%nat with n by lia.
          apply backoff_delays_sublist.
          - destruct Hslept as [->|[Hretry ->]]; [left; reflexivity|].
            right. split; [|reflexivity].
            unfold TaskState.should_retry in Hretry.
            apply andb_prop in Hretry as [_ Hlt]. apply Z.ltb_lt in Hlt. lia.
          - rewrite G2 in Hsub. exact Hsub. }
        split; [exact Htask'|]. split; [congruence|]. split; [congruence|].
        split; [lia|]. intros Hdone Hin. rewrite H4; [lia|exact Hdone|congruence].
    + exists s, task, [], 0%nat. split.
      { cbn [retry_loop]. erewrite bind_ok; [|apply the_task_run; exact Htask].
        rewrite Hgo. reflexivity. }
      split; [apply effects_refl|]. split; [lia|]. split; [apply sublist_nil_l|].
      split; [exact Htask|]. split; [reflexivity|]. split; [reflexivity|].
      split; [lia|]. intros Hdone Hin. exfalso.
      unfold TaskState.should_retry in Hgo. rewrite Hin, Hdone in Hgo. simpl in Hgo.
      apply Z.ltb_ge in Hgo. lia.
Qed.

(** [_process_input] with a task at hand returns without raising. *)
Lemma process_input_spec (env : Env) (line : str) (s : Shell) (task : TaskState.t) :
  current_task s = Some task ->
  let n := Z.to_nat (TaskState.max_attempts task - TaskState.attempts task) in
  exists s' task' slept sent,
    _process_input env line s = (Ok tt, s')
    /\ effects s s' slept sent /\ (sent <= n)%nat
    /\ slept `sublist_of` backoff_delays (TaskState.attempts task) (n - 1)
    /\ current_task s' = Some task'
    /\ TaskState.max_attempts task' = TaskState.max_attempts task
    /\ TaskState.attempts task <= TaskState.attempts task'
       <= TaskState.attempts task + Z.of_nat n
    /\ (TaskState.completed task' = false ->
        TaskState.in_progress task = true ->
        TaskState.attempts task' = TaskState.attempts task + Z.of_nat n).
Proof.
  intros Htask n.
  destruct (retry_loop_spec env line n s task Htask eq_refl)
    as [s1 [task1 [slept [sent [Hloop [Heff [Hsent [Hsub [Htask1
         [H1 [H2 [H3 H4]]]]]]]]]]]].
  unfold _process_input.
  erewrite bind_ok; [|apply the_task_run; exact Htask].
  erewrite bind_ok; [|exact Hloop].
  erewrite bind_ok; [|apply the_task_run; exact Htask1].
  destruct (TaskState.completed task1) eqn:Hdone.
  - exists s1, task1, slept, sent. split; [reflexivity|].
    split; [exact Heff|]. split; [exact Hsent|]. split; [exact Hsub|].
    split; [exact Htask1|]. split; [exact H2|]. split; [exact H3|].
    intros H. congruence.
  - unfold print at 1, emit at 1. erewrite bind_ok; [|reflexivity].
    erewrite bind_ok; [|apply check_in_run; state_simpl; exact Htask1].
    eexists. exists task1, (slept ++ []), (sent + 0)%nat. split; [reflexivity|].
    split.
    { eapply effects_trans; [exact Heff|].
      split; try reflexivity; [simpl; lia| |auto].
      eexists. simpl. rewrite <- app_assoc. split; [reflexivity|]. split; reflexivity. }
    rewrite app_nil_r. state_simpl.
    split; [lia|]. split; [exact Hsub|].
    split; [exact Htask1|]. split; [exact H2|]. split; [exact H3|].
    intros _. exact (H4 eq_refl).
Qed.

(** The state in which [default] hands a line that is not blank to
    [_process_input]. *)
Lemma default_setup (env : Env) (line : str) (s : Shell) :
  strip line <> [] ->
  exists s0 entry t,
    default env line s = _process_input env line s0
    /\ current_task s0 = Some (TaskState.set_in_progress true (TaskState.new t))
    /\ effects s s0 [] 0
    /\ history s0 = appended (history_size s) (history s) entry
    /\ ConversationEntry.type entry = MessageType.USER
    /\ ConversationEntry.content entry = JStr line
    /\ fs s0 = <[history_file := json_dumps env (history_data env (history s0))]> (fs s).
Proof.
  intros Hline. unfold default.
  destruct (strip line) as [|c rest]; [contradiction|].
  unfold new_entry. erewrite bind_ok; [|erewrite bind_ok; reflexivity].
  erewrite bind_ok; [|apply add_entry_run].
  erewrite bind_ok; [|reflexivity].
  unfold modify at 1. erewrite bind_ok; [|reflexivity].
  erewrite bind_ok; [|apply update_task_run; reflexivity].
  eexists. eexists. eexists. split; [reflexivity|]. state_simpl.
  split; [reflexivity|]. split; [|repeat split].
  split; try reflexivity; [simpl; lia| |].
  - exists []. simpl. rewrite app_nil_r. auto.
  - simpl. intros Hwf. apply wf_history_appended; [|exact Hwf].
    intros H. discriminate.
Qed.

(** X1. Whatever the line, the state of the shell and the behaviour of the
    model and of the commands, [default] returns without raising. It
    sends at most three requests, and what it sleeps is taken in order
    from the delays 1 and 2. On a line that is not blank the task ends
    with at most three attempts, and it is left incomplete only when all
    three were used. *)
Theorem default_returns (env : Env) (line : str) (s : Shell) :
  exists s' slept sent,
    default env line s = (Ok tt, s')
    /\ effects s s' slept sent
    /\ (sent <= 3)%nat
    /\ slept `sublist_of` [1; 2]
    /\ (strip line <> [] ->
        exists task,
          current_task s' = Some task
          /\ TaskState.max_attempts task = 3
          /\ 0 <= TaskState.attempts task <= 3
          /\ (TaskState.completed task = false -> TaskState.attempts task = 3)).
Proof.
  destruct (strip line) as [|c rest] eqn:Hstrip.
  - exists s, [], 0%nat. split.
    { unfold default. rewrite Hstrip. reflexivity. }
    split; [apply effects_refl|]. split; [lia|]. split; [apply sublist_nil_l|].
    intros H. contradiction.
  - destruct (default_setup env line s) as [s0 [entry [t [Hrun [Htask [Heff0 _]]]]]].
    { rewrite Hstrip. discriminate. }
    destruct (process_input_spec env line s0 _ Htask)
      as [s' [task' [slept [sent [Hproc [Heff [Hsent [Hsub [Htask' [H1 [H2 H3]]]]]]]]]]].
    exists s', slept, sent. split; [rewrite Hrun; exact Hproc|].
    split; [exact (effects_trans _ _ _ _ _ _ _ Heff0 Heff)|].
    split; [exact Hsent|]. split; [exact Hsub|].
    intros _. exists task'. split; [exact Htask'|]. split; [exact H1|].
    split; [exact H2|]. intros Hdone. apply H3; [exact Hdone|reflexivity].
Qed.

(** ** Rendering the context *)

Lemma format_entry_ok_iff (env : Env) (entry : ConversationEntry.t) :
  (exists text, format_entry env entry = Ok text) <-> wf_entry entry.
Proof.
  unfold format_entry, wf_entry.
  destruct (ConversationEntry.type entry) eqn:Hty;
    try (split; [intros _ H; discriminate|intros _; eexists; reflexivity]).
  destruct (ConversationEntry.metadata entry) eqn:Hmd; simpl;
    try (split; [intros [text H]; discriminate|intros H; specialize (H eq_refl); discriminate]).
  split; [reflexivity|intros _; eexists; reflexivity].
Qed.

Lemma format_entries_ok_iff (env : Env) (h : list ConversationEntry.t) :
  (exists texts, format_entries env h = Ok texts) <-> wf_history h.
Proof.
  induction h as [|entry h IH]; simpl.
  - split; [constructor|eexists; reflexivity].
  - split.
    + intros [texts H].
      destruct (format_entry env entry) as [text|e] eqn:He; [|discriminate].
      destruct (format_entries env h) as [texts'|e]; [|discriminate].
      constructor.
      * apply (format_entry_ok_iff env). eexists. exact He.
      * apply IH. eexists. reflexivity.
    + intros H. inversion H as [|? ? He Hh]; subst.
      apply (format_entry_ok_iff env) in He as [text He].
      apply IH in Hh as [texts Hh]. rewrite He, Hh. eexists. reflexivity.
Qed.

Lemma slice_from_drop {A} (i : Z) (l : list A) : exists k, slice_from i l = drop k l.
Proof. unfold slice_from. destruct (i <? 0); eexists; reflexivity. Qed.

Lemma context_ok_wf (env : Env) (s : Shell) : wf_history (history s) -> context_ok env s.
Proof.
  intros Hwf. apply format_entries_ok_iff.
  destruct (slice_from_drop (- history_size s) (history s)) as [k ->].
  apply Forall_drop. exact Hwf.
Qed.

(** X2. [get_recent_context] returns a text exactly when every command
    entry of the window it renders carries a dict as metadata; otherwise
    it raises. The window is the last [history_size] entries, and the
    whole history when [history_size] is 0. *)
Theorem get_recent_context_ok_iff (env : Env) (s : Shell) :
  ((exists text, get_recent_context env s = (Ok text, s))
   <-> wf_history (slice_from (- history_size s) (history s)))
  /\ ((exists e, get_recent_context env s = (Raise e, s))
      <-> ~ wf_history (slice_from (- history_size s) (history s)))
  /\ (0 < history_size s ->
      slice_from (- history_size s) (history s)
      = drop (length (history s) - Z.to_nat (history_size s)) (history s))
  /\ (history_size s = 0 -> slice_from (- history_size s) (history s) = history s).
Proof.
  assert (Hrun : get_recent_context env s
                 = match format_entries env (slice_from (- history_size s) (history s)) with
                   | Ok texts => (Ok (join nl texts), s)
                   | Raise e => (Raise e, s)
                   end).
  { unfold get_recent_context. run_monad.
    destruct (format_entries env _); reflexivity. }
  rewrite Hrun. rewrite <- (format_entries_ok_iff env).
  split; [|split; [|split]].
  - destruct (format_entries env _) as [texts|e].
    + split; eexists; reflexivity.
    + split; [intros [text H]; discriminate|intros [texts H]; discriminate].
  - destruct (format_entries env _) as [texts|e].
    + split; [intros [e H]; discriminate|]. intros H. exfalso. apply H. eexists. reflexivity.
    + split; [|intros _; eexists; reflexivity].
      intros _ [texts H]. discriminate.
  - intros Hpos. unfold slice_from.
    replace (- history_size s <? 0) with true by (symmetry; apply Z.ltb_lt; lia).
    f_equal. lia.
  - intros ->. reflexivity.
Qed.

(** ** Answers of the model *)

(** One attempt on an answer that is a text: the attempt is counted, the
    request is sent, and the rest is what [handle_response] does. *)
Lemma attempt_with_text (env : Env) (line : str) (s : Shell) (task : TaskState.t)
    (text : str) :
  current_task s = Some task ->
  context_ok env s ->
  client_create env (requested s) = ApiText text ->
  exists s3,
    effects s s3 [] 1
    /\ current_task s3
       = Some (TaskState.set_attempts (TaskState.attempts task + 1) task)
    /\ history s3 = history s /\ fs s3 = fs s /\ spawned s3 = spawned s
    /\ attempt env line s
       = match handle_response env (Some (strip text)) s3 with
         | (Ok b, s') => (Ok b, s')
         | (Raise e, s') => attempt_handler e s'
         end.
Proof.
  intros Htask [texts Hctx] Htext.
  set (task0 := TaskState.set_attempts (TaskState.attempts task + 1) task).
  pose (s1 := set_current_task (Some task0) s).
  destruct (retry_notice_run env s1 task0 eq_refl) as [n0 [tr0 [Hnotice [Hs0 Hr0]]]].
  pose (s2 := set_trace (trace s1 ++ tr0) (set_ticks n0 s1)).
  destruct (send_to_anthropic_text env line s2 task0 texts text eq_refl Hctx Htext)
    as [status Hsend].
  match type of Hsend with _ = (_, ?st) => exists st end.
  split.
  { split; try reflexivity; [simpl; lia| |auto].
    eexists. simpl. rewrite <- app_assoc. split; [reflexivity|].
    rewrite sleeps_app, requests_app, Hs0, Hr0. split; reflexivity. }
  split; [reflexivity|]. split; [reflexivity|]. split; [reflexivity|].
  split; [reflexivity|].
  rewrite attempt_unfold. unfold try_except.
  erewrite bind_ok; [|apply update_task_run; exact Htask].
  erewrite bind_ok; [|apply the_task_run; reflexivity].
  erewrite bind_ok; [|exact Hnotice].
  erewrite bind_ok; [|exact Hsend].
  destruct (handle_response env (Some (strip text)) _) as [[b|e] s']; reflexivity.
Qed.

(** A loop whose first attempt completes the task: [_process_input]
    returns at once, with nothing reported. *)
Lemma process_input_first_attempt (env : Env) (line : str) (s s1 : Shell)
    (task task1 : TaskState.t) :
  current_task s = Some task ->
  TaskState.should_retry task = true ->
  attempt env line s = (Ok true, s1) ->
  current_task s1 = Some task1 ->
  TaskState.completed task1 = true ->
  _process_input env line s = (Ok tt, s1).
Proof.
  intros Htask Hgo Hrun Htask1 Hdone. unfold _process_input.
  erewrite bind_ok; [|apply the_task_run; exact Htask].
  assert (Hn : exists n,
             Z.to_nat (TaskState.max_attempts task - TaskState.attempts task) = S n).
  { unfold TaskState.should_retry in Hgo. apply andb_prop in Hgo as [_ Hlt].
    apply Z.ltb_lt in Hlt.
    exists (Z.to_nat (TaskState.max_attempts task - TaskState.attempts task) - 1)%nat.
    lia. }
  destruct Hn as [n ->].
  erewrite bind_ok.
  2:{ cbn [retry_loop]. erewrite bind_ok; [|apply the_task_run; exact Htask].
      rewrite Hgo. erewrite bind_ok; [|exact Hrun]. reflexivity. }
  erewrite bind_ok; [|apply the_task_run; exact Htask1].
  rewrite Hdone. reflexivity.
Qed.



(** A plan whose [actions] can be iterated is gone through without a
    raise. *)
Lemma process_actions_iterable_run (env : Env) (fields : list (str * json))
    (actions : json) (items : list json) (s : Shell) :
  lookup_field (py "actions") fields = Some actions ->
  py_iter actions = Some items ->
  exists s', process_actions env (JObj fields) s = (Ok tt, s') /\ interp_frame s s'.
Proof.
  intros Hget Hit.
  pose proof (frames_process_actions env (JObj fields) s) as Hframe.
  assert (Hrun : exists s', process_actions env (JObj fields) s = (Ok tt, s')).
  { unfold process_actions, dict_has. rewrite Hget.
    rewrite bool_decide_eq_true_2 by (eexists; reflexivity). cbn [negb].
    unfold getitem. rewrite Hget. run_monad. rewrite Hit. run_monad.
    rewrite for_each_process_action. eexists. reflexivity. }
  destruct Hrun as [s' Hrun]. exists s'. split; [exact Hrun|].
  rewrite Hrun in Hframe. exact Hframe.
Qed.

(** One attempt on an answer that is a plan whose [actions] can be
    iterated: the attempt does not raise and sleeps nothing, whatever the
    actions do; it completes the task unless the plan asks for a
    follow-up. *)
Lemma attempt_plan_spec (env : Env) (line : str) (s : Shell) (task : TaskState.t)
    (text rest : str) (c : N) (fields : list (str * json)) (actions : json)
    (items : list json) :
  current_task s = Some task ->
  context_ok env s ->
  client_create env (requested s) = ApiText text ->
  strip text = c :: rest ->
  json_loads env (c :: rest) = Some (JObj fields) ->
  lookup_field (py "actions") fields = Some actions ->
  py_iter actions = Some items ->
  let followup := truthy (get_default (JObj fields) (py "needs_followup") JNull) in
  exists s' task',
    attempt env line s = (Ok (negb followup), s')
    /\ effects s s' [] 1
    /\ current_task s' = Some task'
    /\ TaskState.in_progress task' = TaskState.in_progress task
    /\ TaskState.attempts task' = TaskState.attempts task + 1
    /\ TaskState.max_attempts task' = TaskState.max_attempts task
    /\ TaskState.completed task' = (TaskState.completed task || negb followup).
Proof.
  intros Htask Hctx Htext Hstrip Hjson Hget Hit followup.
  destruct (attempt_with_text env line s task text Htask Hctx Htext)
    as [s3 [Heff3 [Htask3 [_ [_ [_ Hattempt]]]]]].
  destruct (process_actions_iterable_run env fields actions items s3 Hget Hit)
    as [s4 [Hrun Hframe]].
  destruct (frame_same_task s3 s4 _ Hframe Htask3) as [task4 [Htask4 Hsame]].
  pose proof (same_task_fields _ _ Hsame) as [F1 [F2 [F3 [F4 _]]]].
  task_simpl.
  assert (Hhas : dict_has (JObj fields) (py "actions") = true).
  { unfold dict_has. rewrite Hget. apply bool_decide_eq_true_2. eexists. reflexivity. }
  unfold handle_response in Hattempt. rewrite Hstrip in Hattempt.
  cbv zeta in Hattempt. rewrite Hjson, Hhas in Hattempt.
  erewrite bind_ok in Hattempt; [|exact Hrun].
  fold followup in Hattempt.
  pose proof (effects_trans _ _ _ _ _ _ _ Heff3 (effects_of_frame _ _ Hframe)) as Heff.
  destruct followup.
  - exists s4, task4. split; [exact Hattempt|]. split; [exact Heff|].
    split; [exact Htask4|]. split; [exact F1|]. split; [exact F3|].
    split; [exact F4|]. rewrite F2. cbn [negb]. rewrite orb_false_r. reflexivity.
  - cbn [negb] in Hattempt.
    erewrite bind_ok in Hattempt; [|apply update_task_run; exact Htask4].
    eexists. eexists. split; [exact Hattempt|]. state_simpl.
    split.
    { destruct Heff as [Z C R [tr [E [S Q]]] W]. split; try assumption.
      exists tr. auto. }
    split; [reflexivity|]. task_simpl. split; [exact F1|]. split; [exact F3|].
    split; [exact F4|]. cbn [negb]. rewrite orb_true_r. reflexivity.
Qed.

(** X4. A line that is not blank, answered by a plan whose [actions] can
    be iterated and that asks for no follow-up: the task completes in its
    first attempt, with one request and no sleep, whatever happens to the
    actions (a failed action is no reason to retry). *)
Theorem plan_completes_despite_failures (env : Env) (line : str) (s : Shell)
    (text rest : str) (c : N) (fields : list (str * json)) (actions : json)
    (items : list json) :
  strip line <> [] ->
  wf_history (history s) ->
  client_create env (requested s) = ApiText text ->
  strip text = c :: rest ->
  json_loads env (c :: rest) = Some (JObj fields) ->
  lookup_field (py "actions") fields = Some actions ->
  py_iter actions = Some items ->
  truthy (get_default (JObj fields) (py "needs_followup") JNull) = false ->
  exists s' task,
    default env line s = (Ok tt, s')
    /\ current_task s' = Some task
    /\ TaskState.completed task = true
    /\ TaskState.attempts task = 1
    /\ effects s s' [] 1.
Proof.
  intros Hline Hwf Htext Hstrip Hjson Hget Hit Hfollow.
  destruct (default_setup env line s Hline)
    as [s0 [user [t [Hrun [Htask0 [Heff0 _]]]]]].
  pose proof Heff0 as [_ _ Hreq0 _ Hwf0].
  rewrite Nat.add_0_r in Hreq0.
  destruct (attempt_plan_spec env line s0 _ text rest c fields actions items Htask0)
    as [s' [task' [Hattempt [Heff [Htask' [_ [Hatt [_ Hdone]]]]]]]];
    try assumption.
  { apply context_ok_wf. auto. }
  { rewrite Hreq0. exact Htext. }
  rewrite Hfollow in Hattempt, Hdone. cbn [negb] in Hattempt, Hdone.
  rewrite orb_true_r in Hdone.
  exists s', task'. split.
  { rewrite Hrun.
    eapply process_input_first_attempt;
      [exact Htask0|reflexivity|exact Hattempt|exact Htask'|exact Hdone]. }
  split; [exact Htask'|]. split; [exact Hdone|]. split; [exact Hatt|].
  exact (effects_trans _ _ _ _ _ _ _ Heff0 Heff).
Qed.

Lemma plan_completes_despite_failures_witness :
  let env := Sample.env [ApiText plan_three_text] in
  let s := fresh_shell {[ Path (py "notes.txt") := py "aaa" ]} in
  exists s' task,
    default env (py "make notes") s = (Ok tt, s')
    /\ current_task s' = Some task
    /\ TaskState.completed task = true
    /\ TaskState.attempts task = 1
    /\ effects s s' [] 1.
Proof.
  intros env s.
  assert (H1 : strip (py "make notes") <> []) by (vm_compute; discriminate).
  assert (H2 : wf_history (history s)) by constructor.
  assert (H3 : client_create env (requested s) = ApiText plan_three_text) by reflexivity.
  assert (H4 : strip plan_three_text = 123%N :: drop 1 plan_three_text)
    by (vm_compute; reflexivity).
  destruct plan_three as [| | | | | |fields] eqn:Hplan; try discriminate.
  assert (H5 : json_loads env (123%N :: drop 1 plan_three_text) = Some (JObj fields)).
  { rewrite <- Hplan. vm_compute. reflexivity. }
  destruct (lookup_field (py "actions") fields) as [actions|] eqn:H6.
  2:{ exfalso. injection Hplan as <-. vm_compute in H6. discriminate. }
  destruct (py_iter actions) as [items|] eqn:H7.
  2:{ exfalso. injection Hplan as <-. vm_compute in H6. injection H6 as <-.
      vm_compute in H7. discriminate. }
  assert (H8 : truthy (get_default (JObj fields) (py "needs_followup") JNull) = false).
  { injection Hplan as <-. vm_compute. reflexivity. }
  exact (plan_completes_despite_failures env (py "make notes") s _ _ _ fields actions
           items H1 H2 H3 H4 H5 H6 H7 H8).
Defined.




(** ** Backups *)

Lemma split_on_from_run (sep : N) (a b cur : str) :
  sep ∉ a ->
  split_on_from sep cur (a ++ b) = split_on_from sep (cur ++ a) b.
Proof.
  revert cur. induction a as [|x a IH]; intros cur Hno; simpl.
  - rewrite app_nil_r. reflexivity.
  - apply not_elem_of_cons in Hno as [Hx Ha].
    replace (x =? sep)%N with false by (symmetry; apply N.eqb_neq; congruence).
    rewrite IH by exact Ha. rewrite <- app_assoc. reflexivity.
Qed.

Lemma split_on_two (sep : N) (a b : str) :
  sep ∉ a -> sep ∉ b -> split_on sep (a ++ sep :: b) = [a; b].
Proof.
  intros Ha Hb. unfold split_on. rewrite split_on_from_run by exact Ha. simpl.
  rewrite N.eqb_refl. f_equal.
  rewrite <- (app_nil_r b) at 1. rewrite split_on_from_run by exact Hb. reflexivity.
Qed.

Lemma split_on_from_parts (sep : N) (s cur part : str) :
  sep ∉ cur -> part ∈ split_on_from sep cur s -> sep ∉ part.
Proof.
  revert cur. induction s as [|x s IH]; intros cur Hcur Hin; simpl in Hin.
  - apply list_elem_of_singleton in Hin. subst. exact Hcur.
  - destruct (x =? sep)%N eqn:E.
    + apply elem_of_cons in Hin as [->|Hin]; [exact Hcur|].
      apply (IH []); [apply not_elem_of_nil|exact Hin].
    + apply (IH (cur ++ [x])); [|exact Hin].
      apply N.eqb_neq in E. rewrite elem_of_app, list_elem_of_singleton.
      intros [H|H]; [contradiction|congruence].
Qed.

(** The name of a path has no slash in it. *)
Lemma path_name_no_slash (p : str) : slash ∉ path_name p.
Proof.
  unfold path_name, parts.
  set (l := filter is_part (split_on slash p)).
  assert (Hall : forall x, x ∈ l -> slash ∉ x).
  { intros x Hx. apply list_elem_of_filter in Hx as [_ Hx].
    apply (split_on_from_parts slash p [] x); [apply not_elem_of_nil|exact Hx]. }
  clearbody l. induction l as [|x l IH]; simpl; [apply not_elem_of_nil|].
  destruct l as [|y l]; [apply Hall; left|].
  apply IH. intros z Hz. apply Hall. right. exact Hz.
Qed.

Transparent Path.

(** When the timestamp text has no slash, as the format of [strftime]
    gives it, the path of a backup differs from the path of the file. *)
Lemma backup_path_differs (env : Env) (p : str) (t : datetime) :
  slash ∉ strftime env t ->
  backup_path env p t <> p.
Proof.
  intros Hts.
  set (x := path_name p ++ py "." ++ strftime env t ++ py ".bak").
  assert (Hx : slash ∉ x).
  { unfold x. rewrite !elem_of_app. intros [H|[H|[H|H]]].
    - exact (path_name_no_slash p H).
    - revert H. vm_compute. intros H. apply list_elem_of_singleton in H. discriminate.
    - exact (Hts H).
    - revert H. apply (bool_decide_eq_false_1 (slash ∈ py ".bak")). vm_compute. reflexivity. }
  assert (Hlen : length x = (length (path_name p) + length (strftime env t) + 5)%nat).
  { unfold x. rewrite !length_app.
    change (length (py ".")) with (length [46%N]).
    replace (length (py ".bak")) with 4%nat by (vm_compute; reflexivity).
    simpl. lia. }
  assert (Hdir : backup_dir = py "backups") by (vm_compute; reflexivity).
  assert (Hb : slash ∉ py "backups").
  { apply (bool_decide_eq_false_1 (slash ∈ py "backups")). vm_compute. reflexivity. }
  assert (Hhead : exists tl, py "backups" = 98%N :: tl)
    by (eexists; vm_compute; reflexivity).
  assert (Hparts : parts (py "backups" ++ slash :: x) = [py "backups"; x]).
  { unfold parts. rewrite split_on_two by assumption.
    assert (Hpx : is_part x = true).
    { unfold is_part. apply andb_true_intro. split; apply negb_true_iff;
        apply bool_decide_eq_false_2; intros E; rewrite E in Hlen; revert Hlen.
      - simpl. lia.
      - replace (length (py ".")) with 1%nat by (vm_compute; reflexivity). lia. }
    assert (Hpb : is_part (py "backups") = true) by (vm_compute; reflexivity).
    rewrite filter_cons_True by (rewrite Hpb; exact I).
    rewrite filter_cons_True by (rewrite Hpx; exact I). reflexivity. }
  assert (Hpath : backup_path env p t = py "backups" ++ slash :: x).
  { unfold backup_path. rewrite Hdir. fold x. unfold Path.
    change (py "backups" ++ [slash] ++ x) with (py "backups" ++ slash :: x).
    rewrite Hparts. destruct Hhead as [tl Htl]. rewrite Htl at 1. simpl.
    reflexivity. }
  intros Heq. rewrite Hpath in Heq.
  assert (Hname : path_name p = x).
  { unfold path_name. rewrite <- Heq at 1. rewrite Hparts. reflexivity. }
  revert Hlen. rewrite <- Hname. lia.
Qed.

Opaque Path.

(** X6. A backup is never written over the file it is taken from.
    [create_backup] on a file that exists writes its content at the backup
    path, which differs from the path of the file when the timestamp text
    has no slash (as the format of [strftime] gives it), and leaves every
    other path as it was; on a path that does not exist it does nothing. *)
Theorem create_backup_keeps_file (env : Env) (p : str) (s : Shell) :
  let t := {| micros := clock env (ticks s); utcoffset := None |} in
  slash ∉ strftime env t ->
  exists s',
    create_backup env p s = (Ok tt, s')
    /\ match fs s !! p with
       | Some data =>
           backup_path env p t <> p
           /\ fs s' !! backup_path env p t = Some data
           /\ fs s' !! p = Some data
           /\ (forall q, q <> backup_path env p t -> fs s' !! q = fs s !! q)
       | None => s' = s
       end.
Proof.
  intros t Hts. pose proof (backup_path_differs env p t Hts) as Hneq.
  unfold create_backup. run_monad.
  destruct (fs s !! p) as [data|] eqn:Hf.
  - run_monad. state_simpl. fold t. eexists. split; [reflexivity|]. state_simpl.
    split; [exact Hneq|]. split; [apply lookup_insert_eq|]. split.
    + rewrite lookup_insert_ne by exact Hneq. exact Hf.
    + intros q Hq. apply lookup_insert_ne. intros E. apply Hq. symmetry. exact E.
  - exists s. split; reflexivity.
Qed.

Lemma create_backup_keeps_file_witness :
  let env := Sample.env [] in
  let s := fresh_shell {[ Path (py "notes.txt") := py "old" ]} in
  exists s',
    create_backup env (Path (py "notes.txt")) s = (Ok tt, s')
    /\ fs s' !! py "backups/notes.txt.20240101_000000.bak" = Some (py "old")
    /\ fs s' !! Path (py "notes.txt") = Some (py "old").
Proof.
  intros env s.
  set (t := {| micros := clock env (ticks s); utcoffset := None |}).
  assert (H : slash ∉ strftime env t).
  { apply (bool_decide_eq_false_1 (slash ∈ strftime env t)). vm_compute. reflexivity. }
  assert (Hf : fs s !! Path (py "notes.txt") = Some (py "old"))
    by apply lookup_singleton_eq.
  assert (Hp : backup_path env (Path (py "notes.txt")) t
               = py "backups/notes.txt.20240101_000000.bak")
    by (vm_compute; reflexivity).
  destruct (create_backup_keeps_file env (Path (py "notes.txt")) s H) as [s' [Hrun Hspec]].
  rewrite Hf in Hspec. destruct Hspec as [_ [Hb [Hkeep _]]].
  exists s'. split; [exact Hrun|]. split; [|exact Hkeep].
  rewrite <- Hp. exact Hb.
Defined.

(** ** What an update and a rewrite leave behind *)

Lemma startswith_app (sub s : str) :
  startswith sub s = true -> exists post, s = sub ++ post.
Proof.
  revert s. induction sub as [|a sub IH]; intros s H; simpl in H.
  - exists s. reflexivity.
  - destruct s as [|b s]; [discriminate|].
    apply andb_prop in H as [Hab Hrest]. apply N.eqb_eq in Hab. subst b.
    destruct (IH s Hrest) as [post ->]. exists post. reflexivity.
Qed.






Lemma rewrite_file_run (env : Env) (file_path : str) (content : option str) (s : Shell) :
  rewrite_file env file_path content s
  = match fs s !! Path file_path, content with
    | Some old, Some new =>
        (Ok true,
         set_fs (<[Path file_path := new]>
                   (<[backup_path env (Path file_path)
                        {| micros := clock env (ticks s); utcoffset := None |} := old]>
                      (fs s)))
           (set_ticks (S (ticks s)) s))
    | Some old, None =>
        (Ok false,
         set_fs (<[backup_path env (Path file_path)
                     {| micros := clock env (ticks s); utcoffset := None |} := old]>
                   (fs s))
           (set_ticks (S (ticks s)) s))
    | None, Some new => (Ok true, set_fs (<[Path file_path := new]> (fs s)) s)
    | None, None => (Ok false, s)
    end.
Proof.
  unfold rewrite_file, create_backup. run_monad.
  destruct (fs s !! Path file_path) as [old|] eqn:Hf; destruct content as [new|];
    run_monad; reflexivity.
Qed.



(** ** Loading is all or nothing *)

Lemma mapM_load_bad (env : Env) (items : list json) (bad : json) :
  bad ∈ items -> load_entry env bad = None -> mapM (load_entry env) items = None.
Proof.
  intros Hin Hbad.
  destruct (mapM (load_entry env) items) as [h|] eqn:E; [|reflexivity].
  exfalso.
  assert (Hall : is_Some (mapM (load_entry env) items)) by (rewrite E; eexists; reflexivity).
  apply mapM_is_Some in Hall. rewrite Forall_forall in Hall.
  specialize (Hall bad Hin). simpl in Hall. rewrite Hbad in Hall.
  destruct Hall as [x Hx]. discriminate.
Qed.

(** X9. One entry of the history file that cannot be built (not a dict, a
    key missing, a type that is no message type, a timestamp that is not
    ISO text) makes [_load_history] give up the whole file: the history
    stays as it was, and a manager that starts on such a file starts
    empty. Nothing is raised and the file is left as it is. *)
Theorem load_history_all_or_nothing (env : Env) (s : Shell) (size : Z) (text : str)
    (items : list json) (bad : json) :
  fs s !! history_file = Some text ->
  json_loads env text = Some (JArr items) ->
  bad ∈ items ->
  load_entry env bad = None ->
  _load_history env s = (Ok tt, s)
  /\ exists s',
       ConversationManager_init env size s = (Ok tt, s')
       /\ history s' = [] /\ history_size s' = size /\ fs s' = fs s.
Proof.
  intros Hf Hl Hin Hbad.
  pose proof (mapM_load_bad env items bad Hin Hbad) as Hnone.
  split.
  - apply load_history_fallback. intros text' Hf'.
    rewrite Hf in Hf'. injection Hf' as <-. rewrite Hl. simpl.
    unfold load_entries. simpl. exact Hnone.
  - eexists. split.
    + unfold ConversationManager_init. unfold modify at 1.
      erewrite bind_ok; [|reflexivity].
      apply load_history_fallback. intros text' Hf'. state_simpl.
      rewrite Hf in Hf'. injection Hf' as <-. rewrite Hl. simpl.
      unfold load_entries. simpl. exact Hnone.
    + repeat split.
Qed.

Lemma load_history_all_or_nothing_witness :
  let env := Sample.env [] in
  let text := Sample.dumps entries_one_bad in
  let s := fresh_shell {[ history_file := text ]} in
  exists s',
    ConversationManager_init env 10 s = (Ok tt, s')
    /\ history s' = [] /\ history_size s' = 10 /\ fs s' = fs s.
Proof.
  intros env text s.
  assert (Hf : fs s !! history_file = Some text) by apply lookup_singleton_eq.
  destruct (json_loads env text) as [[| | | | |items|]|] eqn:Hl;
    try (exfalso; vm_compute in Hl; discriminate).
  assert (Hex : exists good bad, items = [good; bad] /\ load_entry env bad = None).
  { vm_compute in Hl. injection Hl as <-. eexists _, _. split; [reflexivity|].
    vm_compute. reflexivity. }
  destruct Hex as [good [bad [-> Hbad]]].
  assert (Hin : bad ∈ [good; bad]) by (right; left).
  exact (proj2 (load_history_all_or_nothing env s 10 text _ bad Hf Hl Hin Hbad)).
Defined.

(** X10. What [add_entry] leaves on disk is the window it leaves in
    memory: a manager that starts on the files as they are after an
    [add_entry] has, whatever its own capacity, the history that
    [add_entry] left, the eviction included. The two hypotheses are the
    contracts of [json] and [datetime] on that window. *)
Theorem add_entry_then_restart (env : Env) (s : Shell) (entry : ConversationEntry.t)
    (restarted : Shell) (size : Z) :
  let h := appended (history_size s) (history s) entry in
  json_loads env (json_dumps env (history_data env h)) = Some (history_data env h) ->
  Forall (fun e =>
            fromisoformat env (isoformat env (ConversationEntry.timestamp e))
            = Some (ConversationEntry.timestamp e)) h ->
  fs restarted = fs (snd (add_entry env entry s)) ->
  history (snd (add_entry env entry s)) = h
  /\ exists s',
       ConversationManager_init env size restarted = (Ok tt, s')
       /\ history s' = h.
Proof.
  intros h Hjson Hiso Hfs. rewrite add_entry_run in *. cbn [snd] in *.
  split; [reflexivity|].
  eexists. split.
  - unfold ConversationManager_init. unfold modify at 1.
    erewrite bind_ok; [|reflexivity].
    eapply load_history_run; [|exact Hjson|apply load_entries_data; exact Hiso].
    state_simpl. rewrite Hfs. simpl. apply lookup_insert_eq.
  - reflexivity.
Qed.

Lemma add_entry_then_restart_witness :
  let env := Sample.env [] in
  let s := with_history_size 2 shell_after_ls in
  let entry := {| ConversationEntry.type := MessageType.ASSISTANT;
                  ConversationEntry.content := JStr (py "done");
                  ConversationEntry.timestamp :=
                    {| micros := Sample.clock 9; utcoffset := None |};
                  ConversationEntry.metadata := JObj [] |} in
  exists s',
    ConversationManager_init env 10 (snd (add_entry env entry s)) = (Ok tt, s')
    /\ history s' = drop 1 (history s) ++ [entry].
Proof.
  intros env s entry.
  set (h := appended (history_size s) (history s) entry).
  assert (Hh : h = drop 1 (history s) ++ [entry]) by (vm_compute; reflexivity).
  assert (H1 : json_loads env (json_dumps env (history_data env h))
               = Some (history_data env h)) by (vm_compute; reflexivity).
  assert (H2 : Forall (fun e =>
            fromisoformat env (isoformat env (ConversationEntry.timestamp e))
            = Some (ConversationEntry.timestamp e)) h).
  { eapply Forall_bool_decide. vm_compute. reflexivity. }
  destruct (add_entry_then_restart env s entry (snd (add_entry env entry s)) 10
              H1 H2 eq_refl)
    as [_ [s' [Hrun Hhist]]].
  exists s'. split; [exact Hrun|]. rewrite Hhist. exact Hh.
Defined.

(** ** What one command action leaves behind *)

Lemma spawns_app (tr1 tr2 : list Event) : spawns (tr1 ++ tr2) = spawns tr1 ++ spawns tr2.
Proof. unfold spawns. apply omap_app. Qed.


Lemma dict_has_lookup (fields : list (str * json)) (key : str) (v : json) :
  lookup_field key fields = Some v -> dict_has (JObj fields) key = true.
Proof.
  intros H. unfold dict_has. rewrite H. apply bool_decide_eq_true_2.
  eexists. reflexivity.
Qed.




(** The start of a command action, up to the call of [execute_command]. *)
Lemma command_action_start (env : Env) (fields : list (str * json)) (c : str)
    (s : Shell) :
  lookup_field (py "type") fields = Some (JStr (py "command")) ->
  lookup_field (py "command") fields = Some (JStr c) ->
  let s0 := set_trace (trace s ++ [ EvPrint (nl ++ py "┌─ Executing Command");
                                    EvPrint (py "│ " ++ c) ]) s in
  let timeout := get_default (JObj fields) (py "timeout") (JInt (command_timeout s)) in
  run_action env (JObj fields) s
  = (result <- execute_command env (JStr c) timeout ;;
     print_block (py "Output:") (stdout result) ;;
     print_block (py "Errors:") (stderr result) ;;
     print (py "└────────────────────") ;;
     entry <- new_entry env MessageType.COMMAND (JStr c)
                (JObj [ (py "stdout", JStr (stdout result));
                        (py "stderr", JStr (stderr result));
                        (py "returncode", JInt (returncode result));
                        (py "execution_time", execution_time result) ]) ;;
     add_entry env entry ;;
     if negb (returncode result =? 0)
     then raise (Exception_ (py "Command failed: " ++ stderr result))
     else ret tt) s0.
Proof.
  intros Hty Hcmd s0 timeout. unfold run_action, getitem. rewrite Hty, Hcmd.
  erewrite bind_ok; [|reflexivity].
  unfold is_str. rewrite bool_decide_eq_true_2 by reflexivity.
  unfold print at 1, emit at 1, modify at 1. erewrite bind_ok; [|reflexivity].
  erewrite bind_ok; [|reflexivity].
  unfold print at 1, emit at 1, modify at 1. erewrite bind_ok; [|reflexivity].
  unfold get at 1. erewrite bind_ok; [|reflexivity]. state_simpl.
  rewrite <- app_assoc. reflexivity.
Qed.

(** What is done with an action whose body raises. *)
Lemma process_action_raises (env : Env) (fields : list (str * json)) (ty : json)
    (e : exn) (s s1 : Shell) :
  lookup_field (py "type") fields = Some ty ->
  run_action env (JObj fields) s = (Raise e, s1) ->
  process_action env (JObj fields) s
  = (Ok tt,
     let s2 := set_trace (trace s1 ++ [EvPrint (nl ++ py "Error processing action: "
                                                  ++ str_exn e)]) s1 in
     match current_task s1 with
     | Some task =>
         set_current_task
           (Some (TaskState.set_last_error (Some (str_exn e)) task)) s2
     | None => s2
     end).
Proof.
  intros Hty Hrun. unfold process_action. rewrite (dict_has_lookup _ _ _ Hty).
  cbn [negb]. rewrite (try_except_raise _ _ _ _ _ Hrun).
  unfold print at 1, emit at 1, modify at 1. erewrite bind_ok; [|reflexivity].
  rewrite record_error_run. reflexivity.
Qed.

Lemma process_action_returns (env : Env) (fields : list (str * json)) (ty : json)
    (s s1 : Shell) :
  lookup_field (py "type") fields = Some ty ->
  run_action env (JObj fields) s = (Ok tt, s1) ->
  process_action env (JObj fields) s = (Ok tt, s1).
Proof.
  intros Hty Hrun. unfold process_action. rewrite (dict_has_lookup _ _ _ Hty).
  cbn [negb]. apply (try_except_ok _ _ _ _ _ Hrun).
Qed.

(** The three ways [execute_command] ends on a string. *)
Lemma execute_command_blocked (env : Env) (c : str) (timeout : json) (s : Shell) :
  is_blocked c = true ->
  execute_command env (JStr c) timeout s
  = (Raise (ValueError (py "Command contains blocked terms: " ++ c)),
     set_ticks (S (ticks s)) s).
Proof.
  intros Hblocked. unfold execute_command. run_monad. rewrite Hblocked. reflexivity.
Qed.

Lemma execute_command_timeout (env : Env) (c : str) (timeout : json) (s : Shell)
    (files : gmap str str) :
  is_blocked c = false ->
  run_process env (spawned s) c timeout (fs s) = (ProcTimeout, files) ->
  execute_command env (JStr c) timeout s
  = (Raise (TimeoutError (py "Command timed out after " ++ py_str env timeout
                            ++ py " seconds: " ++ c)),
     set_trace (trace s ++ [EvSpawn c timeout; EvKill])
       (set_fs files (set_spawned (S (spawned s)) (set_ticks (S (ticks s)) s)))).
Proof.
  intros Hfree Hproc. unfold execute_command. run_monad. rewrite Hfree.
  run_monad. state_simpl. rewrite Hproc. run_monad. state_simpl.
  rewrite <- app_assoc. reflexivity.
Qed.


(** X11. A command action whose command has a denied word: nothing is
    spawned, the files and the history are as before (the command is not
    recorded), and the refusal, which names the command, becomes the last
    error of the task in progress. The loop over the actions goes on. *)
Theorem blocked_command_leaves_no_trace (env : Env) (fields : list (str * json))
    (c : str) (s : Shell) :
  lookup_field (py "type") fields = Some (JStr (py "command")) ->
  lookup_field (py "command") fields = Some (JStr c) ->
  is_blocked c = true ->
  exists s',
    process_action env (JObj fields) s = (Ok tt, s')
    /\ history s' = history s /\ fs s' = fs s
    /\ spawned s' = spawned s /\ spawns (trace s') = spawns (trace s)
    /\ current_task s'
       = with_last_error (py "Command contains blocked terms: " ++ c) (current_task s).
Proof.
  intros Hty Hcmd Hblocked.
  erewrite (process_action_raises env fields _ _ s); [|exact Hty|].
  2:{ rewrite (command_action_start env fields c s Hty Hcmd).
      apply bind_raise. apply execute_command_blocked. exact Hblocked. }
  eexists. split; [reflexivity|]. state_simpl. cbn [str_exn].
  destruct (current_task s) as [task|] eqn:E; state_simpl; rewrite ?E;
    (split; [reflexivity|]; split; [reflexivity|]; split; [reflexivity|];
     split; [|reflexivity]);
    rewrite !spawns_app; simpl; rewrite !app_nil_r; reflexivity.
Qed.

Lemma blocked_command_leaves_no_trace_witness :
  let env := Sample.env [] in
  let s := shell_with_task in
  exists s',
    process_action env
      (JObj [ (py "type", JStr (py "command"));
              (py "command", JStr (py "sudo rm -rf /")) ]) s = (Ok tt, s')
    /\ history s' = history s /\ fs s' = fs s
    /\ spawned s' = spawned s /\ spawns (trace s') = spawns (trace s)
    /\ current_task s'
       = with_last_error (py "Command contains blocked terms: " ++ py "sudo rm -rf /")
           (current_task s).
Proof.
  intros env s.
  apply (blocked_command_leaves_no_trace env
           [ (py "type", JStr (py "command"));
             (py "command", JStr (py "sudo rm -rf /")) ] (py "sudo rm -rf /") s);
    vm_compute; reflexivity.
Defined.

(** X12. A command action whose process does not end within the timeout:
    the process is killed right after it was spawned, the command is not
    recorded in the history, and the last error of the task in progress
    names the timeout and the command. The timeout is the action's own
    [timeout] key, or the configured one when the action has none. *)
Theorem timed_out_command_is_killed (env : Env) (fields : list (str * json))
    (c : str) (s : Shell) (files : gmap str str) :
  let timeout := get_default (JObj fields) (py "timeout") (JInt (command_timeout s)) in
  let message := py "Command timed out after " ++ py_str env timeout
                   ++ py " seconds: " ++ c in
  lookup_field (py "type") fields = Some (JStr (py "command")) ->
  lookup_field (py "command") fields = Some (JStr c) ->
  is_blocked c = false ->
  run_process env (spawned s) c timeout (fs s) = (ProcTimeout, files) ->
  exists s',
    process_action env (JObj fields) s = (Ok tt, s')
    /\ history s' = history s /\ fs s' = files
    /\ spawned s' = S (spawned s)
    /\ trace s'
       = trace s
           ++ [ EvPrint (nl ++ py "┌─ Executing Command");
                EvPrint (py "│ " ++ c);
                EvSpawn c timeout;
                EvKill;
                EvPrint (nl ++ py "Error processing action: " ++ message) ]
    /\ current_task s' = with_last_error message (current_task s).
Proof.
  intros timeout message Hty Hcmd Hfree Hproc.
  erewrite (process_action_raises env fields _ _ s); [|exact Hty|].
  2:{ rewrite (command_action_start env fields c s Hty Hcmd).
      apply bind_raise. apply execute_command_timeout; [exact Hfree|exact Hproc]. }
  eexists. split; [reflexivity|]. state_simpl. cbn [str_exn]. fold message.
  destruct (current_task s) as [task|] eqn:E; state_simpl; rewrite ?E;
    (split; [reflexivity|]; split; [reflexivity|]; split; [reflexivity|];
     split; [|reflexivity]);
    rewrite <- !app_assoc; reflexivity.
Qed.

Lemma timed_out_command_is_killed_witness :
  let env := Sample.env [] in
  let s := shell_with_task in
  exists s',
    process_action env
      (JObj [ (py "type", JStr (py "command"));
              (py "command", JStr (py "sleep 60"));
              (py "timeout", JInt 5) ]) s = (Ok tt, s')
    /\ history s' = history s
    /\ spawns (trace s') = spawns (trace s) ++ [py "sleep 60"]
    /\ current_task s'
       = with_last_error (py "Command timed out after 5 seconds: sleep 60")
           (current_task s).
Proof.
  intros env s.
  destruct (timed_out_command_is_killed env
              [ (py "type", JStr (py "command"));
                (py "command", JStr (py "sleep 60"));
                (py "timeout", JInt 5) ] (py "sleep 60") s (fs s))
    as [s' [Hrun [Hh [_ [_ [Htr Htask]]]]]]; try (vm_compute; reflexivity).
  exists s'. split; [exact Hrun|]. split; [exact Hh|]. split.
  - rewrite Htr, spawns_app. reflexivity.
  - rewrite Htask. f_equal; vm_compute; reflexivity.
Defined.



(** ** Actions that are skipped, and messages *)

(** X14. An action that is not a dict, has no [type] key, or has a
    [type] that is none of [command], [say] and [file] is skipped without
    a word: [process_action] leaves the whole state as it was, and no
    error is recorded for the task. *)
Theorem unknown_action_is_skipped (env : Env) (action : json) (s : Shell) :
  (dict_has action (py "type") = false
   \/ exists fields ty,
        action = JObj fields
        /\ lookup_field (py "type") fields = Some ty
        /\ is_str ty (py "command") = false
        /\ is_str ty (py "say") = false
        /\ is_str ty (py "file") = false) ->
  process_action env action s = (Ok tt, s).
Proof.
  intros [Hno|[fields [ty [-> [Hty [H1 [H2 H3]]]]]]].
  - unfold process_action. rewrite Hno. reflexivity.
  - apply (process_action_returns env fields ty s s Hty).
    unfold run_action, getitem. rewrite Hty.
    erewrite bind_ok; [|reflexivity]. rewrite H1, H2, H3. reflexivity.
Qed.

Lemma unknown_action_is_skipped_witness :
  let env := Sample.env [] in
  let s := shell_with_task in
  process_action env (JStr (py "ls")) s = (Ok tt, s)
  /\ process_action env
       (JObj [ (py "type", JStr (py "Command")); (py "command", JStr (py "ls")) ]) s
     = (Ok tt, s).
Proof.
  intros env s. split.
  - apply unknown_action_is_skipped. left. reflexivity.
  - apply unknown_action_is_skipped. right.
    exists [ (py "type", JStr (py "Command")); (py "command", JStr (py "ls")) ],
           (JStr (py "Command")).
    repeat split; vm_compute; reflexivity.
Defined.

(** X15. A [say] action appends one assistant entry whose content is the
    value of [message] as it is (a string or not) and whose metadata are
    empty, and saves the history; the task is not touched. Without a
    [message] key nothing is appended and the last error of the task in
    progress is the quoted key, as [str(KeyError)] gives it. *)
Theorem say_action_spec (env : Env) (fields : list (str * json)) (s : Shell) :
  lookup_field (py "type") fields = Some (JStr (py "say")) ->
  exists s',
    process_action env (JObj fields) s = (Ok tt, s')
    /\ spawned s' = spawned s
    /\ match lookup_field (py "message") fields with
       | Some msg =>
           exists entry,
             history s' = appended (history_size s) (history s) entry
             /\ ConversationEntry.type entry = MessageType.ASSISTANT
             /\ ConversationEntry.content entry = msg
             /\ ConversationEntry.metadata entry = JObj []
             /\ fs s' = <[history_file := json_dumps env (history_data env (history s'))]>
                          (fs s)
             /\ current_task s' = current_task s
       | None =>
           history s' = history s /\ fs s' = fs s
           /\ current_task s'
              = with_last_error (quote ++ py "message" ++ quote) (current_task s)
       end.
Proof.
  intros Hty.
  assert (Hstart : run_action env (JObj fields) s
                   = (msg <- getitem (JObj fields) (py "message") ;;
                      print (nl ++ py "Assistant: " ++ py_str env msg) ;;
                      entry <- new_entry env MessageType.ASSISTANT msg (JObj []) ;;
                      add_entry env entry) s).
  { unfold run_action. unfold getitem at 1. rewrite Hty.
    erewrite bind_ok; [|reflexivity].
    replace (is_str (JStr (py "say")) (py "command")) with false
      by (vm_compute; reflexivity).
    unfold is_str. rewrite bool_decide_eq_true_2 by reflexivity. reflexivity. }
  unfold getitem in Hstart.
  destruct (lookup_field (py "message") fields) as [msg|] eqn:Hmsg.
  - erewrite bind_ok in Hstart; [|reflexivity].
    unfold print at 1, emit at 1, modify at 1 in Hstart.
    erewrite bind_ok in Hstart; [|reflexivity].
    unfold new_entry at 1, now at 1 in Hstart.
    erewrite bind_ok in Hstart; [|erewrite bind_ok; reflexivity].
    rewrite add_entry_run in Hstart. cbv zeta in Hstart. state_simpl.
    rewrite (process_action_returns env fields _ s _ Hty Hstart).
    eexists. split; [reflexivity|]. state_simpl. split; [reflexivity|].
    eexists. repeat split.
  - rewrite (process_action_raises env fields _ (KeyError (py "message")) s s Hty).
    2:{ rewrite Hstart. apply bind_raise. reflexivity. }
    cbv zeta. cbn [str_exn]. eexists. split; [reflexivity|].
    destruct (current_task s) as [task|] eqn:E; state_simpl; rewrite ?E;
      repeat split.
Qed.

Lemma say_action_spec_witness :
  let env := Sample.env [] in
  let s := shell_with_task in
  exists s' entry,
    process_action env
      (JObj [ (py "type", JStr (py "say")); (py "message", JInt 42) ]) s = (Ok tt, s')
    /\ history s' = appended (history_size s) (history s) entry
    /\ ConversationEntry.content entry = JInt 42
    /\ current_task s' = current_task s.
Proof.
  intros env s.
  destruct (say_action_spec env
              [ (py "type", JStr (py "say")); (py "message", JInt 42) ] s)
    as [s' [Hrun [_ Hspec]]]; [vm_compute; reflexivity|].
  replace (lookup_field (py "message")
             [ (py "type", JStr (py "say")); (py "message", JInt 42) ])
    with (Some (JInt 42)) in Hspec by (vm_compute; reflexivity).
  destruct Hspec as [entry [Hh [_ [Hc [_ [_ Ht]]]]]].
  exists s', entry. repeat split; assumption.
Defined.

(** ** File actions *)

Lemma files_only_refl (s : Shell) : files_only s s.
Proof. split; reflexivity. Qed.

(** The three operations of the file manager return a boolean, never an
    exception, and touch nothing but the files and the clock. *)
Lemma update_file_total (env : Env) (file_path : str) (old new : option str) (s : Shell) :
  exists ok s', update_file env file_path old new s = (Ok ok, s') /\ files_only s s'.
Proof.
  unfold update_file, create_backup. run_monad.
  destruct (fs s !! Path file_path) as [data|] eqn:Hf; run_monad; state_simpl.
  - destruct (<[backup_path env (Path file_path)
                   {| micros := clock env (ticks s); utcoffset := None |} := data]>
                (fs s) !! Path file_path) as [content|]; run_monad;
      [|eexists; eexists; split; [reflexivity|split; reflexivity]].
    destruct old as [old|]; run_monad;
      [|eexists; eexists; split; [reflexivity|split; reflexivity]].
    destruct (negb _); run_monad;
      [eexists; eexists; split; [reflexivity|split; reflexivity]|].
    destruct new as [new|]; run_monad;
      eexists; eexists; (split; [reflexivity|split; reflexivity]).
  - rewrite Hf. run_monad. eexists. eexists. split; [reflexivity|apply files_only_refl].
Qed.

Lemma rewrite_file_total (env : Env) (file_path : str) (content : option str) (s : Shell) :
  exists ok s', rewrite_file env file_path content s = (Ok ok, s') /\ files_only s s'.
Proof.
  rewrite rewrite_file_run.
  destruct (fs s !! Path file_path), content; eexists; eexists;
    (split; [reflexivity|split; reflexivity]).
Qed.

Lemma create_file_total (file_path : str) (content : option str) (s : Shell) :
  exists ok s',
    create_file file_path content s = (Ok ok, s') /\ files_only s s'
    /\ (is_Some (fs s !! Path file_path) -> ok = false /\ fs s' = fs s).
Proof.
  unfold create_file. run_monad.
  destruct (bool_decide (is_Some (fs s !! Path file_path))) eqn:Hex; run_monad.
  - eexists. eexists. split; [reflexivity|]. split; [apply files_only_refl|].
    intros _. split; reflexivity.
  - apply bool_decide_eq_false_1 in Hex.
    destruct content as [text|]; run_monad; eexists; eexists;
      (split; [reflexivity|]; split; [split; reflexivity|]; intros H; contradiction).
Qed.

(** The start of a file action, up to the call of the file manager. *)
Lemma file_action_start (env : Env) (fields : list (str * json)) (s : Shell) :
  lookup_field (py "type") fields = Some (JStr (py "file")) ->
  run_action env (JObj fields) s
  = (file_action <- FileAction_of env (JObj fields) ;;
     print (nl ++ py "┌─ File Operation") ;;
     print (py "│ " ++ FileAction.command file_action ++ py " on "
              ++ FileAction.file_path file_action) ;;
     success <-
       (if bool_decide (FileAction.command file_action = py "update") then
          update_file env (FileAction.file_path file_action)
            (FileAction.old_str file_action) (FileAction.new_str file_action)
        else if bool_decide (FileAction.command file_action = py "rewrite") then
          rewrite_file env (FileAction.file_path file_action)
            (FileAction.content file_action)
        else if bool_decide (FileAction.command file_action = py "create") then
          create_file (FileAction.file_path file_action)
            (FileAction.content file_action)
        else ret false) ;;
     print (py "└─ Operation "
              ++ (if success then py "completed successfully" else py "failed")) ;;
     if success then ret tt
     else raise (Exception_ (py "File operation "
                               ++ FileAction.command file_action ++ py " failed"))) s.
Proof.
  intros Hty. unfold run_action. unfold getitem at 1. rewrite Hty.
  erewrite bind_ok; [|reflexivity].
  replace (is_str (JStr (py "file")) (py "command")) with false
    by (vm_compute; reflexivity).
  replace (is_str (JStr (py "file")) (py "say")) with false
    by (vm_compute; reflexivity).
  unfold is_str. rewrite bool_decide_eq_true_2 by reflexivity. reflexivity.
Qed.

(** X16. A file action whose fields are valid never touches the history
    or spawns anything, and when its operation fails the task in progress
    learns only that it failed: the last error is [File operation
    <command> failed], whatever the cause. A command that is none of
    [update], [rewrite] and [create] fails without touching a file, and
    so does [create] on a path that exists. *)
Theorem file_action_outcome (env : Env) (fields : list (str * json)) (s : Shell)
    (file_path command : str) (content old_str new_str : option str) :
  lookup_field (py "type") fields = Some (JStr (py "file")) ->
  required_str (JObj fields) (py "file_path") = Some file_path ->
  required_str (JObj fields) (py "command") = Some command ->
  optional_str (JObj fields) (py "content") = Some content ->
  optional_str (JObj fields) (py "old_str") = Some old_str ->
  optional_str (JObj fields) (py "new_str") = Some new_str ->
  exists s' (ok : bool),
    process_action env (JObj fields) s = (Ok tt, s')
    /\ history s' = history s /\ spawned s' = spawned s
    /\ spawns (trace s') = spawns (trace s)
    /\ current_task s'
       = (if ok then current_task s
          else with_last_error (py "File operation " ++ command ++ py " failed")
                 (current_task s))
    /\ (command ∉ [py "update"; py "rewrite"; py "create"] ->
        ok = false /\ fs s' = fs s)
    /\ (command = py "create" -> is_Some (fs s !! Path file_path) ->
        ok = false /\ fs s' = fs s).
Proof.
  intros Hty Hfp Hcmd Hc Ho Hn.
  pose proof (file_action_start env fields s Hty) as Hstart.
  unfold FileAction_of in Hstart. rewrite Hfp, Hcmd, Hc, Ho, Hn in Hstart.
  cbn [mbind option_bind] in Hstart.
  erewrite bind_ok in Hstart; [|reflexivity].
  cbn [FileAction.file_path FileAction.command FileAction.content
       FileAction.old_str FileAction.new_str] in Hstart.
  unfold print at 1, emit at 1, modify at 1 in Hstart.
  erewrite bind_ok in Hstart; [|reflexivity].
  unfold print at 1, emit at 1, modify at 1 in Hstart.
  erewrite bind_ok in Hstart; [|reflexivity].
  state_simpl.
  set (s0 := set_trace _ _) in Hstart.
  assert (Hop : exists ok s1,
             (if bool_decide (command = py "update") then
                update_file env file_path old_str new_str
              else if bool_decide (command = py "rewrite") then
                rewrite_file env file_path content
              else if bool_decide (command = py "create") then
                create_file file_path content
              else ret false) s0 = (Ok ok, s1)
             /\ files_only s0 s1
             /\ (command ∉ [py "update"; py "rewrite"; py "create"] ->
                 ok = false /\ fs s1 = fs s0)
             /\ (command = py "create" -> is_Some (fs s0 !! Path file_path) ->
                 ok = false /\ fs s1 = fs s0)).
  { destruct (bool_decide (command = py "update")) eqn:E1.
    { apply bool_decide_eq_true_1 in E1.
      destruct (update_file_total env file_path old_str new_str s0) as [ok [s1 [R F]]].
      exists ok, s1. split; [exact R|]. split; [exact F|]. split.
      - intros Hnot. exfalso. apply Hnot. rewrite E1. left.
      - intros Hcreate. exfalso. rewrite E1 in Hcreate. revert Hcreate.
        vm_compute. discriminate. }
    destruct (bool_decide (command = py "rewrite")) eqn:E2.
    { apply bool_decide_eq_true_1 in E2.
      destruct (rewrite_file_total env file_path content s0) as [ok [s1 [R F]]].
      exists ok, s1. split; [exact R|]. split; [exact F|]. split.
      - intros Hnot. exfalso. apply Hnot. rewrite E2. right. left.
      - intros Hcreate. exfalso. rewrite E2 in Hcreate. revert Hcreate.
        vm_compute. discriminate. }
    destruct (bool_decide (command = py "create")) eqn:E3.
    { apply bool_decide_eq_true_1 in E3.
      destruct (create_file_total file_path content s0) as [ok [s1 [R [F Hex]]]].
      exists ok, s1. split; [exact R|]. split; [exact F|]. split.
      - intros Hnot. exfalso. apply Hnot. rewrite E3. right. right. left.
      - intros _. exact Hex. }
    exists false, s0. split; [reflexivity|]. split; [apply files_only_refl|].
    split; intros; split; reflexivity. }
  destruct Hop as [ok [s1 [Rop [[F1 F2 F3 F4 F5 F6 F7] [Hunknown Hcreate]]]]].
  erewrite bind_ok in Hstart; [|exact Rop].
  unfold print at 1, emit at 1, modify at 1 in Hstart.
  erewrite bind_ok in Hstart; [|reflexivity].
  assert (Htr : forall line extra,
             spawns ((trace s1 ++ [EvPrint line]) ++ extra) = spawns (trace s) ++ spawns extra).
  { intros line extra. rewrite F7. subst s0. state_simpl.
    rewrite !spawns_app. simpl. rewrite !app_nil_r. reflexivity. }
  subst s0. state_simpl.
  exists (match ok with
          | true => set_trace (trace s1 ++ [EvPrint (py "└─ Operation " ++ py "completed successfully")]) s1
          | false =>
              let s2 := set_trace (trace s1 ++ [EvPrint (py "└─ Operation " ++ py "failed")]) s1 in
              let s3 := set_trace (trace s2 ++ [EvPrint (nl ++ py "Error processing action: " ++ py "File operation " ++ command ++ py " failed")]) s2 in
              match current_task s2 with
              | Some task =>
                  set_current_task
                    (Some (TaskState.set_last_error
                             (Some (py "File operation " ++ command ++ py " failed")) task)) s3
              | None => s3
              end
          end), ok.
  destruct ok.
  - rewrite (process_action_returns env fields _ s _ Hty Hstart). state_simpl.
    split; [reflexivity|]. split; [exact F1|]. split; [exact F5|].
    split; [rewrite <- (app_nil_r (_ ++ [_])), Htr; apply app_nil_r|].
    split; [exact F4|]. split.
    + intros H. destruct (Hunknown H). discriminate.
    + intros H1 H2. destruct (Hcreate H1 H2). discriminate.
  - rewrite (process_action_raises env fields _ _ s _ Hty Hstart).
    cbv zeta. cbn [str_exn]. state_simpl. split; [reflexivity|].
    rewrite F4.
    destruct (current_task s) as [task|] eqn:E; state_simpl;
      (split; [exact F1|]; split; [exact F5|];
       split; [rewrite Htr; apply app_nil_r|];
       split; [rewrite ?F4, ?E; reflexivity|]; split;
       [intros H; destruct (Hunknown H); auto
       |intros H1 H2; destruct (Hcreate H1 H2); auto]).
Qed.

Lemma file_action_outcome_witness :
  let env := Sample.env [] in
  let s := shell_with_task in
  exists s',
    process_action env
      (JObj [ (py "type", JStr (py "file"));
              (py "command", JStr (py "delete"));
              (py "file_path", JStr (py "notes.txt")) ]) s = (Ok tt, s')
    /\ history s' = history s /\ fs s' = fs s
    /\ current_task s'
       = with_last_error (py "File operation delete failed") (current_task s).
Proof.
  intros env s.
  destruct (file_action_outcome env
              [ (py "type", JStr (py "file"));
                (py "command", JStr (py "delete"));
                (py "file_path", JStr (py "notes.txt")) ] s
              (py "notes.txt") (py "delete") None None None)
    as [s' [ok [Hrun [Hh [_ [_ [Htask [Hunknown _]]]]]]]];
    try (vm_compute; reflexivity).
  destruct Hunknown as [-> Hfs].
  { apply (bool_decide_eq_false_1
             (py "delete" ∈ [py "update"; py "rewrite"; py "create"])).
    vm_compute. reflexivity. }
  exists s'. split; [exact Hrun|]. split; [exact Hh|]. split; [exact Hfs|].
  rewrite Htask. f_equal; vm_compute; reflexivity.
Defined.

(** X17. A file action without a [file_path] or without a [command] is
    refused before anything is printed about it or done: the files and
    the history are as before, and the last error of the task in progress
    is the message of the validation error. *)
Theorem invalid_file_action_touches_nothing (env : Env) (fields : list (str * json))
    (s : Shell) :
  lookup_field (py "type") fields = Some (JStr (py "file")) ->
  lookup_field (py "file_path") fields = None
  \/ lookup_field (py "command") fields = None ->
  exists s',
    process_action env (JObj fields) s = (Ok tt, s')
    /\ history s' = history s /\ fs s' = fs s /\ ticks s' = ticks s
    /\ trace s'
       = trace s ++ [EvPrint (nl ++ py "Error processing action: "
                                 ++ validation_message env (JObj fields))]
    /\ current_task s'
       = with_last_error (validation_message env (JObj fields)) (current_task s).
Proof.
  intros Hty Hmiss.
  rewrite (process_action_raises env fields _
             (ValidationError (validation_message env (JObj fields))) s s Hty).
  2:{ rewrite (file_action_start env fields s Hty). apply bind_raise.
      unfold FileAction_of, required_str.
      destruct Hmiss as [H|H].
      - rewrite H. reflexivity.
      - rewrite H. destruct (lookup_field (py "file_path") fields) as [[]|]; reflexivity. }
  cbv zeta. cbn [str_exn]. eexists. split; [reflexivity|].
  destruct (current_task s) as [task|] eqn:E; state_simpl; rewrite ?E; repeat split.
Qed.

Lemma invalid_file_action_touches_nothing_witness :
  let env := Sample.env [] in
  let s := shell_with_task in
  let action := JObj [ (py "type", JStr (py "file"));
                       (py "command", JStr (py "create"));
                       (py "content", JStr (py "text")) ] in
  exists s',
    process_action env action s = (Ok tt, s')
    /\ history s' = history s /\ fs s' = fs s
    /\ current_task s' = with_last_error (validation_message env action) (current_task s).
Proof.
  intros env s action.
  destruct (invalid_file_action_touches_nothing env
              [ (py "type", JStr (py "file"));
                (py "command", JStr (py "create"));
                (py "content", JStr (py "text")) ] s)
    as [s' [Hrun [Hh [Hfs [_ [_ Htask]]]]]].
  - vm_compute. reflexivity.
  - left. vm_compute. reflexivity.
  - exists s'. repeat split; assumption.
Defined.

(** ** The API key *)

Lemma startswith_prefix (sub rest : str) : startswith sub (sub ++ rest) = true.
Proof.
  induction sub as [|a sub IH]; simpl; [reflexivity|].
  rewrite N.eqb_refl. exact IH.
Qed.

Lemma lstrip_app_blank (ws rest : str) :
  Forall (fun c => isspace c = true) ws -> lstrip (ws ++ rest) = lstrip rest.
Proof.
  induction 1 as [|c ws Hc _ IH]; simpl; [reflexivity|]. rewrite Hc. exact IH.
Qed.

Lemma rstrip_app_visible (a post : str) (q : N) :
  isspace q = false -> rstrip (a ++ q :: post) = a ++ q :: rstrip post.
Proof.
  intros Hq. induction a as [|c a IH]; simpl.
  - rewrite Hq. destruct (rstrip post); reflexivity.
  - rewrite IH. destruct a; reflexivity.
Qed.

Lemma strip_visible_ends (pad a post : str) (c q : N) :
  Forall (fun c => isspace c = true) pad ->
  isspace c = false -> isspace q = false ->
  strip (pad ++ c :: a ++ q :: post) = c :: a ++ q :: rstrip post.
Proof.
  intros Fpad Hc Hq. unfold strip. rewrite (lstrip_app_blank pad _ Fpad).
  cbn [lstrip]. rewrite Hc.
  exact (rstrip_app_visible (c :: a) post q Hq).
Qed.

Lemma is_quote_visible (q : N) : is_quote q = true -> isspace q = false.
Proof.
  unfold is_quote. intros H. apply orb_prop in H as [H|H];
    apply N.eqb_eq in H; subst q; reflexivity.
Qed.

Lemma key_chars_spec (s key after : str) :
  key_chars s = (key, after) ->
  s = key ++ after
  /\ Forall (fun c => is_quote c = false) key
  /\ match after with [] => True | q :: _ => is_quote q = true end.
Proof.
  revert key after. induction s as [|c s IH]; intros key after H; simpl in H.
  - injection H as <- <-. repeat split. constructor.
  - destruct (is_quote c) eqn:Hc.
    + injection H as <- <-. split; [reflexivity|]. split; [constructor|exact Hc].
    + destruct (key_chars s) as [k a] eqn:E. injection H as <- <-.
      destruct (IH k a eq_refl) as [-> [Hk Ha]].
      split; [reflexivity|]. split; [constructor; assumption|exact Ha].
Qed.

Lemma key_chars_run (key post : str) (q : N) :
  Forall (fun c => is_quote c = false) key ->
  is_quote q = true ->
  key_chars (key ++ q :: post) = (key, q :: post).
Proof.
  intros Hkey Hq. induction Hkey as [|c key Hc _ IH]; simpl.
  - rewrite Hq. reflexivity.
  - rewrite Hc, IH. reflexivity.
Qed.

(** A match at the start of [s] reads an assignment there. *)
Lemma match_api_key_sound (s key : str) :
  match_api_key s = Some key ->
  exists ws1 ws2 q1 q2 post,
    s = py "API_KEY" ++ ws1 ++ [61%N] ++ ws2 ++ [q1] ++ key ++ [q2] ++ post
    /\ Forall (fun c => isspace c = true) ws1
    /\ Forall (fun c => isspace c = true) ws2
    /\ is_quote q1 = true /\ is_quote q2 = true
    /\ key <> []
    /\ Forall (fun c => is_quote c = false) key.
Proof.
  unfold match_api_key. intros H.
  destruct (startswith (py "API_KEY") s) eqn:Hs; [|discriminate].
  apply startswith_app in Hs as [r ->].
  rewrite drop_app_length in H.
  destruct (lstrip_suffix r) as [ws1 [Er Fws1]].
  destruct (lstrip r) as [|c s1]; [discriminate|].
  destruct (N.eq_dec c 61%N) as [->|Hne].
  2:{ exfalso. revert H. clear -Hne.
      destruct c as [|p]; [discriminate|].
      do 6 (destruct p as [p|p|]; try discriminate). congruence. }
  destruct (lstrip_suffix s1) as [ws2 [Es1 Fws2]].
  destruct (lstrip s1) as [|q1 s2]; [discriminate|].
  destruct (is_quote q1) eqn:Hq1; [|discriminate].
  destruct (key_chars s2) as [k after] eqn:Ek.
  destruct (key_chars_spec _ _ _ Ek) as [-> [Hk Hafter]].
  destruct k as [|c k]; [discriminate|].
  destruct after as [|q2 post]; [discriminate|].
  injection H as <-.
  exists ws1, ws2, q1, q2, post.
  split; [rewrite Er, Es1; reflexivity|].
  split; [exact Fws1|]. split; [exact Fws2|]. split; [exact Hq1|].
  split; [exact Hafter|]. split; [discriminate|exact Hk].
Qed.

Lemma match_api_key_run (ws1 ws2 key post : str) (q1 q2 : N) :
  Forall (fun c => isspace c = true) ws1 ->
  Forall (fun c => isspace c = true) ws2 ->
  is_quote q1 = true -> is_quote q2 = true ->
  key <> [] ->
  Forall (fun c => is_quote c = false) key ->
  match_api_key (py "API_KEY" ++ ws1 ++ [61%N] ++ ws2 ++ [q1] ++ key ++ [q2] ++ post)
  = Some key.
Proof.
  intros F1 F2 Hq1 Hq2 Hne Hkey. unfold match_api_key.
  rewrite startswith_prefix, drop_app_length.
  rewrite (lstrip_app_blank ws1 _ F1). cbn [app lstrip].
  replace (isspace 61%N) with false by reflexivity.
  rewrite (lstrip_app_blank ws2 _ F2). cbn [lstrip].
  rewrite (is_quote_visible q1 Hq1), Hq1.
  rewrite (key_chars_run key post q2 Hkey Hq2).
  destruct key; [contradiction|reflexivity].
Qed.

Lemma search_api_key_sound (s key : str) :
  search_api_key s = Some key ->
  exists pre ws1 ws2 q1 q2 post,
    s = pre ++ py "API_KEY" ++ ws1 ++ [61%N] ++ ws2 ++ [q1] ++ key ++ [q2] ++ post
    /\ Forall (fun c => isspace c = true) ws1
    /\ Forall (fun c => isspace c = true) ws2
    /\ is_quote q1 = true /\ is_quote q2 = true
    /\ key <> []
    /\ Forall (fun c => is_quote c = false) key.
Proof.
  induction s as [|c s IH]; intros H.
  - exfalso. revert H. vm_compute. discriminate.
  - cbn [search_api_key] in H.
    destruct (match_api_key (c :: s)) as [k|] eqn:E.
    + injection H as ->.
      destruct (match_api_key_sound _ _ E) as [ws1 [ws2 [q1 [q2 [post Hall]]]]].
      exists [], ws1, ws2, q1, q2, post. exact Hall.
    + destruct (IH H) as [pre [ws1 [ws2 [q1 [q2 [post [-> Hall]]]]]]].
      exists (c :: pre), ws1, ws2, q1, q2, post. split; [reflexivity|exact Hall].
Qed.

Lemma search_api_key_first (s key : str) :
  match_api_key s = Some key -> search_api_key s = Some key.
Proof. intros H. destruct s; cbn [search_api_key]; rewrite H; reflexivity. Qed.

(** X18. [get_api_key] never raises: it returns a key, leaving the state
    as it was, or ends the process with status 1. A key it returns has at
    least 10 characters, none of them a quote, and stands in the stripped
    text of [API_KEY.txt] between two quotes (which need not be the
    same), after [API_KEY], an equals sign and optional whitespace. When
    it ends the process it has printed the error and the expected format,
    and done nothing else. *)
Theorem get_api_key_sound (s : Shell) :
  exists outcome s',
    get_api_key s = (Ok outcome, s')
    /\ match outcome with
       | Returned key =>
           s' = s
           /\ (10 <= length key)%nat
           /\ Forall (fun c => is_quote c = false) key
           /\ exists text pre ws1 ws2 q1 q2 post,
                fs s !! py "API_KEY.txt" = Some text
                /\ strip text
                   = pre ++ py "API_KEY" ++ ws1 ++ [61%N] ++ ws2
                       ++ [q1] ++ key ++ [q2] ++ post
                /\ Forall (fun c => isspace c = true) ws1
                /\ Forall (fun c => isspace c = true) ws2
                /\ is_quote q1 = true /\ is_quote q2 = true
       | Exited code =>
           code = 1
           /\ exists message,
                s' = set_trace
                       (trace s
                          ++ [EvPrint (py "Error reading API key: " ++ message);
                              EvPrint (py "Please ensure API_KEY.txt exists with format: API_KEY='your-key-here'")])
                       s
       end.
Proof.
  assert (Hpath : api_key_path = py "API_KEY.txt") by (vm_compute; reflexivity).
  unfold get_api_key. rewrite Hpath. run_monad.
  destruct (fs s !! py "API_KEY.txt") as [text|] eqn:Hf.
  - rewrite bool_decide_eq_true_2 by (eexists; reflexivity).
    cbn [negb]. run_monad. rewrite Hf. run_monad.
    destruct (search_api_key (strip text)) as [key|] eqn:Hsearch; run_monad.
    + destruct (bool_decide (key = []) || (length key <? 10)%nat) eqn:Hshort; run_monad.
      * eexists (Exited 1). eexists. split; [reflexivity|]. split; [reflexivity|].
        eexists. state_simpl. rewrite <- app_assoc. reflexivity.
      * apply orb_false_elim in Hshort as [_ Hlen]. apply Nat.ltb_ge in Hlen.
        destruct (search_api_key_sound _ _ Hsearch)
          as [pre [ws1 [ws2 [q1 [q2 [post [E [F1 [F2 [Q1 [Q2 [_ Hkey]]]]]]]]]]]].
        exists (Returned key), s. split; [reflexivity|]. split; [reflexivity|].
        split; [exact Hlen|]. split; [exact Hkey|].
        exists text, pre, ws1, ws2, q1, q2, post. repeat split; assumption.
    + eexists (Exited 1). eexists. split; [reflexivity|]. split; [reflexivity|].
      eexists. state_simpl. rewrite <- app_assoc. reflexivity.
  - rewrite bool_decide_eq_false_2 by (intros [x Hx]; discriminate).
    cbn [negb]. run_monad.
    eexists (Exited 1). eexists. split; [reflexivity|]. split; [reflexivity|].
    eexists. state_simpl. rewrite <- app_assoc. reflexivity.
Qed.

(** X19. The first assignment of the file decides. When the text of
    [API_KEY.txt] is, after leading whitespace, [API_KEY], an equals sign
    (with any whitespace around it), a quote, a key that is not empty and
    has no quote, and a quote, then whatever follows, [get_api_key]
    returns that key if it has at least 10 characters, and otherwise ends
    the process with status 1 without looking for another assignment. *)
Theorem get_api_key_first_assignment (s : Shell) (pad ws1 ws2 key post : str)
    (q1 q2 : N) :
  fs s !! py "API_KEY.txt"
  = Some (pad ++ py "API_KEY" ++ ws1 ++ [61%N] ++ ws2 ++ [q1] ++ key ++ [q2] ++ post) ->
  Forall (fun c => isspace c = true) pad ->
  Forall (fun c => isspace c = true) ws1 ->
  Forall (fun c => isspace c = true) ws2 ->
  is_quote q1 = true -> is_quote q2 = true ->
  key <> [] ->
  Forall (fun c => is_quote c = false) key ->
  get_api_key s
  = if (length key <? 10)%nat
    then (Ok (Exited 1),
          set_trace
            (trace s
               ++ [EvPrint (py "Error reading API key: " ++ py "Invalid API key format");
                   EvPrint (py "Please ensure API_KEY.txt exists with format: API_KEY='your-key-here'")])
            s)
    else (Ok (Returned key), s).
Proof.
  intros Hf Fpad F1 F2 Hq1 Hq2 Hne Hkey.
  assert (Hpath : api_key_path = py "API_KEY.txt") by (vm_compute; reflexivity).
  assert (Hhead : exists tl, py "API_KEY" = 65%N :: tl)
    by (eexists; vm_compute; reflexivity).
  assert (Hstrip :
    strip (pad ++ py "API_KEY" ++ ws1 ++ [61%N] ++ ws2 ++ [q1] ++ key ++ [q2] ++ post)
    = py "API_KEY" ++ ws1 ++ [61%N] ++ ws2 ++ [q1] ++ key ++ [q2] ++ rstrip post).
  { destruct Hhead as [tl Htl]. rewrite Htl.
    pose proof (strip_visible_ends pad (tl ++ ws1 ++ [61%N] ++ ws2 ++ [q1] ++ key)
                  post 65%N q2 Fpad eq_refl (is_quote_visible q2 Hq2)) as E.
    rewrite <- !app_assoc in E. cbn [app] in *. exact E. }
  unfold get_api_key. rewrite Hpath. run_monad. rewrite Hf.
  rewrite bool_decide_eq_true_2 by (eexists; reflexivity).
  cbn [negb]. run_monad. rewrite Hf. run_monad. rewrite Hstrip.
  rewrite (search_api_key_first _ key
             (match_api_key_run ws1 ws2 key (rstrip post) q1 q2 F1 F2 Hq1 Hq2 Hne Hkey)).
  rewrite bool_decide_eq_false_2 by exact Hne. cbn [orb].
  destruct (length key <? 10)%nat; run_monad; [|reflexivity].
  state_simpl. rewrite <- app_assoc. reflexivity.
Qed.

Lemma get_api_key_first_assignment_witness :
  let s := fresh_shell {[ py "API_KEY.txt" := py "API_KEY = 'sk-ant-0123456789" ++ [34%N; 10%N] ]} in
  get_api_key s = (Ok (Returned (py "sk-ant-0123456789")), s).
Proof.
  intros s.
  assert (H := get_api_key_first_assignment s [] [32%N] [32%N] (py "sk-ant-0123456789")
                 [10%N] 39%N 34%N).
  replace (length (py "sk-ant-0123456789") <? 10)%nat with false in H
    by (vm_compute; reflexivity).
  apply H.
  - unfold s. cbn [fs fresh_shell]. rewrite lookup_singleton_eq.
    f_equal; vm_compute; reflexivity.
  - constructor.
  - repeat constructor.
  - repeat constructor.
  - reflexivity.
  - reflexivity.
  - vm_compute. discriminate.
  - eapply Forall_bool_decide. vm_compute. reflexivity.
Defined.

(** ** A history that cannot be rendered *)

(** One attempt on a history whose window cannot be rendered: the
    exception of [get_recent_context] leaves [send_to_anthropic] before
    any request is made, and reaches the handler of the engine. *)
Lemma attempt_context_raises (env : Env) (line : str) (s : Shell)
    (task : TaskState.t) (e : exn) :
  current_task s = Some task ->
  format_entries env (slice_from (- history_size s) (history s)) = Raise e ->
  let task1 := TaskState.set_last_error (Some (str_exn e))
                 (TaskState.set_attempts (TaskState.attempts task + 1) task) in
  exists n tr,
    attempt env line s
    = (Ok false,
       {| history := history s; history_size := history_size s;
          command_timeout := command_timeout s;
          current_task := Some task1;
          fs := fs s; ticks := n; spawned := spawned s;
          requested := requested s; trace := trace s ++ tr |})
    /\ sleeps tr = (if TaskState.should_retry task1
                    then [2 ^ TaskState.attempts task] else [])
    /\ requests tr = 0%nat.
Proof.
  intros Htask Hctx task1. unfold attempt.
  set (task0 := TaskState.set_attempts (TaskState.attempts task + 1) task).
  pose (s1 := set_current_task (Some task0) s).
  destruct (retry_notice_run env s1 task0 eq_refl) as [n0 [tr0 [Hnotice [Hs0 Hr0]]]].
  pose (s2 := set_trace (trace s1 ++ tr0) (set_ticks n0 s1)).
  assert (Hsend : send_to_anthropic env line s2 = (Raise e, s2)).
  { unfold send_to_anthropic. apply bind_raise.
    unfold get_recent_context. run_monad. subst s2 s1. state_simpl.
    rewrite Hctx. reflexivity. }
  erewrite try_except_raise.
  2:{ erewrite bind_ok; [|apply update_task_run; exact Htask].
      erewrite bind_ok; [|apply the_task_run; reflexivity].
      erewrite bind_ok; [|exact Hnotice].
      apply bind_raise. exact Hsend. }
  unfold print at 1, emit at 1. erewrite bind_ok; [|reflexivity].
  erewrite bind_ok; [|apply update_task_run; reflexivity].
  erewrite bind_ok; [|apply the_task_run; reflexivity].
  change (TaskState.set_last_error (Some (str_exn e)) task0) with task1.
  destruct (TaskState.should_retry task1) eqn:Hretry.
  - eexists. eexists. split.
    + run_monad. subst s2 s1. state_record. rewrite <- !app_assoc. reflexivity.
    + split; [rewrite !sleeps_app, Hs0|rewrite !requests_app, Hr0]; simpl.
      * subst task1 task0. task_simpl.
        replace (TaskState.attempts task + 1 - 1) with (TaskState.attempts task) by lia.
        reflexivity.
      * reflexivity.
  - eexists. eexists. split.
    + run_monad. subst s2 s1. state_record. rewrite <- !app_assoc. reflexivity.
    + split; [rewrite !sleeps_app, Hs0|rewrite !requests_app, Hr0]; reflexivity.
Qed.

Lemma retry_loop_context_raises (env : Env) (line : str) (e : exn) (n : nat) :
  forall (s : Shell) (task : TaskState.t),
    current_task s = Some task ->
    TaskState.in_progress task = true ->
    TaskState.completed task = false ->
    n = Z.to_nat (TaskState.max_attempts task - TaskState.attempts task) ->
    format_entries env (slice_from (- history_size s) (history s)) = Raise e ->
    exists m tr task',
      retry_loop env n line s
      = (Ok true,
         {| history := history s; history_size := history_size s;
            command_timeout := command_timeout s;
            current_task := Some task';
            fs := fs s; ticks := m; spawned := spawned s;
            requested := requested s; trace := trace s ++ tr |})
      /\ sleeps tr = backoff_delays (TaskState.attempts task) (n - 1)
      /\ requests tr = 0%nat
      /\ TaskState.in_progress task' = true
      /\ TaskState.completed task' = false
      /\ TaskState.attempts task' = TaskState.attempts task + Z.of_nat n
      /\ TaskState.max_attempts task' = TaskState.max_attempts task
      /\ ((0 < n)%nat -> TaskState.last_error task' = Some (str_exn e)).
Proof.
  induction n as [|n IH]; intros s task Htask Hin Hdone Hfuel Hctx.
  - exists (ticks s), [], task.
    split.
    + cbn [retry_loop]. erewrite bind_ok; [|apply the_task_run; exact Htask].
      assert (Hstop : TaskState.should_retry task = false).
      { unfold TaskState.should_retry. rewrite Hin, Hdone. simpl.
        apply Z.ltb_ge. lia. }
      rewrite Hstop. unfold ret. rewrite app_nil_r, <- Htask.
      destruct s; reflexivity.
    + repeat split; try assumption; try lia.
  - assert (Hgo : TaskState.should_retry task = true).
    { unfold TaskState.should_retry. rewrite Hin, Hdone. simpl.
      apply Z.ltb_lt. lia. }
    destruct (attempt_context_raises env line s task e Htask Hctx)
      as [m1 [tr1 [Hattempt [Hs1 Hr1]]]].
    cbv zeta in Hattempt, Hs1.
    match type of Hattempt with _ = (_, ?st) => set (s1 := st) in * end.
    match type of Hs1 with context [TaskState.should_retry ?t] => set (task1 := t) in * end.
    destruct (IH s1 task1) as [m [tr [task' [Hloop Hrest]]]];
      try reflexivity; try assumption.
    { subst task1. task_simpl. lia. }
    destruct Hrest as [Hs [Hr [Hin' [Hdone' [Hatt [Hmax Herr]]]]]].
    exists m, (tr1 ++ tr), task'. split.
    + cbn [retry_loop]. erewrite bind_ok; [|apply the_task_run; exact Htask].
      rewrite Hgo. erewrite bind_ok; [|exact Hattempt].
      cbn beta iota. rewrite Hloop. subst s1. state_simpl. rewrite <- app_assoc.
      reflexivity.
    + rewrite sleeps_app, requests_app, Hs1, Hr1, Hs, Hr.
      assert (Hlast : TaskState.last_error task' = Some (str_exn e)).
      { destruct n as [|n'].
        - cbn [retry_loop] in Hloop.
          erewrite bind_ok in Hloop; [|apply the_task_run; reflexivity].
          assert (Hstop : TaskState.should_retry task1 = false).
          { unfold TaskState.should_retry. subst task1. task_simpl.
            rewrite Hin, Hdone. simpl. apply Z.ltb_ge. lia. }
          rewrite Hstop in Hloop. unfold ret in Hloop.
          inversion Hloop as [[Htask' Hm Htr]]. reflexivity.
        - apply Herr. lia. }
      subst task1. task_simpl.
      repeat split; try assumption; try lia; try (intros _; exact Hlast).
      unfold TaskState.should_retry. task_simpl. rewrite Hin, Hdone.
      cbn [andb negb].
      destruct n as [|n'].
      * replace (TaskState.attempts task + 1 <? TaskState.max_attempts task) with false
          by (symmetry; apply Z.ltb_ge; lia).
        reflexivity.
      * replace (TaskState.attempts task + 1 <? TaskState.max_attempts task) with true
          by (symmetry; apply Z.ltb_lt; lia).
        cbn [backoff_delays app Nat.sub]. rewrite Nat.sub_0_r. reflexivity.
Qed.

(** X20. One command entry whose metadata are not a dict, in a history
    that still has room, stops the shell from reaching the model: on a
    line that is not blank [default] uses its three attempts without
    sending one request, sleeps 1 and then 2 seconds between them, and
    leaves the task incomplete with the rendering error as last error.
    The entry is still in the history afterwards. *)
Theorem unrenderable_history_stalls (env : Env) (line : str) (s : Shell)
    (bad : ConversationEntry.t) :
  strip line <> [] ->
  bad ∈ history s ->
  ConversationEntry.type bad = MessageType.COMMAND ->
  is_dict (ConversationEntry.metadata bad) = false ->
  Z.of_nat (length (history s)) < history_size s ->
  exists s' task tr message,
    default env line s = (Ok tt, s')
    /\ requested s' = requested s
    /\ trace s' = trace s ++ tr /\ requests tr = 0%nat /\ sleeps tr = [1; 2]
    /\ current_task s' = Some task
    /\ TaskState.attempts task = 3
    /\ TaskState.completed task = false
    /\ TaskState.last_error task = Some message
    /\ bad ∈ history s'.
Proof.
  intros Hline Hbad Hty Hmd Hroom.
  destruct (default_setup env line s Hline)
    as [s0 [user [t [Hrun [Htask0 [Heff0 [Hh0 _]]]]]]].
  destruct Heff0 as [Hsz0 _ Hreq0 [tr0 [Htr0 [Hsl0 Hrq0]]] _].
  rewrite Nat.add_0_r in Hreq0.
  assert (Hhist : history s0 = history s ++ [user]).
  { rewrite Hh0. unfold appended. rewrite length_app. simpl.
    replace (Z.of_nat (length (history s) + 1) >? history_size s) with false;
      [reflexivity|].
    symmetry. rewrite Z.gtb_ltb. apply Z.ltb_ge. lia. }
  assert (Hwindow : slice_from (- history_size s0) (history s0) = history s0).
  { unfold slice_from. rewrite Hsz0, Hhist, length_app. simpl.
    replace (- history_size s <? 0) with true by (symmetry; apply Z.ltb_lt; lia).
    replace (Z.to_nat (Z.of_nat (length (history s) + 1) + - history_size s))
      with 0%nat by lia.
    reflexivity. }
  assert (Hraise : exists e,
             format_entries env (slice_from (- history_size s0) (history s0)) = Raise e).
  { rewrite Hwindow.
    destruct (format_entries env (history s0)) as [texts|e] eqn:E; [|eexists; reflexivity].
    exfalso.
    assert (Hwf : wf_history (history s0))
      by (apply (format_entries_ok_iff env); eexists; exact E).
    unfold wf_history in Hwf. rewrite Forall_forall in Hwf.
    assert (Hin : bad ∈ history s0) by (rewrite Hhist; apply elem_of_app; left; exact Hbad).
    specialize (Hwf bad Hin Hty). rewrite Hmd in Hwf. discriminate. }
  destruct Hraise as [e Hraise].
  destruct (retry_loop_context_raises env line e 3 s0 _ Htask0 eq_refl eq_refl eq_refl Hraise)
    as [m [tr [task' [Hloop [Hs [Hr [_ [Hdone [Hatt [_ Herr]]]]]]]]]].
  task_simpl.
  pose proof (process_input_reports env line s0 _ _ task' true Htask0 Hloop eq_refl Hdone)
    as Hproc.
  rewrite Hrun, Hproc.
  eexists. exists task'. eexists. exists (str_exn e).
  split; [reflexivity|]. state_simpl.
  split; [exact Hreq0|]. split.
  { rewrite Htr0, <- !app_assoc. reflexivity. }
  split.
  { rewrite !requests_app, Hrq0, Hr. reflexivity. }
  split.
  { rewrite !sleeps_app, Hsl0, Hs. reflexivity. }
  split; [reflexivity|]. split; [exact Hatt|]. split; [exact Hdone|].
  split; [apply Herr; lia|].
  rewrite Hhist. apply elem_of_app. left. exact Hbad.
Qed.

Lemma unrenderable_history_stalls_witness :
  let env := Sample.env [ApiText (py "hello")] in
  let s := set_history [entry_without_metadata] (fresh_shell ∅) in
  exists s' task tr,
    default env (py "list files") s = (Ok tt, s')
    /\ requested s' = 0%nat
    /\ trace s' = tr /\ requests tr = 0%nat /\ sleeps tr = [1; 2]
    /\ current_task s' = Some task
    /\ TaskState.attempts task = 3
    /\ TaskState.completed task = false.
Proof.
  intros env s.
  destruct (unrenderable_history_stalls env (py "list files") s entry_without_metadata)
    as [s' [task [tr [message [Hrun [Hreq [Htr [Hr [Hs [Htask [Hatt [Hdone _]]]]]]]]]]]].
  - vm_compute. discriminate.
  - left.
  - reflexivity.
  - reflexivity.
  - vm_compute. reflexivity.
  - exists s', task, tr. repeat split; assumption.
Defined.

(** ** Status and statistics *)

(** X21. The duration that [check_in] shows is the seconds field of the
    elapsed time, not the elapsed seconds: it starts again at 0 every
    day, so a check-in any whole number of days later gives the same
    text. *)
Theorem check_in_duration_wraps (task : TaskState.t) (now : datetime) (days : Z) :
  TaskState.check_in
    {| micros := micros now + days * 86400000000; utcoffset := utcoffset now |} task
  = TaskState.check_in now task.
Proof.
  unfold TaskState.check_in. cbn [micros].
  replace (micros now + days * 86400000000 - micros (TaskState.start_time task))
    with (micros now - micros (TaskState.start_time task) + (days * 86400) * 1000000)
    by lia.
  rewrite Z.div_add by lia. rewrite Z_mod_plus_full. reflexivity.
Qed.

Lemma count_type_partition (h : list ConversationEntry.t) :
  (count_type MessageType.USER h + count_type MessageType.ASSISTANT h
   + count_type MessageType.COMMAND h + count_type MessageType.SYSTEM h)%nat
  = length h.
Proof.
  unfold count_type. induction h as [|entry h IH]; [reflexivity|].
  cbn [List.filter length].
  destruct (ConversationEntry.type entry); simpl; lia.
Qed.

(** X22. [do_stats] changes nothing but the console, on which it prints
    six lines, and answers [False], so the shell goes on. The three
    counts it shows add up to the total it shows exactly when the history
    holds no system entry; the shell builds none itself, but a history
    file can hold some. *)
Theorem do_stats_spec (arg : str) (s : Shell) :
  exists s',
    do_stats arg s = (Ok false, s')
    /\ console_only s s' (stats_lines (history s))
    /\ ((count_type MessageType.USER (history s)
         + count_type MessageType.ASSISTANT (history s)
         + count_type MessageType.COMMAND (history s))%nat = length (history s)
        <-> Forall (fun entry => ConversationEntry.type entry <> MessageType.SYSTEM)
              (history s)).
Proof.
  unfold do_stats. run_monad. eexists. split; [reflexivity|]. split.
  { split; try reflexivity. state_simpl. rewrite <- !app_assoc. reflexivity. }
  pose proof (count_type_partition (history s)) as Hsum.
  assert (Hsys : count_type MessageType.SYSTEM (history s) = 0%nat
                 <-> Forall (fun entry => ConversationEntry.type entry <> MessageType.SYSTEM)
                       (history s)).
  { clear. unfold count_type. induction (history s) as [|entry h IH].
    - split; [constructor|reflexivity].
    - cbn [List.filter]. destruct (bool_decide _) eqn:E.
      + apply bool_decide_eq_true_1 in E. simpl. split; [discriminate|].
        intros H. inversion H; subst. contradiction.
      + apply bool_decide_eq_false_1 in E. rewrite IH. split.
        * intros H. constructor; assumption.
        * intros H. inversion H; subst. assumption. }
  rewrite <- Hsys. lia.
Qed.
